(** * Account service: reliable event publication and domain model

    A shallow embedding of the parts of the Account micro-service that
    deal with event publication after a mutation
    (HealthProfessionalService, EducatorService), the IntegrationEvent
    class, and the Family model's children list.

    JavaScript objects are ordered property lists, promises are values in
    one of three states, and an `async` method is a function from the
    trace of effects performed so far to the state of the promise it
    returns together with the extended trace. *)

From stdpp Require Import base strings list gmap.

Local Open Scope string_scope.
Local Open Scope list_scope.

(** ** JavaScript values *)

Module JS.

(** A JSON-like tree, with `undefined` and `Date` as the program has them
    before serialization.  A `Date` is its epoch milliseconds. *)
#[warnings="-register-all"]
Inductive value : Type :=
| VUndefined
| VNull
| VBool (b : bool)
| VNum (n : Z)
| VStr (s : string)
| VDate (ms : Z)
| VArr (items : list value)
| VObj (props : list (string * value)).

Definition obj : Type := list (string * value).

(** `o[k]`: the value of property [k], `undefined` when absent. *)
Fixpoint obj_get (k : string) (o : obj) : value :=
  match o with
  | [] => VUndefined
  | (k', v) :: rest => if String.eqb k k' then v else obj_get k rest
  end.

(** `o[k] = v`: an existing property keeps its position, a new one is
    added last. *)
Fixpoint obj_set (k : string) (v : value) (o : obj) : obj :=
  match o with
  | [] => [(k, v)]
  | (k', v') :: rest =>
      if String.eqb k k' then (k', v) :: rest else (k', v') :: obj_set k v rest
  end.

(** `{...a, ...b}` *)
Definition obj_spread (a b : obj) : obj :=
  foldl (fun acc kv => obj_set kv.1 kv.2 acc) a b.

(** `JSON.parse(JSON.stringify(v))` for a value other than `undefined`:
    members whose value is `undefined` are dropped from objects and become
    `null` in arrays, a Date becomes its ISO string ([toISOString] is the
    runtime's `Date.prototype.toISOString`). *)
Fixpoint json_copy (toISOString : Z -> string) (v : value) : value :=
  match v with
  | VDate ms => VStr (toISOString ms)
  | VArr items =>
      VArr (map (fun x => match x with
                          | VUndefined => VNull
                          | _ => json_copy toISOString x
                          end) items)
  | VObj props =>
      VObj ((fix members (ps : list (string * value)) : list (string * value) :=
               match ps with
               | [] => []
               | (k, VUndefined) :: rest => members rest
               | (k, x) :: rest => (k, json_copy toISOString x) :: members rest
               end) props)
  | other => other
  end.

(** The object case of [json_copy], as a function of its own. *)
Fixpoint json_members (toISOString : Z -> string) (ps : obj) : obj :=
  match ps with
  | [] => []
  | (k, VUndefined) :: rest => json_members toISOString rest
  | (k, x) :: rest => (k, json_copy toISOString x) :: json_members toISOString rest
  end.

(** `${x}` for an optional string. *)
Definition show (x : option string) : string :=
  match x with
  | Some s => s
  | None => "undefined"
  end.

End JS.

Import JS.

(** ** Exceptions *)

Inductive exn : Type :=
| ConflictException (message : string)
| ValidationException (message description : string)
| Error (message : string).

Definition message (e : exn) : string :=
  match e with
  | ConflictException m => m
  | ValidationException m _ => m
  | Error m => m
  end.

(** ** Promises and async methods *)

(** The state a promise ends in.  [Pending] is a promise that never
    settles. *)
Inductive promise (A : Type) : Type :=
| Fulfilled (a : A)
| Rejected (e : exn)
| Pending.

Arguments Fulfilled {A} a.
Arguments Rejected {A} e.
Arguments Pending {A}.

Module Async.
Section WithEffects.
Context {effect : Type}.

(** An async method: from the effects performed so far to the state of
    the returned promise and the effects performed by then. *)
Definition t (A : Type) : Type := list effect -> promise A * list effect.

Definition ret {A} (a : A) : t A := fun tr => (Fulfilled a, tr).

(** `throw e` inside an async method, and `return Promise.reject(e)`. *)
Definition throw {A} (e : exn) : t A := fun tr => (Rejected e, tr).

Definition bind {A B} (m : t A) (k : A -> t B) : t B :=
  fun tr =>
    match m tr with
    | (Fulfilled a, tr') => k a tr'
    | (Rejected e, tr') => (Rejected e, tr')
    | (Pending, tr') => (Pending, tr')
    end.

(** A synchronous side effect of the method. *)
Definition perform (e : effect) : t unit := fun tr => (Fulfilled tt, tr ++ [e]).

(** `await p`: resumes with the value, throws the rejection reason, or
    never resumes. *)
Definition await {A} (p : promise A) : t A := fun tr => (p, tr).

(** `await collaborator.method(args)`: the call is recorded, then its
    promise is awaited. *)
Definition call {A} (e : effect) (p : promise A) : t A :=
  bind (perform e) (fun _ => await p).

(** A static validator: `None` passes, `Some e` throws [e]. *)
Definition check (v : option exn) : t unit :=
  match v with
  | Some e => throw e
  | None => ret tt
  end.

(** `try { body } catch (err) { handler(err) }`: a body that is still
    waiting never reaches the handler. *)
Definition try_catch {A} (body : t A) (handler : exn -> t A) : t A :=
  fun tr =>
    match body tr with
    | (Rejected e, tr') => handler e tr'
    | settled => settled
    end.

(** `p.then(on_ok).catch(on_err)` without `await`: the caller goes on at
    once, whatever becomes of [p] and of the callbacks.  The callbacks'
    effects are recorded where the chain is attached. *)
Definition then_catch {A} (p : promise A)
    (on_ok : A -> t unit) (on_err : exn -> t unit) : t unit :=
  fun tr =>
    match p with
    | Fulfilled a =>
        match on_ok a tr with
        | (Rejected e, tr') => (Fulfilled tt, (on_err e tr').2)
        | (_, tr') => (Fulfilled tt, tr')
        end
    | Rejected e => (Fulfilled tt, (on_err e tr).2)
    | Pending => (Fulfilled tt, tr)
    end.

(** Running a method from an empty trace. *)
Definition run {A} (m : t A) : promise A * list effect := m [].
Definition result {A} (m : t A) : promise A := (run m).1.
Definition effects {A} (m : t A) : list effect := (run m).2.
End WithEffects.

Arguments t : clear implicits.
End Async.

Notation "x <- m ;; k" := (Async.bind m (fun x => k))
  (at level 100, m at next level, right associativity, only parsing).
Notation "m ;;; k" := (Async.bind m (fun _ => k))
  (at level 100, right associativity, only parsing).

(** ** Domain model *)

Module Institution.
Record t : Type := mk { id : option string; name : option string }.
End Institution.

Module ChildrenGroup.
Record t : Type := mk { id : option string; name : option string }.
End ChildrenGroup.

(** Educator and HealthProfessional both extend User with a list of
    children groups; the fields are the ones their entity mappers read. *)
Module User.
Record t : Type := mk {
  id : option string;
  username : option string;
  password : option string;
  institution : option Institution.t;
  children_groups : option (list ChildrenGroup.t);
  last_login : option Z
}.

(** `user.id = v` *)
Definition set_id (v : option string) (u : t) : t :=
  mk v (username u) (password u) (institution u) (children_groups u) (last_login u).
End User.

Module Child.
Record t : Type := mk {
  id : option string;
  username : option string;
  gender : option string;
  age : option Z
}.
End Child.

(** ** Integration events (integration.event.ts) *)

Inductive EventType : Type := USERS | INSTITUTIONS.

Definition EventType_value (ty : EventType) : string :=
  match ty with
  | USERS => "users"
  | INSTITUTIONS => "institutions"
  end.

Module IntegrationEvent.
(** `protected constructor(readonly event_name, readonly type, readonly timestamp?)` *)
Record t : Type := new {
  event_name : string;
  type : EventType;
  timestamp : option Z
}.

Definition toJSON (this : t) : obj :=
  [ ("event_name", VStr (event_name this));
    ("timestamp", match timestamp this with
                  | Some ms => VDate ms
                  | None => VUndefined
                  end);
    ("type", VStr (EventType_value (type this))) ].
End IntegrationEvent.

Module UserUpdateEvent.
(** Modelled from the spec: the class UserUpdateEvent (user.update.event.ts)
    is imported by the health professional service and is not part of the
    sources.  It is an IntegrationEvent of type USERS carrying the updated
    user; serialized, it has the fields of the serialized IntegrationEvent
    and the serialized entity under a resource key, here `user`. *)
Record t : Type := mk {
  base : IntegrationEvent.t;
  user : User.t
}.

(** Modelled from the spec: `new UserUpdateEvent(event_name, timestamp, user)`,
    an event of type USERS. *)
Definition new (event_name : string) (timestamp : option Z) (user : User.t) : t :=
  mk (IntegrationEvent.new event_name USERS timestamp) user.

Definition event_name (this : t) : string := IntegrationEvent.event_name (base this).

(** Modelled from the spec: the wire shape of section 6, the serialized
    base event spread first, then the entity under its resource key. *)
Definition toJSON (user_toJSON : User.t -> value) (this : t) : obj :=
  obj_spread (IntegrationEvent.toJSON (base this)) [("user", user_toJSON (user this))].
End UserUpdateEvent.

(** ** Effects and collaborators *)

Inductive level : Type := Info | Warn | Err.

#[global] Instance level_eq_dec : EqDecision level.
Proof. solve_decision. Defined.

(** What a service method does to the outside: calls on its injected
    collaborators, in order, and log lines. *)
Inductive effect : Type :=
| CheckExist (user : User.t)
| InstitutionCheckExist (institution : Institution.t)
| Update (user : User.t)
| FindById (id : string)
| ChildrenGroupRemove (id : string)
| Publish (event : UserUpdateEvent.t) (routing_key : string)
| PubUpdateEducator (educator : User.t)
| StoreCreate (record : value)
| Log (lvl : level) (msg : string).

(** The methods of IEducatorRepository / IHealthProfessionalRepository
    that the services call. *)
Record IUserRepository : Type := {
  repo_checkExist : User.t -> promise bool;
  repo_update : User.t -> promise (option User.t);
  repo_findById : string -> promise (option User.t)
}.

Record IInstitutionRepository : Type := {
  inst_checkExist : Institution.t -> promise bool
}.

Record IChildrenGroupService : Type := {
  cg_remove : string -> promise bool
}.

Record IIntegrationEventRepository : Type := {
  store_create : value -> promise value
}.

(** infrastructure/port/event.bus.interface: `publish(event, routingKey)`. *)
Record IEventBus : Type := {
  bus_publish : UserUpdateEvent.t -> string -> promise bool
}.

(** infrastructure/port/eventbus.interface: `bus.pubUpdateEducator(educator)`. *)
Record IEventBusClient : Type := {
  bus_pubUpdateEducator : User.t -> promise unit
}.

(** Imported code that is not part of the sources (validators, model
    methods, the Strings table) and builtins of the runtime. *)
Record Imports : Type := {
  UpdateUserValidator_validate : User.t -> option exn;
  UpdateEducatorValidator_validate : User.t -> option exn;
  ObjectIdValidator_validate : string -> option string -> option exn;
  User_toJSON : User.t -> value;
  removeChildrenGroup : User.t -> ChildrenGroup.t -> User.t;
  HEALTH_PROFESSIONAL_ALREADY_REGISTERED : string;
  EDUCATOR_ALREADY_REGISTERED : string;
  EDUCATOR_PARAM_ID_NOT_VALID_FORMAT : string;
  CHILDREN_GROUP_PARAM_ID_NOT_VALID_FORMAT : string;
  INSTITUTION_REGISTER_REQUIRED : string;
  INSTITUTION_ALERT_REGISTER_REQUIRED : string;
  Date_now : Z;
  toISOString : Z -> string;
  JSON_stringify : value -> string
}.

(** Step "Checks if the institution exists", shared by both services. *)
Definition check_institution (lib : Imports) (repo : IInstitutionRepository)
    (user : User.t) : Async.t effect unit :=
  match User.institution user with
  | Some institution =>
      match Institution.id institution with
      | Some _ =>
          institutionExist <- Async.call (InstitutionCheckExist institution)
                                (inst_checkExist repo institution) ;;
          if negb institutionExist
          then Async.throw (ValidationException (INSTITUTION_REGISTER_REQUIRED lib)
                              (INSTITUTION_ALERT_REGISTER_REQUIRED lib))
          else Async.ret tt
      | None => Async.ret tt
      end
  | None => Async.ret tt
  end.

(** Effects that neither reach the bus or the event store nor log. *)
Definition silent (effs : list effect) : Prop :=
  Forall (fun e => match e with
                   | Publish _ _ | PubUpdateEducator _ | StoreCreate _ | Log _ _ => False
                   | _ => True
                   end) effs.

(** The institution step lets the method go on. *)
Definition institution_ok (repo : IInstitutionRepository) (user : User.t) : Prop :=
  match User.institution user with
  | Some institution =>
      match Institution.id institution with
      | Some _ => inst_checkExist repo institution = Fulfilled true
      | None => True
      end
  | None => True
  end.

(** The username of the educator counts as given (`if (educator.username)`). *)
Definition truthy (s : option string) : bool :=
  match s with
  | Some (String _ _) => true
  | _ => false
  end.

(** ** HealthProfessionalService (health.professional.service.ts) *)

Module HealthProfessionalService.

Record t : Type := {
  _healthProfessionalRepository : IUserRepository;
  _institutionRepository : IInstitutionRepository;
  _childrenGroupService : IChildrenGroupService;
  _integrationEventRepository : IIntegrationEventRepository;
  _eventBus : IEventBus;
  lib : Imports
}.

(** The local `saveEvent` of the method `saveEvent`, once its two
    fields are attached. *)
Definition saveEvent_object (this : t) (event : UserUpdateEvent.t) : obj :=
  let saveEvent := UserUpdateEvent.toJSON (User_toJSON (lib this)) event in
  let saveEvent := obj_set "__operation" (VStr "publish") saveEvent in
  obj_set "__routing_key" (VStr "healthprofessionals.update") saveEvent.

(** The warning of `saveEvent`'s `then` callback. *)
Definition saved_warning (event : UserUpdateEvent.t) : string :=
  ("Could not publish the event named " +:+ UserUpdateEvent.event_name event +:+ ".")
  +:+ " The event was saved in the database for a possible recovery.".

(** The error of `saveEvent`'s `catch` callback: the event name, the
    error's message and `JSON.stringify(saveEvent)`. *)
Definition save_error (this : t) (event : UserUpdateEvent.t) (err : exn) : string :=
  ("There was an error trying to save the name event: "
   +:+ UserUpdateEvent.event_name event +:+ ".")
  +:+ ("Error: " +:+ message err +:+ ". Event: "
       +:+ JSON_stringify (lib this) (VObj (saveEvent_object this event))).

(** `private saveEvent(event): void`.  The store's promise is not
    awaited: the two callbacks only log. *)
Definition saveEvent (this : t) (event : UserUpdateEvent.t) : Async.t effect unit :=
  let saveEvent := saveEvent_object this event in
  let record := json_copy (toISOString (lib this)) (VObj saveEvent) in
  Async.perform (StoreCreate record) ;;;
  Async.then_catch (store_create (_integrationEventRepository this) record)
    (fun _ => Async.perform (Log Warn (saved_warning event)))
    (fun err => Async.perform (Log Err (save_error this event err))).

(** The info line of `update` after a publish that succeeded. *)
Definition published_info (up : User.t) : string :=
  ("User of type Health Professional with ID: " +:+ show (User.id up)
   +:+ " has been updated") +:+ " and published on event bus...".

(** The `event` of `update`: `new UserUpdateEvent('HealthProfessionalUpdateEvent',
    new Date(), healthProfessionalUp)`. *)
Definition update_event (this : t) (healthProfessionalUp : User.t) : UserUpdateEvent.t :=
  UserUpdateEvent.new "HealthProfessionalUpdateEvent" (Some (Date_now (lib this)))
    healthProfessionalUp.

Definition update (this : t) (healthProfessional : User.t)
    : Async.t effect (option User.t) :=
  healthProfessional <-
    Async.try_catch
      ((* 1. Validate Health Professional parameters. *)
       Async.check (UpdateUserValidator_validate (lib this) healthProfessional) ;;;
       (* 2. Checks if Health Professional already exists. *)
       let id := User.id healthProfessional in
       let healthProfessional := User.set_id None healthProfessional in
       healthProfessionalExist <-
         Async.call (CheckExist healthProfessional)
           (repo_checkExist (_healthProfessionalRepository this) healthProfessional) ;;
       if (healthProfessionalExist : bool)
       then Async.throw (ConflictException (HEALTH_PROFESSIONAL_ALREADY_REGISTERED (lib this)))
       else
         let healthProfessional := User.set_id id healthProfessional in
         (* 3. Checks if the institution exists. *)
         check_institution (lib this) (_institutionRepository this) healthProfessional ;;;
         Async.ret healthProfessional)
      (fun err => Async.throw err) ;;
  (* 4. Update Health Professional data. *)
  healthProfessionalUp <-
    Async.call (Update healthProfessional)
      (repo_update (_healthProfessionalRepository this) healthProfessional) ;;
  (* 5. If updated successfully, the object is published on the message bus. *)
  match healthProfessionalUp with
  | Some up =>
      let event := update_event this up in
      published <-
        Async.call (Publish event "healthprofessionals.update")
          (bus_publish (_eventBus this) event "healthprofessionals.update") ;;
      if negb published
      then saveEvent this event
      else Async.perform (Log Info (published_info up))
  | None => Async.ret tt
  end ;;;
  (* 6. Returns the created object. *)
  Async.ret healthProfessionalUp.

Definition deleteChildrenGroup (this : t) (healthProfessionalId childrenGroupId : string)
    : Async.t effect bool :=
  Async.try_catch
    ((* 1. Validate if health professional id or children group id is valid *)
     Async.check (ObjectIdValidator_validate (lib this) healthProfessionalId None) ;;;
     Async.check (ObjectIdValidator_validate (lib this) childrenGroupId None) ;;;
     (* 2. Checks if the health professional exists. *)
     healthProfessional <-
       Async.call (FindById healthProfessionalId)
         (repo_findById (_healthProfessionalRepository this) healthProfessionalId) ;;
     match healthProfessional with
     | None => Async.ret true
     | Some healthProfessional =>
         (* 3. Remove the children group. *)
         removeResult <-
           Async.call (ChildrenGroupRemove childrenGroupId)
             (cg_remove (_childrenGroupService this) childrenGroupId) ;;
         (* 4. Remove association with health professional *)
         (if (removeResult : bool)
          then
            let childrenGroup := ChildrenGroup.mk (Some childrenGroupId) None in
            let healthProfessional :=
              removeChildrenGroup (lib this) healthProfessional childrenGroup in
            (* 5. Update health professional. *)
            _ <- Async.call (Update healthProfessional)
                   (repo_update (_healthProfessionalRepository this) healthProfessional) ;;
            Async.ret tt
          else Async.ret tt) ;;;
         (* 6. Returns true if the operation was successful, otherwise false. *)
         Async.ret removeResult
     end)
    (fun err => Async.throw err).

(** The mutation of `update` succeeds with [up]: the checks before it
    pass and the repository returns the updated entity. *)
Definition commits (this : t) (healthProfessional up : User.t) : Prop :=
  UpdateUserValidator_validate (lib this) healthProfessional = None /\
  repo_checkExist (_healthProfessionalRepository this)
    (User.set_id None healthProfessional) = Fulfilled false /\
  institution_ok (_institutionRepository this) healthProfessional /\
  repo_update (_healthProfessionalRepository this) healthProfessional = Fulfilled (Some up).

(** The same service around another bus. *)
Definition with_eventBus (bus : IEventBus) (this : t) : t :=
  {| _healthProfessionalRepository := _healthProfessionalRepository this;
     _institutionRepository := _institutionRepository this;
     _childrenGroupService := _childrenGroupService this;
     _integrationEventRepository := _integrationEventRepository this;
     _eventBus := bus;
     lib := lib this |}.

End HealthProfessionalService.

(** ** EducatorService (educator.service.ts) *)

Module EducatorService.

Record t : Type := {
  _educatorRepository : IUserRepository;
  _institutionRepository : IInstitutionRepository;
  _childrenGroupService : IChildrenGroupService;
  _eventBus : IEventBusClient;
  lib : Imports
}.

(** The info line of `update` after a publish that succeeded. *)
Definition published_info (up : User.t) : string :=
  ("User of type Educator with ID: " +:+ show (User.id up)
   +:+ " has been updated") +:+ " and published on event bus...".

(** The error line of `update` after a publish that failed. *)
Definition publish_error (err : exn) : string :=
  "Error trying to publish event UpdateEducator. " +:+ message err.

Definition update (this : t) (educator : User.t) : Async.t effect (option User.t) :=
  Async.try_catch
    ((* 1. Validate Educator parameters. *)
     Async.check (UpdateEducatorValidator_validate (lib this) educator) ;;;
     (* 2. checks if the educator exists by id *)
     exists_ <- Async.call (CheckExist educator)
                  (repo_checkExist (_educatorRepository this) educator) ;;
     if negb exists_ then Async.ret None
     else
       (* 3. Check if there is already an educator with the same username. *)
       educator <-
         (if truthy (User.username educator) then
             let id := User.id educator in
             let educator := User.set_id None educator in
             taken <- Async.call (CheckExist educator)
                        (repo_checkExist (_educatorRepository this) educator) ;;
             if (taken : bool)
             then Async.throw (ConflictException (EDUCATOR_ALREADY_REGISTERED (lib this)))
             else Async.ret (User.set_id id educator)
          else Async.ret educator) ;;
       (* 4. Checks if the institution exists. *)
       check_institution (lib this) (_institutionRepository this) educator ;;;
       (* 5. Update Educator data. *)
       educatorUp <- Async.call (Update educator)
                       (repo_update (_educatorRepository this) educator) ;;
       (* 6. If updated successfully, the object is published on the message bus. *)
       match educatorUp with
       | Some up =>
           Async.perform (PubUpdateEducator up) ;;;
           Async.then_catch (bus_pubUpdateEducator (_eventBus this) up)
             (fun _ => Async.perform (Log Info (published_info up)))
             (fun err => Async.perform (Log Err (publish_error err)))
       | None => Async.ret tt
       end ;;;
       (* 7. Returns the created object. *)
       Async.ret educatorUp)
    (fun err => Async.throw err).

Definition deleteChildrenGroup (this : t) (educatorId childrenGroupId : string)
    : Async.t effect bool :=
  Async.try_catch
    ((* 1. Validate if educator id or children group id is valid *)
     Async.check (ObjectIdValidator_validate (lib this) educatorId
                    (Some (EDUCATOR_PARAM_ID_NOT_VALID_FORMAT (lib this)))) ;;;
     Async.check (ObjectIdValidator_validate (lib this) childrenGroupId
                    (Some (CHILDREN_GROUP_PARAM_ID_NOT_VALID_FORMAT (lib this)))) ;;;
     (* 2. Checks if the educator exists. *)
     educator <- Async.call (FindById educatorId)
                   (repo_findById (_educatorRepository this) educatorId) ;;
     match educator with
     | None => Async.ret true
     | Some educator =>
         (* 3. Remove the children group *)
         removeResult <-
           Async.call (ChildrenGroupRemove childrenGroupId)
             (cg_remove (_childrenGroupService this) childrenGroupId) ;;
         (* 4. Remove association with educator *)
         (if (removeResult : bool)
          then
            let childrenGroup := ChildrenGroup.mk (Some childrenGroupId) None in
            let educator := removeChildrenGroup (lib this) educator childrenGroup in
            (* 5. Update educator. *)
            _ <- Async.call (Update educator)
                   (repo_update (_educatorRepository this) educator) ;;
            Async.ret tt
          else Async.ret tt) ;;;
         (* 6. Returns true if the operation was successful, otherwise false. *)
         Async.ret removeResult
     end)
    (fun err => Async.throw err).

(** The mutation of `update` succeeds with [up]. *)
Definition commits (this : t) (educator up : User.t) : Prop :=
  UpdateEducatorValidator_validate (lib this) educator = None /\
  repo_checkExist (_educatorRepository this) educator = Fulfilled true /\
  (truthy (User.username educator) = true ->
   repo_checkExist (_educatorRepository this) (User.set_id None educator) = Fulfilled false) /\
  institution_ok (_institutionRepository this) educator /\
  repo_update (_educatorRepository this) educator = Fulfilled (Some up).

(** The same service around another bus. *)
Definition with_eventBus (bus : IEventBusClient) (this : t) : t :=
  {| _educatorRepository := _educatorRepository this;
     _institutionRepository := _institutionRepository this;
     _childrenGroupService := _childrenGroupService this;
     _eventBus := bus;
     lib := lib this |}.

End EducatorService.

(** ** Family (family.ts) *)

Module Family.

Record t : Type := mk {
  id : option string;
  username : option string;
  institution : option Institution.t;
  _children : option (list Child.t)
}.

(** `arr.indexOf(x)`: position of the first element strictly equal to
    [x], or -1. *)
Fixpoint indexOf_from (x : option string) (arr : list (option string)) (i : Z) : Z :=
  match arr with
  | [] => -1
  | y :: rest => if decide (y = x) then i else indexOf_from x rest (i + 1)
  end.

Definition indexOf (x : option string) (arr : list (option string)) : Z :=
  indexOf_from x arr 0.

(** `arr.filter((obj, pos, arr) => ...)`, the callback seeing the position. *)
Fixpoint filter_from {A} (f : A -> Z -> bool) (arr : list A) (pos : Z) : list A :=
  match arr with
  | [] => []
  | obj :: rest =>
      if f obj pos then obj :: filter_from f rest (pos + 1)
      else filter_from f rest (pos + 1)
  end.

Definition removesRepeatedChildren (children : list Child.t) : list Child.t :=
  filter_from
    (fun obj pos => Z.eqb (indexOf (Child.id obj) (map Child.id children)) pos)
    children 0.

(** `get children()` *)
Definition children (this : t) : option (list Child.t) := _children this.

(** `set children(value)` *)
Definition set_children (value : option (list Child.t)) (this : t) : t :=
  mk (id this) (username this) (institution this)
     (match value with
      | Some arr => Some (removesRepeatedChildren arr)
      | None => None
      end).

(** `addChild(child)`: `push` appends to the array the getter returns,
    which is the stored one. *)
Definition addChild (child : Child.t) (this : t) : t :=
  let this := match children this with
              | None => set_children (Some []) this
              | Some _ => this
              end in
  let pushed := default [] (children this) ++ [child] in
  set_children (Some (removesRepeatedChildren pushed)) this.

(** The children whose id has not been seen before, in order: what
    "duplicates are removed, keeping the first occurrence" describes. *)
Fixpoint first_occurrences (seen : list (option string)) (children : list Child.t)
    : list Child.t :=
  match children with
  | [] => []
  | c :: rest =>
      if decide (Child.id c ∈ seen) then first_occurrences seen rest
      else c :: first_occurrences (Child.id c :: seen) rest
  end.

End Family.

(** ** Objects behind references

    Events, the Date an event refers to and the object literals made
    from an event, as the runtime holds them: cells of a heap, addressed
    by reference. *)

Module Heap.

Inductive class : Type :=
| IntegrationEventInstance
| PlainObject.

(** What a property holds: a primitive value, or a reference to an
    object of the heap. *)
Inductive slot : Type :=
| Prim (v : value)
| Ref (r : nat).

Definition slots : Type := list (string * slot).

Inductive cell : Type :=
| Object (cls : class) (props : slots)
| DateObject (time : Z).

(** A change made to an object. *)
Inductive write : Type :=
| SetProperty (ref : nat) (k : string) (s : slot)
| SetTime (ref : nat) (time : Z).

Record t : Type := {
  cells : list cell;
  (** every change performed so far, in order *)
  writes : list write
}.

Definition empty : t := {| cells := []; writes := [] |}.

Fixpoint slot_get (k : string) (props : slots) : slot :=
  match props with
  | [] => Prim VUndefined
  | (k', s) :: rest => if String.eqb k k' then s else slot_get k rest
  end.

Fixpoint slot_set (k : string) (s : slot) (props : slots) : slots :=
  match props with
  | [] => [(k, s)]
  | (k', s') :: rest =>
      if String.eqb k k' then (k', s) :: rest else (k', s') :: slot_set k s rest
  end.

(** *** What the runtime offers *)

Definition alloc (c : cell) (h : t) : t :=
  {| cells := cells h ++ [c]; writes := writes h |}.

(** `ref[k] = s`.  The runtime assigns on any object: `readonly` is a
    matter of the compiler and is gone from the code that runs. *)
Definition assign (ref : nat) (k : string) (s : slot) (h : t) : t :=
  match cells h !! ref with
  | Some (Object cls props) =>
      {| cells := <[ref := Object cls (slot_set k s props)]> (cells h);
         writes := writes h ++ [SetProperty ref k s] |}
  | _ => h
  end.

(** `date.setTime(time)` *)
Definition setTime (ref : nat) (time : Z) (h : t) : t :=
  match cells h !! ref with
  | Some (DateObject _) =>
      {| cells := <[ref := DateObject time]> (cells h);
         writes := writes h ++ [SetTime ref time] |}
  | _ => h
  end.

(** What `JSON.stringify` finds in a property: the primitive, or the
    Date referred to as it is at that moment (only Dates are referred
    to here). *)
Definition read (h : t) (s : slot) : value :=
  match s with
  | Prim v => v
  | Ref r =>
      match cells h !! r with
      | Some (DateObject time) => VDate time
      | _ => VUndefined
      end
  end.

(** *** What the sources do with an event *)

(** `new Date()`, at the time [now]. *)
Definition newDate (now : Z) (h : t) : t := alloc (DateObject now) h.

(** `timestamp?: Date`, as the constructor receives it. *)
Definition timestamp_slot (timestamp : option nat) : slot :=
  match timestamp with
  | Some date => Ref date
  | None => Prim VUndefined
  end.

(** The constructor's parameter properties: one assignment each. *)
Definition construct (event_name : string) (type : EventType) (timestamp : option nat)
    (h : t) : t :=
  let ref := length (cells h) in
  let h := alloc (Object IntegrationEventInstance []) h in
  let h := assign ref "event_name" (Prim (VStr event_name)) h in
  let h := assign ref "type" (Prim (VStr (EventType_value type))) h in
  assign ref "timestamp" (timestamp_slot timestamp) h.

(** `toJSON()` builds an object literal from the three fields; its
    `timestamp` is the reference the event holds, not a copy of the
    Date. *)
Definition toJSON (event : nat) (h : t) : t :=
  match cells h !! event with
  | Some (Object IntegrationEventInstance props) =>
      alloc (Object PlainObject
               [ ("event_name", slot_get "event_name" props);
                 ("timestamp", slot_get "timestamp" props);
                 ("type", slot_get "type" props) ]) h
  | _ => h
  end.

(** `JSON.parse(JSON.stringify(ref))`: a new object of primitives. *)
Definition parse_stringify (toISOString : Z -> string) (ref : nat) (h : t) : t :=
  match cells h !! ref with
  | Some (Object _ props) =>
      let members := json_members toISOString (map (fun kv => (kv.1, read h kv.2)) props) in
      alloc (Object PlainObject (map (fun kv => (kv.1, Prim kv.2)) members)) h
  | _ => h
  end.

(** `saveEvent(event)` of the health professional service, up to the
    call of the store: the literal of `toJSON`, the two assignments to
    it, and the copy handed to `create`.  The members that the class of
    the event adds to the literal are left out, that class not being
    part of the sources. *)
Definition saveEvent (toISOString : Z -> string) (event : nat) (h : t) : t :=
  match cells h !! event with
  | Some (Object IntegrationEventInstance _) =>
      let saveEvent := length (cells h) in
      let h := toJSON event h in
      let h := assign saveEvent "__operation" (Prim (VStr "publish")) h in
      let h := assign saveEvent "__routing_key" (Prim (VStr "healthprofessionals.update")) h in
      parse_stringify toISOString saveEvent h
  | _ => h
  end.

(** The operations of the sources that create or reach an event. *)
Inductive op : Type :=
| NewDate (now : Z)
| New (event_name : string) (type : EventType) (timestamp : option nat)
| ToJSON (event : nat)
| SaveEvent (event : nat).

Definition step (toISOString : Z -> string) (o : op) (h : t) : t :=
  match o with
  | NewDate now => newDate now h
  | New event_name type timestamp => construct event_name type timestamp h
  | ToJSON event => toJSON event h
  | SaveEvent event => saveEvent toISOString event h
  end.

Fixpoint exec (toISOString : Z -> string) (ops : list op) (h : t) : t :=
  match ops with
  | [] => h
  | o :: rest => exec toISOString rest (step toISOString o h)
  end.

(** Step 5 of `update` of the health professional service: the event is
    made with `new Date()`, handed to the bus, and saved when the bus
    answers false. *)
Definition update_ops (now : Z) (published : bool) (h : t) : list op :=
  let date := length (cells h) in
  let event := S date in
  [NewDate now; New "HealthProfessionalUpdateEvent" USERS (Some date)]
  ++ (if published then [] else [SaveEvent event]).

(** The assignments made to property [k] of the object at [ref]. *)
Definition writes_to (ref : nat) (k : string) (ws : list write) : list slot :=
  omap (fun w => match w with
                 | SetProperty r k' s => if decide (r = ref /\ k' = k) then Some s else None
                 | SetTime _ _ => None
                 end) ws.


Definition field (ref : nat) (k : string) (h : t) : option slot :=
  match cells h !! ref with
  | Some (Object _ props) => Some (slot_get k props)
  | _ => None
  end.


End Heap.

(** ** Integration event store and retry task *)

Module Store.

(** Modelled from the spec: the integration event repository is not part
    of the sources (only its interface is imported).  Section 4.1: it
    holds the persisted events by id; `create` inserts a record under a
    new id, `findAll` returns all records, `deleteById` removes one and
    returns false when there is none.  This is `create`. *)
Definition create (record : obj) (s : gmap nat obj) : gmap nat obj * nat :=
  let id := fresh (dom s) in
  (<[id := record]> s, id).

(** Modelled from the spec: `findAll`, section 4.1, with no ordering
    contract. *)
Definition findAll (s : gmap nat obj) : list (nat * obj) := map_to_list s.

(** Modelled from the spec: `deleteById`, section 4.1, false when the id
    is not there. *)
Definition deleteById (id : nat) (s : gmap nat obj) : gmap nat obj * bool :=
  (delete id s, bool_decide (is_Some (s !! id))).

(** Modelled from the spec: the store after the given records have been
    created in it, in order. *)
Definition create_all (records : list value) (s : gmap nat obj) : gmap nat obj :=
  foldl (fun s record => match record with
                         | VObj props => (create props s).1
                         | _ => s
                         end) s records.

End Store.

Module EventBusTask.

Inductive effect : Type :=
| Republish (id : nat) (payload : obj) (routing_key : string)
| DeleteById (id : nat)
| LogWarn (event_name : value) (error : option exn).

(** `delete o[k]` *)
Definition obj_remove (k : string) (o : obj) : obj :=
  filter (fun kv => kv.1 <> k) o.

(** Modelled from the spec: the routing key of a stored record is its
    `__routing_key` field. *)
Definition routing_key (record : obj) : string :=
  match obj_get "__routing_key" record with
  | VStr rk => rk
  | _ => "undefined"
  end.

(** Modelled from the spec: the payload is the record without its two
    operational fields, which exist only in the persisted form. *)
Definition payload (record : obj) : obj :=
  obj_remove "__routing_key" (obj_remove "__operation" record).

(** Modelled from the spec: a republish succeeds when the bus returns
    `true` without throwing (section 4.2, step 2). *)
Definition delivered (publish : obj -> string -> promise bool) (record : obj) : bool :=
  match publish (payload record) (routing_key record) with
  | Fulfilled true => true
  | _ => false
  end.

(** Modelled from the spec: the retry task is not part of the sources
    (the background service only calls its `run` and `stop`).  Section
    4.3, steps 2 and 3, for one persisted event: the routing key and the
    payload are taken from the stored record and published; on success
    the record is deleted by id, on failure it is left and a warning is
    logged with the event name and the error. *)
Definition retry_one (publish : obj -> string -> promise bool)
    (st : gmap nat obj * list effect) (event : nat * obj) : gmap nat obj * list effect :=
  let '(id, record) := event in
  let attempt := Republish id (payload record) (routing_key record) in
  match publish (payload record) (routing_key record) with
  | Fulfilled true =>
      ((Store.deleteById id st.1).1, st.2 ++ [attempt; DeleteById id])
  | Fulfilled false =>
      (st.1, st.2 ++ [attempt; LogWarn (obj_get "event_name" record) None])
  | Rejected e =>
      (st.1, st.2 ++ [attempt; LogWarn (obj_get "event_name" record) (Some e)])
  | Pending =>
      (st.1, st.2 ++ [attempt])
  end.

(** Modelled from the spec: section 4.3, steps 1 and 4: one run fetches
    all persisted events and handles each of them in turn, whatever
    happened to the ones before. *)
Definition run (publish : obj -> string -> promise bool) (s : gmap nat obj)
    : gmap nat obj * list effect :=
  foldl (retry_one publish) (s, []) (Store.findAll s).

(** What handling one persisted event adds to the trace. *)
Definition outcome_effects (publish : obj -> string -> promise bool)
    (event : nat * obj) : list effect :=
  (retry_one publish (∅, []) event).2.

End EventBusTask.

(** ** Observations on traces *)

(** The records handed to the integration event store's `create`. *)
Definition store_creates (effs : list effect) : list value :=
  omap (fun e => match e with
                 | StoreCreate record => Some record
                 | _ => None
                 end) effs.

(** The calls made on the bus. *)
Definition is_bus_call (e : effect) : bool :=
  match e with
  | Publish _ _ | PubUpdateEducator _ => true
  | _ => false
  end.

Definition bus_calls (effs : list effect) : list effect := List.filter is_bus_call effs.

(** The calls that remove a children group or update a user record. *)
Definition is_removal_or_update (e : effect) : bool :=
  match e with
  | ChildrenGroupRemove _ | Update _ => true
  | _ => false
  end.

(** The log lines of a given severity. *)
Definition logged (lvl : level) (effs : list effect) : list string :=
  omap (fun e => match e with
                 | Log l msg => if decide (l = lvl) then Some msg else None
                 | _ => None
                 end) effs.

(** ** Test doubles

    Concrete collaborators, as a unit test would inject them.  The id
    validator refuses an id that is not 24 characters long, such as the
    `123` for which the controller tests expect a validation error. *)

Module Fixture.

Definition lib : Imports :=
  {| UpdateUserValidator_validate := fun _ => None;
     UpdateEducatorValidator_validate := fun _ => None;
     ObjectIdValidator_validate := fun id msg =>
       if decide (String.length id = 24%nat) then None
       else Some (ValidationException
                    (default "Some ID provided does not have a valid format!" msg)
                    "A 24-byte hex ID is expected.");
     User_toJSON := fun u =>
       VObj [("id", match User.id u with Some i => VStr i | None => VUndefined end);
             ("username", match User.username u with Some n => VStr n | None => VUndefined end)];
     removeChildrenGroup := fun u g =>
       User.mk (User.id u) (User.username u) (User.password u) (User.institution u)
         (match User.children_groups u with
          | Some gs => Some (filter (fun x => ChildrenGroup.id x <> ChildrenGroup.id g) gs)
          | None => None
          end)
         (User.last_login u);
     HEALTH_PROFESSIONAL_ALREADY_REGISTERED := "Health Professional is already registered!";
     EDUCATOR_ALREADY_REGISTERED := "Educator is already registered!";
     EDUCATOR_PARAM_ID_NOT_VALID_FORMAT := "Educator ID is not in a valid format!";
     CHILDREN_GROUP_PARAM_ID_NOT_VALID_FORMAT := "Children Group ID is not in a valid format!";
     INSTITUTION_REGISTER_REQUIRED := "The institution provided does not have a registration.";
     INSTITUTION_ALERT_REGISTER_REQUIRED := "It is necessary that the institution be registered.";
     Date_now := 1546300800000;
     toISOString := fun _ => "2019-01-01T00:00:00.000Z";
     JSON_stringify := fun _ => "{...}" |}.

(** A repository that knows users by id, has no username clash, and
    returns the entity it was asked to update. *)
Definition users : IUserRepository :=
  {| repo_checkExist := fun u => Fulfilled (bool_decide (is_Some (User.id u)));
     repo_update := fun u => Fulfilled (Some u);
     repo_findById := fun _ => Fulfilled None |}.

(** A repository whose update finds nothing to change. *)
Definition no_users : IUserRepository :=
  {| repo_checkExist := fun u => Fulfilled (bool_decide (is_Some (User.id u)));
     repo_update := fun _ => Fulfilled None;
     repo_findById := fun _ => Fulfilled None |}.

Definition institutions : IInstitutionRepository :=
  {| inst_checkExist := fun _ => Fulfilled true |}.

Definition groups : IChildrenGroupService :=
  {| cg_remove := fun _ => Fulfilled true |}.

Definition store (outcome : promise value) : IIntegrationEventRepository :=
  {| store_create := fun _ => outcome |}.

Definition bus (outcome : promise bool) : IEventBus :=
  {| bus_publish := fun _ _ => outcome |}.

Definition client (outcome : promise unit) : IEventBusClient :=
  {| bus_pubUpdateEducator := fun _ => outcome |}.

Definition healthProfessionals (repo : IUserRepository) (publish : promise bool)
    (create : promise value) : HealthProfessionalService.t :=
  {| HealthProfessionalService._healthProfessionalRepository := repo;
     HealthProfessionalService._institutionRepository := institutions;
     HealthProfessionalService._childrenGroupService := groups;
     HealthProfessionalService._integrationEventRepository := store create;
     HealthProfessionalService._eventBus := bus publish;
     HealthProfessionalService.lib := lib |}.

Definition educators (repo : IUserRepository) (publish : promise unit)
    : EducatorService.t :=
  {| EducatorService._educatorRepository := repo;
     EducatorService._institutionRepository := institutions;
     EducatorService._childrenGroupService := groups;
     EducatorService._eventBus := client publish;
     EducatorService.lib := lib |}.

Definition H1 : User.t :=
  User.mk (Some "H1") (Some "doctor") None
    (Some (Institution.mk (Some "I1") (Some "clinic"))) (Some []) None.

Definition E1 : User.t :=
  User.mk (Some "E1") (Some "teacher") None None (Some []) None.

Definition unreachable : exn := Error "bus unreachable".

End Fixture.

(** ** The other methods of the two services

    `add`, `remove` and the children group methods of
    HealthProfessionalService and EducatorService, with the collaborators
    and imports they need beyond those of `update`. *)

(** Imported code that is not part of the sources: validators, model
    methods, the query class, the Strings table and the UserType enum. *)
Record Statics : Type := {
  CreateHealthProfessionalValidator_validate : User.t -> option exn;
  CreateEducatorValidator_validate : User.t -> option exn;
  addChildrenGroup : User.t -> ChildrenGroup.t -> User.t;
  (** `query.addFilter(filter)`, giving the query it leaves *)
  addFilter : obj -> value -> value;
  HEALTH_PROFESSIONAL_NOT_FOUND : string;
  HEALTH_PROFESSIONAL_NOT_FOUND_DESCRIPTION : string;
  EDUCATOR_NOT_FOUND : string;
  EDUCATOR_NOT_FOUND_DESCRIPTION : string
}.

Record IUserRepositoryWrites : Type := {
  repo_create : User.t -> promise User.t;
  repo_delete : string -> promise bool
}.

Record IChildrenGroupRepository : Type := {
  deleteAllChildrenGroupsFromUser : string -> promise bool
}.

Record IChildrenGroupServiceRest : Type := {
  cg_add : ChildrenGroup.t -> promise ChildrenGroup.t;
  cg_getAll : value -> promise (list ChildrenGroup.t);
  cg_getById : string -> value -> promise (option ChildrenGroup.t);
  cg_update : ChildrenGroup.t -> promise (option ChildrenGroup.t)
}.

(** The calls these methods make: the ones `update` and
    `deleteChildrenGroup` make already, and the others. *)
Inductive call : Type :=
| Base (e : effect)
| Create (user : User.t)
| Delete (id : string)
| DeleteAllChildrenGroupsFromUser (id : string)
| GroupAdd (group : ChildrenGroup.t)
| GroupGetAll (query : value)
| GroupGetById (id : string) (query : value)
| GroupUpdate (group : ChildrenGroup.t).

(** A step written for `update`, run inside one of these methods. *)
Definition lift_base {A} (m : Async.t effect A) : Async.t call A :=
  fun tr => ((m []).1, tr ++ (Base <$> (m []).2)).

(** `if (user.last_login) user.last_login = undefined` *)
Definition ignore_last_login (user : User.t) : User.t :=
  User.mk (User.id user) (User.username user) (User.password user)
    (User.institution user) (User.children_groups user)
    (match User.last_login user with
     | Some _ => None
     | None => User.last_login user
     end).

(** `groups.filter((obj, pos, arr) => arr.map(g => g.id).indexOf(id) === pos)`,
    the check of `getChildrenGroupById`. *)
Definition checkGroups (childrenGroupId : string) (groups : list ChildrenGroup.t)
    : list ChildrenGroup.t :=
  Family.filter_from
    (fun obj pos =>
       Z.eqb (Family.indexOf (Some childrenGroupId) (map ChildrenGroup.id groups)) pos)
    groups 0.

Module HealthProfessionalOps.

Record t : Type := {
  service : HealthProfessionalService.t;
  writes : IUserRepositoryWrites;
  _childrenGroupRepository : IChildrenGroupRepository;
  groups : IChildrenGroupServiceRest;
  statics : Statics
}.

Definition lib (this : t) : Imports := HealthProfessionalService.lib (service this).

Definition repository (this : t) : IUserRepository :=
  HealthProfessionalService._healthProfessionalRepository (service this).

Definition not_found (this : t) : exn :=
  ValidationException (HEALTH_PROFESSIONAL_NOT_FOUND (statics this))
    (HEALTH_PROFESSIONAL_NOT_FOUND_DESCRIPTION (statics this)).

Definition add (this : t) (healthProfessional : User.t) : Async.t call User.t :=
  healthProfessional <-
    Async.try_catch
      ((* 1. Validate Health Professional parameters. *)
       Async.check (CreateHealthProfessionalValidator_validate (statics this)
                      healthProfessional) ;;;
       (* 1.5 Ignore last_login attribute if exists. *)
       let healthProfessional := ignore_last_login healthProfessional in
       (* 2. Checks if Health Professional already exists. *)
       healthProfessionalExist <-
         Async.call (Base (CheckExist healthProfessional))
           (repo_checkExist (repository this) healthProfessional) ;;
       if (healthProfessionalExist : bool)
       then Async.throw (ConflictException (HEALTH_PROFESSIONAL_ALREADY_REGISTERED (lib this)))
       else
         (* 3. Checks if the institution exists. *)
         lift_base (check_institution (lib this)
                      (HealthProfessionalService._institutionRepository (service this))
                      healthProfessional) ;;;
         Async.ret healthProfessional)
      (fun err => Async.throw err) ;;
  (* 4. Create new Health Professional register. *)
  Async.call (Create healthProfessional) (repo_create (writes this) healthProfessional).

Definition remove (this : t) (id : string) : Async.t call bool :=
  isDeleted <-
    Async.try_catch
      ((* 1. Validate id. *)
       Async.check (ObjectIdValidator_validate (lib this) id None) ;;;
       (* 2. Delete the health professional by id and your children groups. *)
       isDeleted <- Async.call (Delete id) (repo_delete (writes this) id) ;;
       (if (isDeleted : bool)
        then
          _ <- Async.call (DeleteAllChildrenGroupsFromUser id)
                 (deleteAllChildrenGroupsFromUser (_childrenGroupRepository this) id) ;;
          Async.ret tt
        else Async.ret tt) ;;;
       Async.ret isDeleted)
      (fun err => Async.throw err) ;;
  (* 3. Returns status for health professional deletion. *)
  Async.ret isDeleted.

Definition saveChildrenGroup (this : t) (healthProfessionalId : string)
    (childrenGroup : ChildrenGroup.t) : Async.t call ChildrenGroup.t :=
  Async.try_catch
    ((* 1. Validate id. *)
     Async.check (ObjectIdValidator_validate (lib this) healthProfessionalId None) ;;;
     (* 2. Checks if the health professional exists. *)
     healthProfessional <-
       Async.call (Base (FindById healthProfessionalId))
         (repo_findById (repository this) healthProfessionalId) ;;
     match healthProfessional with
     | Some healthProfessional =>
         match User.children_groups healthProfessional with
         | Some _ =>
             (* 3. Save children group. *)
             childrenGroupResult <-
               Async.call (GroupAdd childrenGroup) (cg_add (groups this) childrenGroup) ;;
             (* 4. Update health professional with group of children created. *)
             let healthProfessional :=
               addChildrenGroup (statics this) healthProfessional childrenGroupResult in
             _ <- Async.call (Base (Update healthProfessional))
                    (repo_update (repository this) healthProfessional) ;;
             (* 5. If everything succeeds, it returns the data of the created group. *)
             Async.ret childrenGroupResult
         | None => Async.throw (not_found this)
         end
     | None => Async.throw (not_found this)
     end)
    (fun err => Async.throw err).

Definition getAllChildrenGroups (this : t) (healthProfessionalId : string) (query : value)
    : Async.t call (list ChildrenGroup.t) :=
  Async.try_catch
    ((* 1. Validate id. *)
     Async.check (ObjectIdValidator_validate (lib this) healthProfessionalId None) ;;;
     (* 2. Checks if the health professional exists. *)
     healthProfessional <-
       Async.call (Base (FindById healthProfessionalId))
         (repo_findById (repository this) healthProfessionalId) ;;
     match healthProfessional with
     | None => Async.ret []
     | Some healthProfessional =>
         if decide (User.id healthProfessional <> Some healthProfessionalId)
         then Async.ret []
         else
           match User.children_groups healthProfessional with
           | Some [] => Async.ret []
           | _ =>
               (* 3. Retrieves children groups by health professional id. *)
               let query :=
                 addFilter (statics this) [("user_id", VStr healthProfessionalId)] query in
               Async.call (GroupGetAll query) (cg_getAll (groups this) query)
           end
     end)
    (fun err => Async.throw err).

Definition getChildrenGroupById (this : t) (healthProfessionalId childrenGroupId : string)
    (query : value) : Async.t call (option ChildrenGroup.t) :=
  selected <-
    Async.try_catch
      ((* 1. Validate if health professional id or children group id is valid *)
       Async.check (ObjectIdValidator_validate (lib this) healthProfessionalId None) ;;;
       Async.check (ObjectIdValidator_validate (lib this) childrenGroupId None) ;;;
       (* 2. Checks if the health professional exists. *)
       healthProfessional <-
         Async.call (Base (FindById healthProfessionalId))
           (repo_findById (repository this) healthProfessionalId) ;;
       match healthProfessional with
       | None => Async.ret false
       | Some healthProfessional =>
           match User.children_groups healthProfessional with
           | None => Async.ret false
           | Some children_groups =>
               (* 3. Verifies that the group of children belongs to the health professional.
                  4. When the group is assigned the checkGroups array size will be equal to 1. *)
               Async.ret (bool_decide
                            (length (checkGroups childrenGroupId children_groups) = 1%nat))
           end
       end)
      (fun err => Async.throw err) ;;
  if (selected : bool)
  then
    (* 5. The group to be selected exists and is related to the health professional. *)
    Async.call (GroupGetById childrenGroupId query)
      (cg_getById (groups this) childrenGroupId query)
  else Async.ret None.

Definition updateChildrenGroup (this : t) (healthProfessionalId : string)
    (childrenGroup : ChildrenGroup.t) : Async.t call (option ChildrenGroup.t) :=
  Async.try_catch
    ((* 1. Validate if health professional id or children group id is valid *)
     Async.check (ObjectIdValidator_validate (lib this) healthProfessionalId None) ;;;
     (if truthy (ChildrenGroup.id childrenGroup)
      then Async.check (ObjectIdValidator_validate (lib this)
                          (default "" (ChildrenGroup.id childrenGroup)) None)
      else Async.ret tt) ;;;
     (* 1. Checks if the health professional exists. *)
     healthProfessional <-
       Async.call (Base (FindById healthProfessionalId))
         (repo_findById (repository this) healthProfessionalId) ;;
     match healthProfessional with
     | None => Async.throw (not_found this)
     | Some _ =>
         (* 2. Update children group. *)
         Async.call (GroupUpdate childrenGroup) (cg_update (groups this) childrenGroup)
     end)
    (fun err => Async.throw err).

End HealthProfessionalOps.

Module EducatorOps.

Record t : Type := {
  service : EducatorService.t;
  writes : IUserRepositoryWrites;
  _childrenGroupRepository : IChildrenGroupRepository;
  groups : IChildrenGroupServiceRest;
  statics : Statics
}.

Definition lib (this : t) : Imports := EducatorService.lib (service this).

Definition repository (this : t) : IUserRepository :=
  EducatorService._educatorRepository (service this).

Definition not_found (this : t) : exn :=
  ValidationException (EDUCATOR_NOT_FOUND (statics this))
    (EDUCATOR_NOT_FOUND_DESCRIPTION (statics this)).

(** `ObjectIdValidator.validate(educatorId, Strings.EDUCATOR.PARAM_ID_NOT_VALID_FORMAT)` *)
Definition validate_educator_id (this : t) (educatorId : string) : option exn :=
  ObjectIdValidator_validate (lib this) educatorId
    (Some (EDUCATOR_PARAM_ID_NOT_VALID_FORMAT (lib this))).

(** `ObjectIdValidator.validate(id, Strings.CHILDREN_GROUP.PARAM_ID_NOT_VALID_FORMAT)` *)
Definition validate_group_id (this : t) (childrenGroupId : string) : option exn :=
  ObjectIdValidator_validate (lib this) childrenGroupId
    (Some (CHILDREN_GROUP_PARAM_ID_NOT_VALID_FORMAT (lib this))).

Definition add (this : t) (educator : User.t) : Async.t call User.t :=
  educator <-
    Async.try_catch
      ((* 1. Validate Educator parameters. *)
       Async.check (CreateEducatorValidator_validate (statics this) educator) ;;;
       (* 1.5 Ignore last_login attribute if exists. *)
       let educator := ignore_last_login educator in
       (* 2. Checks if Educator already exists. *)
       educatorExist <-
         Async.call (Base (CheckExist educator))
           (repo_checkExist (repository this) educator) ;;
       if (educatorExist : bool)
       then Async.throw (ConflictException (EDUCATOR_ALREADY_REGISTERED (lib this)))
       else
         (* 3. Checks if the institution exists. *)
         lift_base (check_institution (lib this)
                      (EducatorService._institutionRepository (service this))
                      educator) ;;;
         Async.ret educator)
      (fun err => Async.throw err) ;;
  (* 4. Create new Educator register. *)
  Async.call (Create educator) (repo_create (writes this) educator).

Definition remove (this : t) (id : string) : Async.t call bool :=
  isDeleted <-
    Async.try_catch
      ((* 1. Validate id. *)
       Async.check (validate_educator_id this id) ;;;
       (* 2.Delete the educator by id and your children groups. *)
       isDeleted <- Async.call (Delete id) (repo_delete (writes this) id) ;;
       (if (isDeleted : bool)
        then
          _ <- Async.call (DeleteAllChildrenGroupsFromUser id)
                 (deleteAllChildrenGroupsFromUser (_childrenGroupRepository this) id) ;;
          Async.ret tt
        else Async.ret tt) ;;;
       Async.ret isDeleted)
      (fun err => Async.throw err) ;;
  (* 3. Returns status for educator deletion. *)
  Async.ret isDeleted.

Definition saveChildrenGroup (this : t) (educatorId : string)
    (childrenGroup : ChildrenGroup.t) : Async.t call ChildrenGroup.t :=
  Async.try_catch
    ((* 1. Validate id. *)
     Async.check (validate_educator_id this educatorId) ;;;
     (* 2. Checks if the educator exists. *)
     educator <- Async.call (Base (FindById educatorId))
                   (repo_findById (repository this) educatorId) ;;
     match educator with
     | Some educator =>
         match User.children_groups educator with
         | Some _ =>
             (* 2. Save children group. *)
             childrenGroupResult <-
               Async.call (GroupAdd childrenGroup) (cg_add (groups this) childrenGroup) ;;
             (* 3. Update educator with group of children created. *)
             let educator := addChildrenGroup (statics this) educator childrenGroupResult in
             _ <- Async.call (Base (Update educator))
                    (repo_update (repository this) educator) ;;
             (* 4. If everything succeeds, it returns the data of the created group. *)
             Async.ret childrenGroupResult
         | None => Async.throw (not_found this)
         end
     | None => Async.throw (not_found this)
     end)
    (fun err => Async.throw err).

Definition getAllChildrenGroups (this : t) (educatorId : string) (query : value)
    : Async.t call (list ChildrenGroup.t) :=
  Async.try_catch
    ((* 1. Validate id. *)
     Async.check (validate_educator_id this educatorId) ;;;
     (* 2. Checks if the educator exists. *)
     educator <- Async.call (Base (FindById educatorId))
                   (repo_findById (repository this) educatorId) ;;
     match educator with
     | None => Async.throw (not_found this)
     | Some educator =>
         if decide (User.id educator <> Some educatorId)
         then Async.throw (not_found this)
         else
           match User.children_groups educator with
           | Some [] => Async.ret []
           | _ =>
               (* 3. Retrieves children groups by educator id. *)
               Async.call (GroupGetAll query) (cg_getAll (groups this) query)
           end
     end)
    (fun err => Async.throw err).

Definition getChildrenGroupById (this : t) (educatorId childrenGroupId : string)
    (query : value) : Async.t call (option ChildrenGroup.t) :=
  selected <-
    Async.try_catch
      ((* 1. Validate if educator id or children group id is valid *)
       Async.check (validate_educator_id this educatorId) ;;;
       Async.check (validate_group_id this childrenGroupId) ;;;
       (* 2. Checks if the educator exists. *)
       educator <- Async.call (Base (FindById educatorId))
                     (repo_findById (repository this) educatorId) ;;
       match educator with
       | None => Async.throw (not_found this)
       | Some educator =>
           match User.children_groups educator with
           | None => Async.ret false
           | Some children_groups =>
               (* 3. Verifies that the group of children belongs to the educator.
                  4. When the group is assigned the checkGroups array size will be equal to 1. *)
               Async.ret (bool_decide
                            (length (checkGroups childrenGroupId children_groups) = 1%nat))
           end
       end)
      (fun err => Async.throw err) ;;
  if (selected : bool)
  then
    (* 5. The group to be selected exists and is related to the educator. *)
    Async.call (GroupGetById childrenGroupId query)
      (cg_getById (groups this) childrenGroupId query)
  else Async.ret None.

Definition updateChildrenGroup (this : t) (educatorId : string)
    (childrenGroup : ChildrenGroup.t) : Async.t call (option ChildrenGroup.t) :=
  Async.try_catch
    ((* 1. Validate if educator id or children group id is valid *)
     Async.check (validate_educator_id this educatorId) ;;;
     (if truthy (ChildrenGroup.id childrenGroup)
      then Async.check (validate_group_id this (default "" (ChildrenGroup.id childrenGroup)))
      else Async.ret tt) ;;;
     (* 2. Checks if the educator exists. *)
     educator <- Async.call (Base (FindById educatorId))
                   (repo_findById (repository this) educatorId) ;;
     match educator with
     | None => Async.throw (not_found this)
     | Some _ =>
         (* 3. Update children group. *)
         Async.call (GroupUpdate childrenGroup) (cg_update (groups this) childrenGroup)
     end)
    (fun err => Async.throw err).

End EducatorOps.

(** ** Test doubles for the other methods *)

Module Sample.

Definition statics : Statics :=
  {| CreateHealthProfessionalValidator_validate := fun _ => None;
     CreateEducatorValidator_validate := fun _ => None;
     addChildrenGroup := fun u g =>
       User.mk (User.id u) (User.username u) (User.password u) (User.institution u)
         (Some (default [] (User.children_groups u) ++ [g])) (User.last_login u);
     addFilter := fun filter query =>
       match query with
       | VObj members => VObj (obj_spread members filter)
       | _ => VObj filter
       end;
     HEALTH_PROFESSIONAL_NOT_FOUND := "Health Professional not found!";
     HEALTH_PROFESSIONAL_NOT_FOUND_DESCRIPTION := "Health Professional not found or already removed.";
     EDUCATOR_NOT_FOUND := "Educator not found!";
     EDUCATOR_NOT_FOUND_DESCRIPTION := "Educator not found or already removed." |}.

Definition known_id : string := "5a62be07de34500146d9c544".
Definition unknown_id : string := "5a62be07de34500146d9c000".
Definition group_id : string := "5a62be07d6f33400146c9b61".
Definition other_group_id : string := "5a62be07d6f33400146c9b62".

Definition group : ChildrenGroup.t := ChildrenGroup.mk (Some group_id) (Some "class 5A").

(** A user with one children group and a last login. *)
Definition member : User.t :=
  User.mk (Some known_id) (Some "member") None None (Some [group]) (Some 1546300800000%Z).

(** A repository that holds [member] only. *)
Definition registry : IUserRepository :=
  {| repo_checkExist := fun u => Fulfilled (bool_decide (User.id u = Some known_id));
     repo_update := fun u => Fulfilled (Some u);
     repo_findById := fun id =>
       Fulfilled (if String.eqb id known_id then Some member else None) |}.

Definition writes : IUserRepositoryWrites :=
  {| repo_create := fun u => Fulfilled u;
     repo_delete := fun id => Fulfilled (String.eqb id known_id) |}.

Definition groupRepository : IChildrenGroupRepository :=
  {| deleteAllChildrenGroupsFromUser := fun _ => Fulfilled true |}.

Definition groupService : IChildrenGroupServiceRest :=
  {| cg_add := fun g => Fulfilled g;
     cg_getAll := fun _ => Fulfilled [group];
     cg_getById := fun id _ =>
       Fulfilled (if String.eqb id group_id then Some group else None);
     cg_update := fun g => Fulfilled (Some g) |}.

Definition professionals : HealthProfessionalOps.t :=
  {| HealthProfessionalOps.service :=
       Fixture.healthProfessionals registry (Fulfilled true) (Fulfilled VNull);
     HealthProfessionalOps.writes := writes;
     HealthProfessionalOps._childrenGroupRepository := groupRepository;
     HealthProfessionalOps.groups := groupService;
     HealthProfessionalOps.statics := statics |}.

Definition educators : EducatorOps.t :=
  {| EducatorOps.service := Fixture.educators registry (Fulfilled tt);
     EducatorOps.writes := writes;
     EducatorOps._childrenGroupRepository := groupRepository;
     EducatorOps.groups := groupService;
     EducatorOps.statics := statics |}.

Definition newcomer : User.t :=
  User.mk None (Some "newcomer") (Some "secret") None (Some []) (Some 1546300800000%Z).

End Sample.

(** ** FamilyService (family.service.ts) *)

Module FamilyService.

(** What the child repository's `checkExist` resolves with:
    `boolean | ValidationException`, the exception carrying the ids that
    have no record. *)
Inductive exist_result : Type :=
| Answer (b : bool)
| Unregistered (message : string).

Record IFamilyRepository : Type := {
  family_checkExist : Family.t -> promise bool;
  family_create : Family.t -> promise Family.t;
  family_findOne : value -> promise (option Family.t);
  family_update : Family.t -> promise (option Family.t)
}.

(** `checkExist(children: Child | Array<Child>)` *)
Record IChildRepository : Type := {
  child_checkExist : Child.t + list Child.t -> promise exist_result
}.

(** Imported code that is not part of the sources: the validator, the
    query class, the value of `UserType.FAMILY` and the Strings table. *)
Record FamilyImports : Type := {
  FamilyValidator_validate : Family.t -> option exn;
  (** `new Query()` *)
  Query_new : value;
  (** `query.filters = filters`, giving the query it leaves *)
  Query_set_filters : obj -> value -> value;
  (** `query.addFilter(filter)`, giving the query it leaves *)
  Query_addFilter : obj -> value -> value;
  UserType_FAMILY : string;
  FAMILY_ALREADY_REGISTERED : string;
  CHILD_CHILDREN_REGISTER_REQUIRED : string;
  CHILD_IDS_WITHOUT_REGISTER : string;
  CHILD_ASSOCIATION_FAILURE : string
}.

Inductive call : Type :=
| CheckExist (family : Family.t)
| ChildCheckExist (children : Child.t + list Child.t)
| InstitutionCheckExist (institution : Institution.t)
| Create (family : Family.t)
| FindOne (query : value)
| Update (family : Family.t).

Record t : Type := {
  _familyRepository : IFamilyRepository;
  _childRepository : IChildRepository;
  _institutionRepository : IInstitutionRepository;
  imports : FamilyImports;
  lib : Imports
}.

(** "Checks if the children to be associated have a record." *)
Definition check_children (this : t) (family : Family.t) : Async.t call unit :=
  match Family.children family with
  | Some children =>
      checkChildrenExist <-
        Async.call (ChildCheckExist (inr children))
          (child_checkExist (_childRepository this) (inr children)) ;;
      match checkChildrenExist with
      | Unregistered message =>
          Async.throw (ValidationException (CHILD_CHILDREN_REGISTER_REQUIRED (imports this))
                         ((CHILD_IDS_WITHOUT_REGISTER (imports this) +:+ " ") +:+ message))
      | Answer _ => Async.ret tt
      end
  | None => Async.ret tt
  end.

(** "Checks if the institution exists." *)
Definition check_institution (this : t) (family : Family.t) : Async.t call unit :=
  match Family.institution family with
  | Some institution =>
      match Institution.id institution with
      | Some _ =>
          institutionExist <-
            Async.call (InstitutionCheckExist institution)
              (inst_checkExist (_institutionRepository this) institution) ;;
          if negb institutionExist
          then Async.throw (ValidationException (INSTITUTION_REGISTER_REQUIRED (lib this))
                              (INSTITUTION_ALERT_REGISTER_REQUIRED (lib this)))
          else Async.ret tt
      | None => Async.ret tt
      end
  | None => Async.ret tt
  end.

Definition add (this : t) (family : Family.t) : Async.t call Family.t :=
  Async.check (FamilyValidator_validate (imports this) family) ;;;
  Async.try_catch
    ((* Checks if family already exists *)
     familyExist <- Async.call (CheckExist family)
                      (family_checkExist (_familyRepository this) family) ;;
     if (familyExist : bool)
     then Async.throw (ConflictException (FAMILY_ALREADY_REGISTERED (imports this)))
     else
       check_children this family ;;;
       check_institution this family)
    (fun err => Async.throw err) ;;;
  Async.call (Create family) (family_create (_familyRepository this) family).

Definition update (this : t) (family : Family.t) : Async.t call (option Family.t) :=
  Async.try_catch
    (check_children this family ;;;
     check_institution this family)
    (fun err => Async.throw err) ;;;
  Async.call (Update family) (family_update (_familyRepository this) family).

(** `{ _id: familyId, type: UserType.FAMILY }` *)
Definition family_filter (this : t) (familyId : string) : obj :=
  [("_id", VStr familyId); ("type", VStr (UserType_FAMILY (imports this)))].

Definition getAllChildren (this : t) (familyId : string) (query : value)
    : Async.t call (option (list Child.t)) :=
  let query := Query_addFilter (imports this) (family_filter this familyId) query in
  Async.try_catch
    (family <- Async.call (FindOne query) (family_findOne (_familyRepository this) query) ;;
     match family with
     | None => Async.ret None
     | Some family =>
         Async.ret (Some match Family.children family with
                         | Some children => children
                         | None => []
                         end)
     end)
    (fun err => Async.throw err).

(** `family.children.push(child)`: the array the getter returns is the
    stored one, and the setter is not involved. *)
Definition push_child (child : Child.t) (family : Family.t) : Family.t :=
  Family.mk (Family.id family) (Family.username family) (Family.institution family)
    (match Family._children family with
     | Some children => Some (children ++ [child])
     | None => None
     end).

(** `new Child()` with `child.id = childId` *)
Definition child_of_id (childId : string) : Child.t :=
  Child.mk (Some childId) None None None.

(** `new ValidationException(Strings.CHILD.ASSOCIATION_FAILURE)` is built
    with a message only; the exception has the empty description here. *)
Definition associateChild (this : t) (familyId childId : string)
    : Async.t call (option Family.t) :=
  let query := Query_set_filters (imports this) (family_filter this familyId)
                 (Query_new (imports this)) in
  let child := child_of_id childId in
  Async.try_catch
    (family <- Async.call (FindOne query) (family_findOne (_familyRepository this) query) ;;
     match family with
     | None => Async.ret None
     | Some family =>
         (* Checks if the child to be associated have a record. *)
         checkChildExist <-
           Async.call (ChildCheckExist (inl child))
             (child_checkExist (_childRepository this) (inl child)) ;;
         match checkChildExist with
         | Answer false =>
             Async.throw (ValidationException (CHILD_ASSOCIATION_FAILURE (imports this)) "")
         | _ =>
             (* verifies that the child is no longer associated *)
             match Family.children family with
             | Some children =>
                 let childAlreadyExists :=
                   foldl (fun found item =>
                            if decide (Child.id item = Child.id child) then true else found)
                     false children in
                 if childAlreadyExists then Async.ret (Some family)
                 else
                   let family := push_child child family in
                   Async.call (Update family) (family_update (_familyRepository this) family)
             | None =>
                 let family := Family.set_children (Some [child]) family in
                 Async.call (Update family) (family_update (_familyRepository this) family)
             end
         end
     end)
    (fun err => Async.throw err).

Definition disassociateChild (this : t) (familyId childId : string)
    : Async.t call (option bool) :=
  let query := Query_set_filters (imports this) (family_filter this familyId)
                 (Query_new (imports this)) in
  Async.try_catch
    (family <- Async.call (FindOne query) (family_findOne (_familyRepository this) query) ;;
     match family with
     | None => Async.ret None
     | Some family =>
         (* verifies that the child is no longer associated *)
         match Family.children family with
         | Some children =>
             let family :=
               Family.set_children
                 (Some (filter (fun child => Child.id child <> Some childId) children))
                 family in
             updated <- Async.call (Update family)
                          (family_update (_familyRepository this) family) ;;
             Async.ret (Some (bool_decide (is_Some updated)))
         | None => Async.ret (Some true)
         end
     end)
    (fun err => Async.throw err).

End FamilyService.

(** The institution of the family is in order: none given by id, or one
    the institution repository knows. *)
Definition family_institution_ok (this : FamilyService.t) (family : Family.t) : Prop :=
  match Family.institution family with
  | Some institution =>
      match Institution.id institution with
      | Some _ =>
          inst_checkExist (FamilyService._institutionRepository this) institution
          = Fulfilled true
      | None => True
      end
  | None => True
  end.

(** The children of the family are registered: none given, or the child
    repository did not answer with the ids that have no record. *)
Definition family_children_ok (this : FamilyService.t) (family : Family.t) : Prop :=
  match Family.children family with
  | Some children =>
      exists b, FamilyService.child_checkExist (FamilyService._childRepository this) (inr children)
                = Fulfilled (FamilyService.Answer b)
  | None => True
  end.

Module FamilySample.

Definition imports : FamilyService.FamilyImports :=
  {| FamilyService.FamilyValidator_validate := fun _ => None;
     FamilyService.Query_new := VObj [("filters", VObj [])];
     FamilyService.Query_set_filters := fun filters query =>
       match query with
       | VObj members => VObj (obj_set "filters" (VObj filters) members)
       | _ => VObj [("filters", VObj filters)]
       end;
     FamilyService.Query_addFilter := fun filter query =>
       match query with
       | VObj members =>
           VObj (obj_set "filters"
                   (match obj_get "filters" members with
                    | VObj filters => VObj (obj_spread filters filter)
                    | _ => VObj filter
                    end) members)
       | _ => VObj [("filters", VObj filter)]
       end;
     FamilyService.UserType_FAMILY := "family";
     FamilyService.FAMILY_ALREADY_REGISTERED := "Family is already registered!";
     FamilyService.CHILD_CHILDREN_REGISTER_REQUIRED :=
       "It is necessary for children to be registered before proceeding.";
     FamilyService.CHILD_IDS_WITHOUT_REGISTER :=
       "The following IDs were verified without registration:";
     FamilyService.CHILD_ASSOCIATION_FAILURE :=
       "The association could not be performed because the child does not have a record." |}.

Definition ann : Child.t := Child.mk (Some "5a62be07d6f33400146c9b61") (Some "ann") None None.
Definition bob : Child.t := Child.mk (Some "5a62be07d6f33400146c9b62") (Some "bob") None None.

Definition household : Family.t :=
  Family.mk (Some "5a62be07de34500146d9c544") (Some "household") None (Some [ann; bob]).

(** A repository that holds [household] only and returns what it is
    asked to update. *)
Definition families : FamilyService.IFamilyRepository :=
  {| FamilyService.family_checkExist := fun _ => Fulfilled false;
     FamilyService.family_create := fun f => Fulfilled f;
     FamilyService.family_findOne := fun _ => Fulfilled (Some household);
     FamilyService.family_update := fun f => Fulfilled (Some f) |}.

Definition children : FamilyService.IChildRepository :=
  {| FamilyService.child_checkExist := fun _ => Fulfilled (FamilyService.Answer true) |}.

Definition service : FamilyService.t :=
  {| FamilyService._familyRepository := families;
     FamilyService._childRepository := children;
     FamilyService._institutionRepository := Fixture.institutions;
     FamilyService.imports := imports;
     FamilyService.lib := Fixture.lib |}.

End FamilySample.

(** ** GenerateJwtKeysTask (generate.jwt.keys.task.ts) *)

Module GenerateJwtKeysTask.

Inductive effect : Type :=
| ExistsSync (path : string)
| CreatePrivateKey
| GetPublicKey (privateKey : string)
| WriteFileSync (path data : string)
| LogError (msg : string).

(** The file system and the `pem` library, as the task sees them.  A
    `pem` function answers through its callback: with a key, with an
    error, or never. *)
Record t : Type := {
  jwt_private_key_path : string;
  jwt_public_key_path : string;
  existsSync : string -> bool;
  createPrivateKey : promise string;
  getPublicKey : string -> promise string;
  (** `fs.writeFileSync(path, data, 'ascii')`: `Some e` throws [e] *)
  writeFileSync : string -> string -> option exn
}.

(** `new Promise((resolve, reject) => pem.f((err, key) => ...))`: an
    error of the callback is wrapped, `reject(new Error(err.message))`. *)
Definition from_callback (answer : promise string) : Async.t effect string :=
  match answer with
  | Fulfilled key => Async.ret key
  | Rejected err => Async.throw (Error (message err))
  | Pending => Async.await Pending
  end.

Definition generateJWTPrivateKey (this : t) : Async.t effect string :=
  Async.perform CreatePrivateKey ;;;
  from_callback (createPrivateKey this).

Definition getJWTPublicKey (this : t) (privateKey : string) : Async.t effect string :=
  Async.perform (GetPublicKey privateKey) ;;;
  from_callback (getPublicKey this privateKey).

Definition write (this : t) (path data : string) : Async.t effect unit :=
  Async.perform (WriteFileSync path data) ;;;
  Async.check (writeFileSync this path data).

Definition generate (this : t) : Async.t effect unit :=
  Async.try_catch
    (privateKey <- generateJWTPrivateKey this ;;
     publicKey <- getJWTPublicKey this privateKey ;;
     write this (jwt_private_key_path this) privateKey ;;;
     write this (jwt_public_key_path this) publicKey)
    (fun err => Async.perform (LogError ("Failure generating JWT keys: " +:+ message err))).

(** `if (!fs.existsSync(private) || !fs.existsSync(public)) { ... }` *)
Definition generateKeys (this : t) : Async.t effect unit :=
  Async.perform (ExistsSync (jwt_private_key_path this)) ;;;
  if negb (existsSync this (jwt_private_key_path this))
  then generate this
  else
    Async.perform (ExistsSync (jwt_public_key_path this)) ;;;
    if negb (existsSync this (jwt_public_key_path this))
    then generate this
    else Async.ret tt.

Definition run (this : t) : Async.t effect unit := generateKeys this.

Definition stop (this : t) : Async.t effect unit := Async.ret tt.

(** The calls of `fs.writeFileSync`, in order. *)
Definition written (effs : list effect) : list (string * string) :=
  omap (fun e => match e with
                 | WriteFileSync path data => Some (path, data)
                 | _ => None
                 end) effs.

End GenerateJwtKeysTask.

Module JwtSample.

(** A machine with a private key file only, and a `pem` that works. *)
Definition task : GenerateJwtKeysTask.t :=
  {| GenerateJwtKeysTask.jwt_private_key_path := ".certs/jwt.key";
     GenerateJwtKeysTask.jwt_public_key_path := ".certs/jwt.key.pub";
     GenerateJwtKeysTask.existsSync := fun path => bool_decide (path = ".certs/jwt.key");
     GenerateJwtKeysTask.createPrivateKey := Fulfilled "PRIVATE";
     GenerateJwtKeysTask.getPublicKey := fun key => Fulfilled ("PUBLIC OF " +:+ key);
     GenerateJwtKeysTask.writeFileSync := fun _ _ => None |}.

(** The same machine with a read-only public key path. *)
Definition read_only : GenerateJwtKeysTask.t :=
  {| GenerateJwtKeysTask.jwt_private_key_path := ".certs/jwt.key";
     GenerateJwtKeysTask.jwt_public_key_path := ".certs/jwt.key.pub";
     GenerateJwtKeysTask.existsSync := fun path => bool_decide (path = ".certs/jwt.key");
     GenerateJwtKeysTask.createPrivateKey := Fulfilled "PRIVATE";
     GenerateJwtKeysTask.getPublicKey := fun key => Fulfilled ("PUBLIC OF " +:+ key);
     GenerateJwtKeysTask.writeFileSync := fun path _ =>
       if bool_decide (path = ".certs/jwt.key.pub")
       then Some (Error "EACCES: permission denied")
       else None |}.

End JwtSample.

(** ** BackgroundService (background.service.ts) *)

Module BackgroundService.

(** infrastructure/port/connection.db.interface *)
Record IConnectionDB : Type := {
  tryConnect : Z -> Z -> promise unit;
  dispose : promise unit
}.

(** application/port/background.task.interface *)
Record IBackgroundTask : Type := {
  run : promise unit;
  stop : promise unit
}.

(** What the container binds to the identifiers that the constructor
    names. *)
Record Container : Type := {
  MONGODB_CONNECTION : IConnectionDB;
  EVENT_BUS_TASK : IBackgroundTask
}.

Inductive effect : Type :=
| Run (task : IBackgroundTask)
| TryConnect (retries interval : Z)
| Dispose
| EventBusTaskStop.

Record t : Type := {
  _mongodb : IConnectionDB;
  _eventBusTask : IBackgroundTask;
  _registerDefaultAdminTask : IBackgroundTask
}.

(** The constructor, as the container calls it:
    `@inject(Identifier.MONGODB_CONNECTION) _mongodb`,
    `@inject(Identifier.EVENT_BUS_TASK) _eventBusTask`,
    `@inject(Identifier.EVENT_BUS_TASK) _registerDefaultAdminTask`.
    Whether the container hands out one task object or two for the two
    parameters is its configuration, which is not part of the sources;
    either way both are what it binds to `EVENT_BUS_TASK`. *)
Definition new (container : Container) : t :=
  {| _mongodb := MONGODB_CONNECTION container;
     _eventBusTask := EVENT_BUS_TASK container;
     _registerDefaultAdminTask := EVENT_BUS_TASK container |}.

Definition mongodb_tryConnect (this : t) : Z -> Z -> promise unit :=
  tryConnect (_mongodb this).
Definition mongodb_dispose (this : t) : promise unit := dispose (_mongodb this).
Definition eventBusTask_stop (this : t) : promise unit := stop (_eventBusTask this).

(** `task.run()` as a statement: the promise it returns is dropped. *)
Definition start (task : IBackgroundTask) : Async.t effect unit :=
  Async.perform (Run task).

Definition startServices (this : t) : Async.t effect unit :=
  Async.try_catch
    (start (_registerDefaultAdminTask this) ;;;
     (* Trying to connect to mongodb. Go ahead only when the run is resolved. *)
     Async.call (TryConnect 0 1000) (mongodb_tryConnect this 0 1000) ;;;
     start (_eventBusTask this))
    (fun err =>
       Async.throw (Error ("Error initializing services in background! " +:+ message err))).

Definition stopServices (this : t) : Async.t effect unit :=
  Async.try_catch
    (Async.call Dispose (mongodb_dispose this) ;;;
     Async.call EventBusTaskStop (eventBusTask_stop this))
    (fun err => Async.throw (Error ("Error stopping MongoDB! " +:+ message err))).

End BackgroundService.

(** ** HealthProfessionalController (health.professional.controller.ts) *)

Module HealthProfessionalController.

(** `res.status(code).send(body)` *)
Record Response : Type := { status : Z; body : value }.

(** Imported code that is not part of the sources.  [toJSONView] stands
    for `healthProfessional.type = undefined; healthProfessional.toJSON()`:
    `type` is not among the fields of a user here. *)
Record ControllerImports : Type := {
  ApiExceptionManager_build : exn -> Z * value;
  HealthProfessional_fromJSON : value -> User.t;
  toJSONView : User.t -> value;
  getMessageHealthProfessionalNotFound : value
}.

Record t : Type := {
  _healthProfessionalService : HealthProfessionalService.t;
  imports : ControllerImports
}.

Definition OK : Z := 200.
Definition NO_CONTENT : Z := 204.
Definition NOT_FOUND : Z := 404.

(** The `catch` of every route. *)
Definition handle (this : t) (err : exn) : Async.t effect Response :=
  let handlerError := ApiExceptionManager_build (imports this) err in
  Async.ret {| status := handlerError.1; body := handlerError.2 |}.

(** `User.last_login = undefined` *)
Definition without_last_login (user : User.t) : User.t :=
  User.mk (User.id user) (User.username user) (User.password user)
    (User.institution user) (User.children_groups user) None.

(** `@httpPatch('/:healthprofessional_id')` *)
Definition updateHealthProfessionalById (this : t) (healthprofessional_id : string)
    (req_body : value) : Async.t effect Response :=
  Async.try_catch
    (let healthProfessional := HealthProfessional_fromJSON (imports this) req_body in
     let healthProfessional := User.set_id (Some healthprofessional_id) healthProfessional in
     (* Ignore last_login attributes if exists. *)
     let healthProfessional := without_last_login healthProfessional in
     result <- HealthProfessionalService.update (_healthProfessionalService this)
                 healthProfessional ;;
     match result with
     | None =>
         Async.ret {| status := NOT_FOUND;
                      body := getMessageHealthProfessionalNotFound (imports this) |}
     | Some result =>
         Async.ret {| status := OK; body := toJSONView (imports this) result |}
     end)
    (handle this).

(** `@httpDelete('/:healthprofessional_id/children/groups/:group_id')` *)
Definition disassociateChildFromHealthProfessional (this : t)
    (healthprofessional_id group_id : string) : Async.t effect Response :=
  Async.try_catch
    (_ <- HealthProfessionalService.deleteChildrenGroup (_healthProfessionalService this)
            healthprofessional_id group_id ;;
     Async.ret {| status := NO_CONTENT; body := VUndefined |})
    (handle this).

End HealthProfessionalController.

Module ControllerSample.

Definition imports : HealthProfessionalController.ControllerImports :=
  {| HealthProfessionalController.ApiExceptionManager_build := fun err =>
       (match err with
        | ValidationException _ _ => 400
        | ConflictException _ => 409
        | Error _ => 500
        end%Z,
        VObj [("message", VStr (message err))]);
     HealthProfessionalController.HealthProfessional_fromJSON := fun body =>
       User.mk None
         (match body with
          | VObj members => match obj_get "username" members with
                            | VStr name => Some name
                            | _ => None
                            end
          | _ => None
          end)
         None None None None;
     HealthProfessionalController.toJSONView := User_toJSON Fixture.lib;
     HealthProfessionalController.getMessageHealthProfessionalNotFound :=
       VObj [("message", VStr "Health Professional not found!")] |}.

Definition controller (service : HealthProfessionalService.t)
    : HealthProfessionalController.t :=
  {| HealthProfessionalController._healthProfessionalService := service;
     HealthProfessionalController.imports := imports |}.

End ControllerSample.

(** * Properties *)

(** ** Basic facts *)

Lemma set_id_restore (u : User.t) : User.set_id (User.id u) (User.set_id None u) = u.
Proof. by destruct u. Qed.

Lemma json_copy_obj (iso : Z -> string) (ps : obj) :
  json_copy iso (VObj ps) = VObj (json_members iso ps).
Proof.
  cbn [json_copy]. f_equal.
  induction ps as [|[k x] rest IH]; [done|].
  cbn [json_members]. rewrite <- IH. by destruct x.
Qed.

Lemma store_creates_app (l1 l2 : list effect) :
  store_creates (l1 ++ l2) = store_creates l1 ++ store_creates l2.
Proof. apply omap_app. Qed.

Lemma bus_calls_app (l1 l2 : list effect) :
  bus_calls (l1 ++ l2) = bus_calls l1 ++ bus_calls l2.
Proof. apply List.filter_app. Qed.

Lemma logged_app (lvl : level) (l1 l2 : list effect) :
  logged lvl (l1 ++ l2) = logged lvl l1 ++ logged lvl l2.
Proof. apply omap_app. Qed.

Lemma silent_store_creates (effs : list effect) : silent effs -> store_creates effs = [].
Proof.
  induction 1 as [|e effs He _ IH]; [done|].
  destruct e; try done; by cbn.
Qed.

Lemma silent_bus_calls (effs : list effect) : silent effs -> bus_calls effs = [].
Proof.
  induction 1 as [|e effs He _ IH]; [done|].
  destruct e; try done; by cbn.
Qed.

Lemma silent_logged (lvl : level) (effs : list effect) : silent effs -> logged lvl effs = [].
Proof.
  induction 1 as [|e effs He _ IH]; [done|].
  destruct e; try done; by cbn.
Qed.

Lemma silent_app (l1 l2 : list effect) : silent l1 -> silent l2 -> silent (l1 ++ l2).
Proof. apply Forall_app_2. Qed.

(** The institution step, when it lets the method go on: at most one
    call, on the institution repository. *)
Lemma check_institution_ok (lib : Imports) (repo : IInstitutionRepository)
    (user : User.t) (tr : list effect) :
  institution_ok repo user ->
  exists pre, silent pre /\ check_institution lib repo user tr = (Fulfilled tt, tr ++ pre).
Proof.
  unfold institution_ok, check_institution.
  destruct (User.institution user) as [i|]; [destruct (Institution.id i)|].
  - intros H. exists [InstitutionCheckExist i]. split.
    + by repeat constructor.
    + unfold Async.call, Async.bind, Async.perform, Async.await. by rewrite H.
  - intros _. exists []. split; [constructor|]. by rewrite app_nil_r.
  - intros _. exists []. split; [constructor|]. by rewrite app_nil_r.
Qed.

(** ** The two update methods, once the mutation has succeeded *)

Lemma saveEvent_run (this : HealthProfessionalService.t) (event : UserUpdateEvent.t)
    (tr : list effect) :
  let record := json_copy (toISOString (HealthProfessionalService.lib this))
                  (VObj (HealthProfessionalService.saveEvent_object this event)) in
  HealthProfessionalService.saveEvent this event tr =
  (Fulfilled tt,
   tr ++ StoreCreate record ::
     match store_create (HealthProfessionalService._integrationEventRepository this) record with
     | Fulfilled _ => [Log Warn (HealthProfessionalService.saved_warning event)]
     | Rejected err => [Log Err (HealthProfessionalService.save_error this event err)]
     | Pending => []
     end).
Proof.
  intros record.
  unfold HealthProfessionalService.saveEvent, Async.bind, Async.perform, Async.then_catch.
  fold record.
  destruct (store_create _ record); cbn; by rewrite <- ?app_assoc.
Qed.

(** `update` of a health professional after a successful mutation: the
    calls before the publish are silent, the rest depends on the bus. *)
Lemma health_professional_update_committed (this : HealthProfessionalService.t)
    (healthProfessional up : User.t) :
  HealthProfessionalService.commits this healthProfessional up ->
  let event := HealthProfessionalService.update_event this up in
  let key := "healthprofessionals.update" in
  exists pre, silent pre /\
    Async.run (HealthProfessionalService.update this healthProfessional) =
    match bus_publish (HealthProfessionalService._eventBus this) event key with
    | Fulfilled true =>
        (Fulfilled (Some up),
         pre ++ [Publish event key; Log Info (HealthProfessionalService.published_info up)])
    | Fulfilled false =>
        (Fulfilled (Some up),
         (HealthProfessionalService.saveEvent this event (pre ++ [Publish event key])).2)
    | Rejected err => (Rejected err, pre ++ [Publish event key])
    | Pending => (Pending, pre ++ [Publish event key])
    end.
Proof.
  intros (Hvalid & Hexist & Hinst & Hup) event key.
  destruct (check_institution_ok (HealthProfessionalService.lib this) _ _
              [CheckExist (User.set_id None healthProfessional)] Hinst)
    as (mid & Hmid & Hcheck).
  exists ([CheckExist (User.set_id None healthProfessional)] ++ mid
          ++ [Update healthProfessional]).
  split.
  { apply silent_app; [by repeat constructor|].
    apply silent_app; [done | by repeat constructor]. }
  unfold Async.run, HealthProfessionalService.update, Async.call.
  unfold Async.try_catch, Async.bind, Async.perform, Async.await,
    Async.check, Async.ret, Async.throw.
  rewrite Hvalid. cbn [app]. rewrite Hexist, set_id_restore, Hcheck, Hup.
  fold event. fold key. rewrite <- !app_assoc. cbn [app].
  destruct (bus_publish _ event key) as [[]| |]; cbn [negb]; try done.
  - cbn [app]. by rewrite <- app_assoc.
  - by rewrite !saveEvent_run.
Qed.

(** `update` of an educator after a successful mutation: the publish is
    started and its outcome only decides what is logged. *)
Lemma educator_update_committed (this : EducatorService.t) (educator up : User.t) :
  EducatorService.commits this educator up ->
  exists pre, silent pre /\
    Async.run (EducatorService.update this educator) =
    (Fulfilled (Some up),
     pre ++ PubUpdateEducator up ::
       match bus_pubUpdateEducator (EducatorService._eventBus this) up with
       | Fulfilled _ => [Log Info (EducatorService.published_info up)]
       | Rejected err => [Log Err (EducatorService.publish_error err)]
       | Pending => []
       end).
Proof.
  intros (Hvalid & Hexist & Hname & Hinst & Hup).
  set (named := if truthy (User.username educator)
                then [CheckExist (User.set_id None educator)] else []).
  destruct (check_institution_ok (EducatorService.lib this) _ _
              ([CheckExist educator] ++ named) Hinst)
    as (mid & Hmid & Hcheck).
  exists ([CheckExist educator] ++ named ++ mid ++ [Update educator]).
  split.
  { apply silent_app; [by repeat constructor|].
    apply silent_app; [|apply silent_app; [done | by repeat constructor]].
    unfold named. destruct (truthy _); by repeat constructor. }
  unfold Async.run, EducatorService.update, Async.call.
  unfold Async.try_catch, Async.bind, Async.perform, Async.await,
    Async.check, Async.ret, Async.throw, Async.then_catch.
  rewrite Hvalid. cbn [app]. rewrite Hexist. cbn [negb].
  revert Hcheck. unfold named. clear named.
  destruct (truthy (User.username educator)) eqn:Hgiven.
  - rewrite (Hname eq_refl), set_id_restore. cbn [app]. intros ->.
    rewrite Hup, <- !app_assoc. cbn [app].
    destruct (bus_pubUpdateEducator _ up) as [[]| |]; cbn;
      by rewrite <- ?app_assoc.
  - cbn [app]. intros ->. rewrite Hup, <- !app_assoc. cbn [app].
    destruct (bus_pubUpdateEducator _ up) as [[]| |]; cbn;
      by rewrite <- ?app_assoc.
Qed.

(** ** Object properties *)

Lemma obj_get_set_eq (k : string) (v : value) (o : obj) : obj_get k (obj_set k v o) = v.
Proof.
  induction o as [|[k' v'] rest IH]; cbn.
  - by rewrite String.eqb_refl.
  - destruct (String.eqb k k') eqn:E; cbn; by rewrite E.
Qed.

Lemma obj_get_set_ne (k k' : string) (v : value) (o : obj) :
  k <> k' -> obj_get k (obj_set k' v o) = obj_get k o.
Proof.
  intros Hne. induction o as [|[k'' v''] rest IH]; cbn.
  - by apply String.eqb_neq in Hne as ->.
  - destruct (String.eqb k' k'') eqn:E; cbn.
    + apply String.eqb_eq in E as <-. by apply String.eqb_neq in Hne as ->.
    + by rewrite IH.
Qed.

(** ** Publication after a successful update *)

Ltac holds_on_fixture := repeat split; intros; reflexivity.

(** C1, as stated, fails: after a successful update of an educator whose
    publish rejects, nothing is handed to the integration event store
    (the educator service has none); and after a successful update of a
    health professional whose publish rejects, nothing is handed to it
    either. *)
Lemma C1_failed_publish_not_persisted :
  let educators := Fixture.educators Fixture.users (Rejected Fixture.unreachable) in
  let professionals :=
    Fixture.healthProfessionals Fixture.users (Rejected Fixture.unreachable)
      (Fulfilled VNull) in
  (EducatorService.commits educators Fixture.E1 Fixture.E1 /\
   bus_calls (Async.effects (EducatorService.update educators Fixture.E1))
     = [PubUpdateEducator Fixture.E1] /\
   store_creates (Async.effects (EducatorService.update educators Fixture.E1)) = []) /\
  (HealthProfessionalService.commits professionals Fixture.H1 Fixture.H1 /\
   bus_calls (Async.effects (HealthProfessionalService.update professionals Fixture.H1))
     = [Publish (HealthProfessionalService.update_event professionals Fixture.H1)
          "healthprofessionals.update"] /\
   store_creates
     (Async.effects (HealthProfessionalService.update professionals Fixture.H1)) = []).
Proof. holds_on_fixture. Qed.

(** C1, amended: in HealthProfessionalService.update, whenever the
    mutation succeeds and the bus publish returns false, the event that
    was published is serialized, `__operation = "publish"` and
    `__routing_key = "healthprofessionals.update"` (the routing key of the
    publish) are attached, the other fields staying as serialized, and
    the integration event store's create is called with the result. *)
Theorem C1_publish_false_is_persisted (this : HealthProfessionalService.t)
    (healthProfessional up : User.t) :
  HealthProfessionalService.commits this healthProfessional up ->
  bus_publish (HealthProfessionalService._eventBus this)
    (HealthProfessionalService.update_event this up) "healthprofessionals.update"
    = Fulfilled false ->
  let event := HealthProfessionalService.update_event this up in
  let saved := HealthProfessionalService.saveEvent_object this event in
  let effs := Async.effects (HealthProfessionalService.update this healthProfessional) in
  bus_calls effs = [Publish event "healthprofessionals.update"] /\
  store_creates effs
    = [json_copy (toISOString (HealthProfessionalService.lib this)) (VObj saved)] /\
  obj_get "__operation" saved = VStr "publish" /\
  obj_get "__routing_key" saved = VStr "healthprofessionals.update" /\
  forall k, k <> "__operation" -> k <> "__routing_key" ->
    obj_get k saved
    = obj_get k (UserUpdateEvent.toJSON (User_toJSON (HealthProfessionalService.lib this)) event).
Proof.
  intros Hcommits Hfalse event saved effs.
  destruct (health_professional_update_committed this healthProfessional up Hcommits)
    as (pre & Hpre & Hrun).
  cbv zeta in Hrun. rewrite Hfalse, saveEvent_run in Hrun.
  assert (Heffs : effs = pre ++ [Publish event "healthprofessionals.update"] ++
            StoreCreate (json_copy (toISOString (HealthProfessionalService.lib this))
                           (VObj saved)) ::
            match store_create (HealthProfessionalService._integrationEventRepository this)
                    (json_copy (toISOString (HealthProfessionalService.lib this))
                       (VObj saved)) with
            | Fulfilled _ => [Log Warn (HealthProfessionalService.saved_warning event)]
            | Rejected err => [Log Err (HealthProfessionalService.save_error this event err)]
            | Pending => []
            end).
  { unfold effs, Async.effects. rewrite Hrun. cbn [snd]. by rewrite <- app_assoc. }
  rewrite Heffs, bus_calls_app, store_creates_app,
    (silent_bus_calls _ Hpre), (silent_store_creates _ Hpre).
  split; [|split; [|split; [|split]]].
  - by destruct (store_create _ _).
  - by destruct (store_create _ _).
  - unfold saved, HealthProfessionalService.saveEvent_object.
    rewrite obj_get_set_ne by done. apply obj_get_set_eq.
  - apply obj_get_set_eq.
  - intros k Hop Hkey. unfold saved, HealthProfessionalService.saveEvent_object.
    by rewrite !obj_get_set_ne.
Qed.

Lemma C1_publish_false_is_persisted_witness :
  let this := Fixture.healthProfessionals Fixture.users (Fulfilled false) (Fulfilled VNull) in
  store_creates (Async.effects (HealthProfessionalService.update this Fixture.H1))
  = [VObj [("event_name", VStr "HealthProfessionalUpdateEvent");
           ("timestamp", VStr "2019-01-01T00:00:00.000Z");
           ("type", VStr "users");
           ("user", VObj [("id", VStr "H1"); ("username", VStr "doctor")]);
           ("__operation", VStr "publish");
           ("__routing_key", VStr "healthprofessionals.update")]].
Proof.
  intros this.
  refine (proj1 (proj2 (C1_publish_false_is_persisted this Fixture.H1 Fixture.H1 _ _))).
  - holds_on_fixture.
  - reflexivity.
Defined.

(** C2, as stated, fails: two runs of a health professional's update
    that differ only in the bus, one publishing with `true` and one never
    resolving, do not return the same: the second never completes. *)
Lemma C2_update_waits_for_publish :
  let answering :=
    Fixture.healthProfessionals Fixture.users (Fulfilled true) (Fulfilled VNull) in
  let stalled :=
    HealthProfessionalService.with_eventBus (Fixture.bus Pending) answering in
  HealthProfessionalService.commits answering Fixture.H1 Fixture.H1 /\
  Async.result (HealthProfessionalService.update answering Fixture.H1)
    = Fulfilled (Some Fixture.H1) /\
  Async.result (HealthProfessionalService.update stalled Fixture.H1) = Pending.
Proof. holds_on_fixture. Qed.

(** C2, amended: for every update mutation that succeeds, the entity
    returned to the caller is the repository's updated entity.
    EducatorService.update returns it without waiting for the publish,
    whatever bus it runs with.  HealthProfessionalService.update awaits
    the publish: two runs that differ only in the publish result, true
    versus false, return the same entity, and a run whose publish never
    resolves does not complete. *)
Theorem C2_update_result_and_publish_outcome
    (educators : EducatorService.t) (professionals : HealthProfessionalService.t)
    (educator educatorUp healthProfessional healthProfessionalUp : User.t)
    (client1 client2 : IEventBusClient) (bus1 bus2 stalled : IEventBus) (b1 b2 : bool) :
  let event := HealthProfessionalService.update_event professionals healthProfessionalUp in
  EducatorService.commits educators educator educatorUp ->
  HealthProfessionalService.commits professionals healthProfessional healthProfessionalUp ->
  bus_publish bus1 event "healthprofessionals.update" = Fulfilled b1 ->
  bus_publish bus2 event "healthprofessionals.update" = Fulfilled b2 ->
  bus_publish stalled event "healthprofessionals.update" = Pending ->
  Async.result (EducatorService.update (EducatorService.with_eventBus client1 educators)
                  educator) = Fulfilled (Some educatorUp) /\
  Async.result (EducatorService.update (EducatorService.with_eventBus client2 educators)
                  educator) = Fulfilled (Some educatorUp) /\
  Async.result (HealthProfessionalService.update
                  (HealthProfessionalService.with_eventBus bus1 professionals)
                  healthProfessional) = Fulfilled (Some healthProfessionalUp) /\
  Async.result (HealthProfessionalService.update
                  (HealthProfessionalService.with_eventBus bus2 professionals)
                  healthProfessional) = Fulfilled (Some healthProfessionalUp) /\
  Async.result (HealthProfessionalService.update
                  (HealthProfessionalService.with_eventBus stalled professionals)
                  healthProfessional) = Pending.
Proof.
  intros event He Hh H1 H2 H3.
  assert (Heducator : forall client,
    Async.result (EducatorService.update (EducatorService.with_eventBus client educators)
                    educator) = Fulfilled (Some educatorUp)).
  { intros client.
    destruct (educator_update_committed (EducatorService.with_eventBus client educators)
                educator educatorUp He) as (pre & _ & Hrun).
    unfold Async.result. by rewrite Hrun. }
  assert (Hprofessional : forall bus,
    Async.result (HealthProfessionalService.update
                    (HealthProfessionalService.with_eventBus bus professionals)
                    healthProfessional)
    = match bus_publish bus event "healthprofessionals.update" with
      | Fulfilled _ => Fulfilled (Some healthProfessionalUp)
      | Rejected err => Rejected err
      | Pending => Pending
      end).
  { intros bus.
    destruct (health_professional_update_committed
                (HealthProfessionalService.with_eventBus bus professionals)
                healthProfessional healthProfessionalUp Hh) as (pre & _ & Hrun).
    unfold Async.result. rewrite Hrun. cbn [HealthProfessionalService.with_eventBus
      HealthProfessionalService._eventBus].
    change (HealthProfessionalService.update_event _ healthProfessionalUp) with event.
    by destruct (bus_publish bus event _) as [[]| |]. }
  rewrite !Heducator, !Hprofessional, H1, H2, H3. done.
Qed.

Lemma C2_update_result_and_publish_outcome_witness :
  let educators := Fixture.educators Fixture.users (Fulfilled tt) in
  let professionals :=
    Fixture.healthProfessionals Fixture.users (Fulfilled true) (Fulfilled VNull) in
  Async.result (EducatorService.update
                  (EducatorService.with_eventBus (Fixture.client Pending) educators)
                  Fixture.E1) = Fulfilled (Some Fixture.E1) /\
  Async.result (EducatorService.update
                  (EducatorService.with_eventBus
                     (Fixture.client (Rejected Fixture.unreachable)) educators)
                  Fixture.E1) = Fulfilled (Some Fixture.E1) /\
  Async.result (HealthProfessionalService.update
                  (HealthProfessionalService.with_eventBus
                     (Fixture.bus (Fulfilled true)) professionals)
                  Fixture.H1) = Fulfilled (Some Fixture.H1) /\
  Async.result (HealthProfessionalService.update
                  (HealthProfessionalService.with_eventBus
                     (Fixture.bus (Fulfilled false)) professionals)
                  Fixture.H1) = Fulfilled (Some Fixture.H1) /\
  Async.result (HealthProfessionalService.update
                  (HealthProfessionalService.with_eventBus
                     (Fixture.bus Pending) professionals)
                  Fixture.H1) = Pending.
Proof.
  intros educators professionals.
  apply (C2_update_result_and_publish_outcome educators professionals
           Fixture.E1 Fixture.E1 Fixture.H1 Fixture.H1
           (Fixture.client Pending) (Fixture.client (Rejected Fixture.unreachable))
           (Fixture.bus (Fulfilled true)) (Fixture.bus (Fulfilled false))
           (Fixture.bus Pending) true false).
  - holds_on_fixture.
  - holds_on_fixture.
  - reflexivity.
  - reflexivity.
  - reflexivity.
Defined.

(** C3, as stated, fails: when the publish of a health professional's
    update rejects, the rejection reaches the caller of `update`, and
    neither fallback persistence nor logging takes place. *)
Lemma C3_publish_rejection_reaches_caller :
  let this :=
    Fixture.healthProfessionals Fixture.users (Rejected Fixture.unreachable)
      (Fulfilled VNull) in
  let effs := Async.effects (HealthProfessionalService.update this Fixture.H1) in
  HealthProfessionalService.commits this Fixture.H1 Fixture.H1 /\
  Async.result (HealthProfessionalService.update this Fixture.H1)
    = Rejected Fixture.unreachable /\
  store_creates effs = [] /\
  logged Info effs ++ logged Warn effs ++ logged Err effs = [].
Proof. holds_on_fixture. Qed.

(** C3, amended: if the publish rejects during EducatorService.update's
    post-commit publication, the rejection is recovered locally: it is
    logged at error severity, nothing is persisted, and it is not
    propagated, the mutation resolving with the updated entity.  In
    HealthProfessionalService.update the failure that is recovered locally
    is a publish returning false: it triggers fallback persistence and the
    logging of its outcome, and the mutation resolves with the updated
    entity. *)
Theorem C3_publish_failure_recovered_locally
    (educators : EducatorService.t) (professionals : HealthProfessionalService.t)
    (educator educatorUp healthProfessional healthProfessionalUp : User.t) (err : exn) :
  let event := HealthProfessionalService.update_event professionals healthProfessionalUp in
  let record :=
    json_copy (toISOString (HealthProfessionalService.lib professionals))
      (VObj (HealthProfessionalService.saveEvent_object professionals event)) in
  let effsE := Async.effects (EducatorService.update educators educator) in
  let effsH := Async.effects (HealthProfessionalService.update professionals healthProfessional) in
  EducatorService.commits educators educator educatorUp ->
  HealthProfessionalService.commits professionals healthProfessional healthProfessionalUp ->
  bus_pubUpdateEducator (EducatorService._eventBus educators) educatorUp = Rejected err ->
  bus_publish (HealthProfessionalService._eventBus professionals) event
    "healthprofessionals.update" = Fulfilled false ->
  (Async.result (EducatorService.update educators educator) = Fulfilled (Some educatorUp) /\
   logged Err effsE = [EducatorService.publish_error err] /\
   store_creates effsE = []) /\
  (Async.result (HealthProfessionalService.update professionals healthProfessional)
     = Fulfilled (Some healthProfessionalUp) /\
   store_creates effsH = [record] /\
   match store_create (HealthProfessionalService._integrationEventRepository professionals)
           record with
   | Fulfilled _ => logged Warn effsH = [HealthProfessionalService.saved_warning event]
   | Rejected e => logged Err effsH = [HealthProfessionalService.save_error professionals event e]
   | Pending => logged Warn effsH ++ logged Err effsH = []
   end).
Proof.
  intros event record effsE effsH He Hh Hreject Hfalse.
  destruct (educator_update_committed educators educator educatorUp He)
    as (preE & HpreE & HrunE).
  destruct (health_professional_update_committed professionals healthProfessional
              healthProfessionalUp Hh) as (preH & HpreH & HrunH).
  cbv zeta in HrunH. fold event in HrunH.
  rewrite Hfalse, saveEvent_run in HrunH. fold event record in HrunH. cbn [snd] in HrunH.
  rewrite Hreject in HrunE.
  unfold effsE, effsH, Async.effects, Async.result. rewrite HrunE, HrunH. cbn [fst snd].
  split; [split; [done|split]|split; [done|split]].
  - by rewrite logged_app, (silent_logged _ _ HpreE).
  - by rewrite store_creates_app, (silent_store_creates _ HpreE).
  - rewrite !store_creates_app, (silent_store_creates _ HpreH).
    by destruct (store_create _ record).
  - destruct (store_create _ record);
      rewrite !logged_app, !(silent_logged _ _ HpreH); by cbn.
Qed.

Lemma C3_publish_failure_recovered_locally_witness :
  let educators := Fixture.educators Fixture.users (Rejected Fixture.unreachable) in
  let professionals :=
    Fixture.healthProfessionals Fixture.users (Fulfilled false) (Fulfilled VNull) in
  Async.result (EducatorService.update educators Fixture.E1) = Fulfilled (Some Fixture.E1) /\
  Async.result (HealthProfessionalService.update professionals Fixture.H1)
    = Fulfilled (Some Fixture.H1).
Proof.
  intros educators professionals.
  destruct (C3_publish_failure_recovered_locally educators professionals
              Fixture.E1 Fixture.E1 Fixture.H1 Fixture.H1 Fixture.unreachable)
    as [[HE _] [HH _]].
  - holds_on_fixture.
  - holds_on_fixture.
  - reflexivity.
  - reflexivity.
  - exact (conj HE HH).
Defined.

(** An update whose repository call returns no entity. *)
Ltac unfold_async :=
  unfold Async.effects, Async.result, Async.run, check_institution, Async.call;
  unfold Async.try_catch, Async.bind, Async.perform, Async.await,
    Async.check, Async.ret, Async.throw, Async.then_catch.

Ltac split_on t := destruct t eqn:?.

Ltac split_cases H :=
  repeat first
    [ rewrite set_id_restore
    | rewrite H
    | progress cbn [fst snd app negb]
    | match goal with
      | |- context [match ?x with _ => _ end] =>
          first
            [ is_var x
            | match x with
              | UpdateEducatorValidator_validate _ _ => idtac
              | UpdateUserValidator_validate _ _ => idtac
              | ObjectIdValidator_validate _ _ _ => idtac
              | repo_checkExist _ _ => idtac
              | repo_findById _ _ => idtac
              | inst_checkExist _ _ => idtac
              | cg_remove _ _ => idtac
              | User.institution _ => idtac
              | Institution.id _ => idtac
              | truthy _ => idtac
              | negb _ => idtac
              end ];
          split_on x
      end ].

(** C4: when the repository's update returns no entity, the update
    methods attempt no event publication: no call reaches the bus and
    nothing is handed to the integration event store. *)
Theorem C4_no_publication_without_updated_entity
    (educators : EducatorService.t) (professionals : HealthProfessionalService.t)
    (educator healthProfessional : User.t) :
  repo_update (EducatorService._educatorRepository educators) educator = Fulfilled None ->
  repo_update (HealthProfessionalService._healthProfessionalRepository professionals)
    healthProfessional = Fulfilled None ->
  let effsE := Async.effects (EducatorService.update educators educator) in
  let effsH := Async.effects (HealthProfessionalService.update professionals healthProfessional) in
  (bus_calls effsE = [] /\ store_creates effsE = []) /\
  (bus_calls effsH = [] /\ store_creates effsH = []).
Proof.
  intros HE HH effsE effsH. split.
  - unfold effsE, EducatorService.update. unfold_async.
    split; split_cases HE; reflexivity.
  - unfold effsH, HealthProfessionalService.update. unfold_async.
    split; split_cases HH; reflexivity.
Qed.

Lemma C4_no_publication_without_updated_entity_witness :
  let educators := Fixture.educators Fixture.no_users (Fulfilled tt) in
  let professionals :=
    Fixture.healthProfessionals Fixture.no_users (Fulfilled true) (Fulfilled VNull) in
  (Async.result (EducatorService.update educators Fixture.E1) = Fulfilled None /\
   Async.result (HealthProfessionalService.update professionals Fixture.H1) = Fulfilled None) /\
  (bus_calls (Async.effects (EducatorService.update educators Fixture.E1)) = [] /\
   store_creates (Async.effects (EducatorService.update educators Fixture.E1)) = []) /\
  (bus_calls (Async.effects (HealthProfessionalService.update professionals Fixture.H1)) = [] /\
   store_creates
     (Async.effects (HealthProfessionalService.update professionals Fixture.H1)) = []).
Proof.
  intros educators professionals. split; [by split|].
  apply (C4_no_publication_without_updated_entity educators professionals
           Fixture.E1 Fixture.H1); reflexivity.
Defined.

(** ** The record written for an event that was not published *)

Lemma string_app_assoc (s1 s2 s3 : string) : (s1 +:+ s2) +:+ s3 = s1 +:+ (s2 +:+ s3).
Proof.
  induction s1 as [|a s1 IH]; [done|].
  change (String a ((s1 +:+ s2) +:+ s3) = String a (s1 +:+ (s2 +:+ s3))).
  by rewrite IH.
Qed.

(** `update` of a health professional after a successful mutation whose
    publish returned false. *)
Lemma health_professional_update_unpublished (this : HealthProfessionalService.t)
    (healthProfessional up : User.t) :
  HealthProfessionalService.commits this healthProfessional up ->
  let event := HealthProfessionalService.update_event this up in
  let record := json_copy (toISOString (HealthProfessionalService.lib this))
                  (VObj (HealthProfessionalService.saveEvent_object this event)) in
  bus_publish (HealthProfessionalService._eventBus this) event "healthprofessionals.update"
    = Fulfilled false ->
  exists pre, silent pre /\
    Async.run (HealthProfessionalService.update this healthProfessional) =
    (Fulfilled (Some up),
     pre ++ Publish event "healthprofessionals.update" :: StoreCreate record ::
       match store_create (HealthProfessionalService._integrationEventRepository this)
               record with
       | Fulfilled _ => [Log Warn (HealthProfessionalService.saved_warning event)]
       | Rejected err => [Log Err (HealthProfessionalService.save_error this event err)]
       | Pending => []
       end).
Proof.
  intros Hcommits event record Hfalse.
  destruct (health_professional_update_committed this healthProfessional up Hcommits)
    as (pre & Hpre & Hrun).
  exists pre. split; [done|].
  cbv zeta in Hrun. fold event in Hrun. rewrite Hfalse, saveEvent_run in Hrun.
  rewrite Hrun. cbn [snd]. by rewrite <- app_assoc.
Qed.

(** The serialized record has the three fields that identify it. *)
Lemma saved_record_fields (this : HealthProfessionalService.t) (up : User.t) :
  let event := HealthProfessionalService.update_event this up in
  exists props,
    json_copy (toISOString (HealthProfessionalService.lib this))
      (VObj (HealthProfessionalService.saveEvent_object this event)) = VObj props /\
    obj_get "event_name" props = VStr "HealthProfessionalUpdateEvent" /\
    obj_get "__operation" props = VStr "publish" /\
    obj_get "__routing_key" props = VStr "healthprofessionals.update".
Proof.
  intros event. rewrite json_copy_obj. eexists. split; [reflexivity|].
  unfold event, HealthProfessionalService.saveEvent_object, UserUpdateEvent.toJSON,
    HealthProfessionalService.update_event.
  cbn. by destruct (User_toJSON _ up).
Qed.

(** C5: for an update of a health professional that succeeds while the
    bus publish returns false, exactly one record is handed to the
    integration event store, so that a store that was empty holds exactly
    that record, and it has
    `event_name == "HealthProfessionalUpdateEvent"`,
    `__operation == "publish"` and
    `__routing_key == "healthprofessionals.update"`. *)
Theorem C5_one_record_for_unpublished_update (this : HealthProfessionalService.t)
    (healthProfessional up : User.t) :
  HealthProfessionalService.commits this healthProfessional up ->
  bus_publish (HealthProfessionalService._eventBus this)
    (HealthProfessionalService.update_event this up) "healthprofessionals.update"
    = Fulfilled false ->
  let records :=
    store_creates (Async.effects (HealthProfessionalService.update this healthProfessional)) in
  exists props,
    records = [VObj props] /\
    (exists id, Store.findAll (Store.create_all records ∅) = [(id, props)]) /\
    obj_get "event_name" props = VStr "HealthProfessionalUpdateEvent" /\
    obj_get "__operation" props = VStr "publish" /\
    obj_get "__routing_key" props = VStr "healthprofessionals.update".
Proof.
  intros Hcommits Hfalse records.
  destruct (health_professional_update_unpublished this healthProfessional up
              Hcommits Hfalse) as (pre & Hpre & Hrun).
  destruct (saved_record_fields this up) as (props & Hprops & Hfields).
  exists props.
  assert (Hrecords : records = [VObj props]).
  { unfold records, Async.effects. rewrite Hrun. cbn [snd].
    rewrite store_creates_app, (silent_store_creates _ Hpre), Hprops.
    by destruct (store_create _ (VObj props)). }
  split; [done|]. split; [|done].
  rewrite Hrecords. exists (fresh (dom (∅ : gmap nat obj))).
  unfold Store.findAll, Store.create_all, Store.create. cbn [foldl fst].
  rewrite insert_empty. apply map_to_list_singleton.
Qed.

Lemma C5_one_record_for_unpublished_update_witness :
  let this := Fixture.healthProfessionals Fixture.users (Fulfilled false) (Fulfilled VNull) in
  let records :=
    store_creates (Async.effects (HealthProfessionalService.update this Fixture.H1)) in
  exists props,
    records = [VObj props] /\
    (exists id, Store.findAll (Store.create_all records ∅) = [(id, props)]) /\
    obj_get "event_name" props = VStr "HealthProfessionalUpdateEvent" /\
    obj_get "__operation" props = VStr "publish" /\
    obj_get "__routing_key" props = VStr "healthprofessionals.update".
Proof.
  intros this.
  apply (C5_one_record_for_unpublished_update this Fixture.H1 Fixture.H1).
  - holds_on_fixture.
  - reflexivity.
Defined.

(** The object that `saveEvent` serializes for the event of an update,
    member by member. *)
Lemma saveEvent_object_members (this : HealthProfessionalService.t) (up : User.t) :
  HealthProfessionalService.saveEvent_object this
    (HealthProfessionalService.update_event this up)
  = [ ("event_name", VStr "HealthProfessionalUpdateEvent");
      ("timestamp", VDate (Date_now (HealthProfessionalService.lib this)));
      ("type", VStr "users");
      ("user", User_toJSON (HealthProfessionalService.lib this) up);
      ("__operation", VStr "publish");
      ("__routing_key", VStr "healthprofessionals.update") ].
Proof. reflexivity. Qed.

(** C6: if the integration event store's create rejects while a failed
    event is persisted, the error is only logged, at error severity, in
    one line that names the event, gives the error's message and ends in
    `JSON.stringify` of the whole event as it was to be saved (its name,
    timestamp, type and entity and the two fields `saveEvent` attached),
    and is not propagated: `saveEvent` returns normally and the update
    resolves with the updated entity. *)
Theorem C6_store_failure_only_logged (this : HealthProfessionalService.t)
    (healthProfessional up : User.t) (err : exn) :
  let lib := HealthProfessionalService.lib this in
  let event := HealthProfessionalService.update_event this up in
  let payload :=
    [ ("event_name", VStr "HealthProfessionalUpdateEvent");
      ("timestamp", VDate (Date_now lib));
      ("type", VStr "users");
      ("user", User_toJSON lib up);
      ("__operation", VStr "publish");
      ("__routing_key", VStr "healthprofessionals.update") ] in
  let record := json_copy (toISOString lib) (VObj payload) in
  let line :=
    "There was an error trying to save the name event: HealthProfessionalUpdateEvent.Error: "
    +:+ message err +:+ ". Event: " +:+ JSON_stringify lib (VObj payload) in
  HealthProfessionalService.commits this healthProfessional up ->
  bus_publish (HealthProfessionalService._eventBus this) event "healthprofessionals.update"
    = Fulfilled false ->
  store_create (HealthProfessionalService._integrationEventRepository this) record
    = Rejected err ->
  (forall tr,
     HealthProfessionalService.saveEvent this event tr
     = (Fulfilled tt, tr ++ [StoreCreate record; Log Err line])) /\
  Async.result (HealthProfessionalService.update this healthProfessional)
    = Fulfilled (Some up) /\
  logged Err (Async.effects (HealthProfessionalService.update this healthProfessional))
    = [line] /\
  exists pre, silent pre /\
    Async.effects (HealthProfessionalService.update this healthProfessional)
    = pre ++ [Publish event "healthprofessionals.update"; StoreCreate record;
              Log Err line].
Proof.
  intros lib event payload record line Hcommits Hfalse Hstore.
  assert (Hline : HealthProfessionalService.save_error this event err = line)
    by reflexivity.
  assert (Hpayload : HealthProfessionalService.saveEvent_object this event = payload)
    by apply saveEvent_object_members.
  destruct (health_professional_update_unpublished this healthProfessional up
              Hcommits Hfalse) as (pre & Hpre & Hrun).
  fold lib event in Hrun. rewrite Hpayload in Hrun. fold record in Hrun.
  rewrite Hstore, Hline in Hrun.
  split; [|split; [|split]].
  - intros tr. rewrite saveEvent_run. fold lib event. rewrite Hpayload. fold record.
    by rewrite Hstore, Hline.
  - unfold Async.result. by rewrite Hrun.
  - unfold Async.effects. rewrite Hrun. cbn [snd].
    rewrite logged_app, (silent_logged _ _ Hpre). reflexivity.
  - exists pre. split; [done|]. unfold Async.effects. by rewrite Hrun.
Qed.

Lemma C6_store_failure_only_logged_witness :
  let this :=
    Fixture.healthProfessionals Fixture.users (Fulfilled false)
      (Rejected (Error "store down")) in
  Async.result (HealthProfessionalService.update this Fixture.H1)
    = Fulfilled (Some Fixture.H1) /\
  logged Err (Async.effects (HealthProfessionalService.update this Fixture.H1))
    = [ "There was an error trying to save the name event: HealthProfessionalUpdateEvent.Error: "
        +:+ "store down. Event: {...}" ].
Proof.
  intros this.
  refine (let proved :=
            C6_store_failure_only_logged this Fixture.H1 Fixture.H1 (Error "store down")
              _ _ _ in
          conj (proj1 (proj2 proved)) (proj1 (proj2 (proj2 proved)))).
  - holds_on_fixture.
  - reflexivity.
  - reflexivity.
Defined.

(** ** One run of the retry task *)

Lemma retry_one_run (publish : obj -> string -> promise bool)
    (st : gmap nat obj * list EventBusTask.effect) (event : nat * obj) :
  EventBusTask.retry_one publish st event
  = (if EventBusTask.delivered publish event.2 then delete event.1 st.1 else st.1,
     st.2 ++ EventBusTask.outcome_effects publish event).
Proof.
  destruct event as [id record]. destruct st as [s effs].
  unfold EventBusTask.outcome_effects, EventBusTask.retry_one, EventBusTask.delivered.
  cbn. by destruct (publish _ _) as [[]| |].
Qed.

(** Whatever the outcome, handling an event starts with its republish. *)
Lemma outcome_effects_attempt (publish : obj -> string -> promise bool)
    (id : nat) (record : obj) :
  EventBusTask.Republish id (EventBusTask.payload record) (EventBusTask.routing_key record)
  ∈ EventBusTask.outcome_effects publish (id, record).
Proof.
  unfold EventBusTask.outcome_effects, EventBusTask.retry_one. cbn.
  destruct (publish _ _) as [[]| |]; apply list_elem_of_here.
Qed.

Lemma outcome_effects_delete (publish : obj -> string -> promise bool)
    (id id' : nat) (record : obj) :
  EventBusTask.DeleteById id ∈ EventBusTask.outcome_effects publish (id', record)
  <-> id = id' /\ EventBusTask.delivered publish record = true.
Proof.
  unfold EventBusTask.outcome_effects, EventBusTask.retry_one, EventBusTask.delivered. cbn.
  destruct (publish _ _) as [[]| |]; cbn [snd app];
    rewrite !elem_of_cons, elem_of_nil; intuition congruence.
Qed.

Lemma elem_of_concat_map {A B} (f : A -> list B) (l : list A) (y : B) :
  y ∈ concat (map f l) <-> exists x, x ∈ l /\ y ∈ f x.
Proof.
  induction l as [|a l IH]; cbn.
  - rewrite elem_of_nil. split; [done|]. intros (x & Hx & _). by apply elem_of_nil in Hx.
  - rewrite elem_of_app, IH. split.
    + intros [Hy|(x & Hx & Hy)].
      * exists a. split; [apply list_elem_of_here | done].
      * exists x. split; [by apply list_elem_of_further | done].
    + intros (x & [->|Hx]%elem_of_cons & Hy); [by left|].
      right. by exists x.
Qed.

Lemma retry_fold_effects (publish : obj -> string -> promise bool)
    (events : list (nat * obj)) (st : gmap nat obj * list EventBusTask.effect) :
  (foldl (EventBusTask.retry_one publish) st events).2
  = st.2 ++ concat (map (EventBusTask.outcome_effects publish) events).
Proof.
  revert st. induction events as [|event events IH]; intros st; cbn.
  - by rewrite app_nil_r.
  - rewrite IH, retry_one_run. cbn. by rewrite <- app_assoc.
Qed.

(** A record that is gone stays gone. *)
Lemma retry_fold_none (publish : obj -> string -> promise bool)
    (events : list (nat * obj)) (st : gmap nat obj * list EventBusTask.effect) (id : nat) :
  st.1 !! id = None -> (foldl (EventBusTask.retry_one publish) st events).1 !! id = None.
Proof.
  revert st. induction events as [|event events IH]; intros st Hnone; cbn; [done|].
  apply IH. rewrite retry_one_run. cbn.
  destruct (EventBusTask.delivered publish event.2); [|done].
  destruct (decide (event.1 = id)) as [->|Hne].
  - apply lookup_delete_eq.
  - by rewrite lookup_delete_ne.
Qed.

(** A record whose republish succeeded is deleted. *)
Lemma retry_fold_delivered (publish : obj -> string -> promise bool)
    (events : list (nat * obj)) (st : gmap nat obj * list EventBusTask.effect)
    (id : nat) (record : obj) :
  (id, record) ∈ events -> EventBusTask.delivered publish record = true ->
  (foldl (EventBusTask.retry_one publish) st events).1 !! id = None.
Proof.
  revert st. induction events as [|event events IH]; intros st Hin Hok.
  - by apply elem_of_nil in Hin.
  - cbn. apply elem_of_cons in Hin as [<-|Hin]; [|by apply IH].
    apply retry_fold_none. rewrite retry_one_run. cbn. rewrite Hok.
    apply lookup_delete_eq.
Qed.

(** A record none of whose republishes succeeded is left as it is. *)
Lemma retry_fold_kept (publish : obj -> string -> promise bool)
    (events : list (nat * obj)) (st : gmap nat obj * list EventBusTask.effect) (id : nat) :
  (forall record, (id, record) ∈ events -> EventBusTask.delivered publish record = false) ->
  (foldl (EventBusTask.retry_one publish) st events).1 !! id = st.1 !! id.
Proof.
  revert st. induction events as [|event events IH]; intros st Hall; cbn; [done|].
  rewrite IH by (intros record Hin; apply Hall; by apply list_elem_of_further).
  rewrite retry_one_run. cbn.
  destruct (EventBusTask.delivered publish event.2) eqn:Hok; [|done].
  apply lookup_delete_ne. intros Heq. destruct event as [id' record']. cbn in *. subst id'.
  rewrite (Hall record') in Hok; [done | apply list_elem_of_here].
Qed.

(** C7: in one run of the retry task, a republish is attempted for each
    persisted event, whatever happens to the others; a record is deleted
    from the store exactly when its republish succeeds, and a record whose
    republish fails is left untouched. *)
Theorem C7_retry_run_per_event (publish : obj -> string -> promise bool)
    (s : gmap nat obj) (id : nat) (record : obj) :
  s !! id = Some record ->
  let after := (EventBusTask.run publish s).1 in
  let effs := (EventBusTask.run publish s).2 in
  EventBusTask.Republish id (EventBusTask.payload record) (EventBusTask.routing_key record)
    ∈ effs /\
  (EventBusTask.DeleteById id ∈ effs <-> EventBusTask.delivered publish record = true) /\
  after !! id = (if EventBusTask.delivered publish record then None else Some record) /\
  forall other, s !! other = None -> after !! other = None.
Proof.
  intros Hrecord after effs.
  assert (Hin : (id, record) ∈ Store.findAll s) by by apply elem_of_map_to_list.
  assert (Honly : forall record', (id, record') ∈ Store.findAll s -> record' = record).
  { intros record' Hin'. apply elem_of_map_to_list in Hin'. congruence. }
  unfold after, effs, EventBusTask.run. rewrite retry_fold_effects. cbn [fst snd app].
  split; [|split; [|split]].
  - apply elem_of_concat_map. exists (id, record).
    split; [done | apply outcome_effects_attempt].
  - rewrite elem_of_concat_map. split.
    + intros ([id' record'] & Hin' & Hdel).
      apply outcome_effects_delete in Hdel as [<- Hok].
      by rewrite <- (Honly record' Hin').
    + intros Hok. exists (id, record). split; [done|].
      by apply outcome_effects_delete.
  - destruct (EventBusTask.delivered publish record) eqn:Hok.
    + by apply (retry_fold_delivered publish _ _ id record).
    + rewrite retry_fold_kept; [done|].
      intros record' Hin'. by rewrite (Honly record' Hin').
  - intros other Hnone. by apply retry_fold_none.
Qed.

Lemma C7_retry_run_per_event_witness :
  let first := [("event_name", VStr "A"); ("__operation", VStr "publish");
                ("__routing_key", VStr "users.delete")] in
  let second := [("event_name", VStr "B"); ("__operation", VStr "publish");
                 ("__routing_key", VStr "healthprofessionals.update")] in
  let third := [("event_name", VStr "C"); ("__operation", VStr "publish");
                ("__routing_key", VStr "users.delete")] in
  let s : gmap nat obj := <[1 := first]> (<[2 := second]> (<[3 := third]> ∅)) in
  let publish := fun (_ : obj) (key : string) =>
    if String.eqb key "users.delete" then Fulfilled true
    else Rejected (Error "channel closed") in
  (EventBusTask.run publish s).1 !! 1 = None /\
  (EventBusTask.run publish s).1 !! 2 = Some second /\
  (EventBusTask.run publish s).1 !! 3 = None /\
  EventBusTask.Republish 3 [("event_name", VStr "C")] "users.delete"
    ∈ (EventBusTask.run publish s).2.
Proof.
  intros first second third s publish.
  destruct (C7_retry_run_per_event publish s 1 first eq_refl) as (_ & _ & H1 & _).
  destruct (C7_retry_run_per_event publish s 2 second eq_refl) as (_ & _ & H2 & _).
  destruct (C7_retry_run_per_event publish s 3 third eq_refl) as (H3a & _ & H3 & _).
  repeat split; assumption.
Defined.

(** ** Events on the heap *)

Lemma assign_last (cs : list Heap.cell) (cls : Heap.class) (props : Heap.slots)
    (w : list Heap.write) (k : string) (s : Heap.slot) :
  Heap.assign (length cs) k s {| Heap.cells := cs ++ [Heap.Object cls props]; Heap.writes := w |}
  = {| Heap.cells := cs ++ [Heap.Object cls (Heap.slot_set k s props)];
       Heap.writes := w ++ [Heap.SetProperty (length cs) k s] |}.
Proof.
  unfold Heap.assign. cbn [Heap.cells Heap.writes].
  rewrite list_lookup_middle by done.
  by rewrite insert_app_r_alt, Nat.sub_diag by done.
Qed.

Lemma construct_run (n : string) (ty : EventType) (ts : option nat) (h : Heap.t) :
  Heap.construct n ty ts h
  = {| Heap.cells := Heap.cells h ++
         [Heap.Object Heap.IntegrationEventInstance
            [ ("event_name", Heap.Prim (VStr n));
              ("type", Heap.Prim (VStr (EventType_value ty)));
              ("timestamp", Heap.timestamp_slot ts) ]];
       Heap.writes := Heap.writes h ++
         [ Heap.SetProperty (length (Heap.cells h)) "event_name" (Heap.Prim (VStr n));
           Heap.SetProperty (length (Heap.cells h)) "type"
             (Heap.Prim (VStr (EventType_value ty)));
           Heap.SetProperty (length (Heap.cells h)) "timestamp" (Heap.timestamp_slot ts) ] |}.
Proof.
  unfold Heap.construct, Heap.alloc. rewrite !assign_last. cbn. by rewrite <- !app_assoc.
Qed.

(** `saveEvent` on an event: two objects are made, the literal and its
    copy, and the two assignments go to the literal. *)
Lemma heap_saveEvent_run (toISOString : Z -> string) (event : nat) (props : Heap.slots)
    (h : Heap.t) :
  Heap.cells h !! event = Some (Heap.Object Heap.IntegrationEventInstance props) ->
  exists copy,
    Heap.saveEvent toISOString event h
    = {| Heap.cells := Heap.cells h ++
           [ Heap.Object Heap.PlainObject
               [ ("event_name", Heap.slot_get "event_name" props);
                 ("timestamp", Heap.slot_get "timestamp" props);
                 ("type", Heap.slot_get "type" props);
                 ("__operation", Heap.Prim (VStr "publish"));
                 ("__routing_key", Heap.Prim (VStr "healthprofessionals.update")) ];
             Heap.Object Heap.PlainObject copy ];
         Heap.writes := Heap.writes h ++
           [ Heap.SetProperty (length (Heap.cells h)) "__operation"
               (Heap.Prim (VStr "publish"));
             Heap.SetProperty (length (Heap.cells h)) "__routing_key"
               (Heap.Prim (VStr "healthprofessionals.update")) ] |}.
Proof.
  intros Hcell. unfold Heap.saveEvent, Heap.toJSON. rewrite Hcell.
  unfold Heap.alloc. rewrite !assign_last.
  unfold Heap.parse_stringify. cbn [Heap.cells Heap.writes].
  rewrite list_lookup_middle by done.
  eexists. unfold Heap.alloc. cbn [Heap.cells Heap.writes Heap.slot_set String.eqb
    Ascii.eqb Bool.eqb]. rewrite <- !app_assoc. reflexivity.
Qed.







(** The literal that `saveEvent` tags reads as the serialized event with
    the two fields attached, the object of [IntegrationEvent.toJSON]. *)
Lemma saveEvent_literal_reads (toISOString : Z -> string) (n : string) (ty : EventType)
    (date : nat) (time : Z) (h : Heap.t) :
  Heap.cells h !! date = Some (Heap.DateObject time) ->
  let event := length (Heap.cells h) in
  let h' := Heap.saveEvent toISOString event (Heap.construct n ty (Some date) h) in
  exists props,
    Heap.cells h' !! S event = Some (Heap.Object Heap.PlainObject props) /\
    map (fun kv => (kv.1, Heap.read h' kv.2)) props
    = obj_set "__routing_key" (VStr "healthprofessionals.update")
        (obj_set "__operation" (VStr "publish")
           (IntegrationEvent.toJSON (IntegrationEvent.new n ty (Some time)))).
Proof.
  intros Hdate event h'. subst h'. rewrite construct_run.
  match goal with
  | |- context [Heap.saveEvent _ _ ?h1] =>
      destruct (heap_saveEvent_run toISOString event _ h1
                  (list_lookup_middle _ _ _ _ eq_refl)) as [copy ->]
  end.
  cbn [Heap.cells Heap.writes]. eexists. split.
  - rewrite <- app_assoc. cbn [app].
    rewrite lookup_app_r by (unfold event; lia).
    unfold event. rewrite Nat.sub_succ_l, Nat.sub_diag by lia. reflexivity.
  - cbn. rewrite <- !app_assoc. rewrite (lookup_app_l_Some _ _ _ _ Hdate). reflexivity.
Qed.

(** Two updates, the first one published, the second one saved: the
    event of the second keeps its fields, its Date is shared with the
    literal, and the copy for the store holds the ISO string. *)
Example update_events_example :
  let toISOString := fun _ : Z => "2019-01-01T00:00:00.000Z" in
  let h1 := Heap.exec toISOString (Heap.update_ops 1546300800000 true Heap.empty) Heap.empty in
  let h := Heap.exec toISOString (Heap.update_ops 1546300800000 false h1) h1 in
  Heap.cells h !! 2%nat = Some (Heap.DateObject 1546300800000) /\
  Heap.field 3 "timestamp" h = Some (Heap.Ref 2) /\
  Heap.writes_to 3 "timestamp" (Heap.writes h) = [Heap.Ref 2] /\
  Heap.field 4 "timestamp" h = Some (Heap.Ref 2) /\
  Heap.field 4 "__operation" h = Some (Heap.Prim (VStr "publish")) /\
  Heap.field 5 "timestamp" h = Some (Heap.Prim (VStr "2019-01-01T00:00:00.000Z")) /\
  Heap.field 3 "__operation" h = Some (Heap.Prim VUndefined).
Proof. repeat split. Qed.

(** The runtime itself refuses neither write: an assignment to a field
    of an event changes it, and a time set on the Date shows through the
    event.  That an event stays as constructed is a fact about what the
    sources do, not about what the objects allow. *)
Example readonly_is_erased :
  let h := Heap.construct "HealthProfessionalUpdateEvent" USERS (Some 0%nat)
             (Heap.newDate 1546300800000 Heap.empty) in
  Heap.field 1 "event_name" (Heap.assign 1 "event_name" (Heap.Prim (VStr "changed")) h)
    = Some (Heap.Prim (VStr "changed")) /\
  Heap.read (Heap.setTime 0 0 h) (Heap.timestamp_slot (Some 0%nat)) = VDate 0.
Proof. split; reflexivity. Qed.

(** ** Deleting a children group of a user that does not exist *)

(** C9, as stated, fails: an id that is not in the format the validator
    accepts corresponds to no educator and to no health professional, and
    `deleteChildrenGroup` rejects for it instead of resolving true. *)
Lemma C9_malformed_id_is_rejected :
  let educators := Fixture.educators Fixture.users (Fulfilled tt) in
  let professionals :=
    Fixture.healthProfessionals Fixture.users (Fulfilled true) (Fulfilled VNull) in
  (repo_findById (EducatorService._educatorRepository educators) "123" = Fulfilled None /\
   Async.result (EducatorService.deleteChildrenGroup educators "123"
                   "5a62be07de34500146d9c544")
   = Rejected (ValidationException "Educator ID is not in a valid format!"
                 "A 24-byte hex ID is expected.")) /\
  (repo_findById (HealthProfessionalService._healthProfessionalRepository professionals)
     "123" = Fulfilled None /\
   Async.result (HealthProfessionalService.deleteChildrenGroup professionals "123"
                   "5a62be07de34500146d9c544")
   = Rejected (ValidationException "Some ID provided does not have a valid format!"
                 "A 24-byte hex ID is expected.")).
Proof. holds_on_fixture. Qed.

(** C9, amended: for every user id that does not correspond to an
    existing educator (respectively health professional),
    `deleteChildrenGroup` removes no children group and updates no user
    record, and, when the user id and the children group id pass the id
    validator, it resolves true. *)
Theorem C9_delete_group_of_missing_user
    (educators : EducatorService.t) (professionals : HealthProfessionalService.t)
    (educatorId healthProfessionalId childrenGroupId : string) :
  repo_findById (EducatorService._educatorRepository educators) educatorId
    = Fulfilled None ->
  repo_findById (HealthProfessionalService._healthProfessionalRepository professionals)
    healthProfessionalId = Fulfilled None ->
  let runE := EducatorService.deleteChildrenGroup educators educatorId childrenGroupId in
  let runH := HealthProfessionalService.deleteChildrenGroup professionals
                healthProfessionalId childrenGroupId in
  let libE := EducatorService.lib educators in
  let libH := HealthProfessionalService.lib professionals in
  (List.filter is_removal_or_update (Async.effects runE) = [] /\
   (ObjectIdValidator_validate libE educatorId
      (Some (EDUCATOR_PARAM_ID_NOT_VALID_FORMAT libE)) = None ->
    ObjectIdValidator_validate libE childrenGroupId
      (Some (CHILDREN_GROUP_PARAM_ID_NOT_VALID_FORMAT libE)) = None ->
    Async.result runE = Fulfilled true)) /\
  (List.filter is_removal_or_update (Async.effects runH) = [] /\
   (ObjectIdValidator_validate libH healthProfessionalId None = None ->
    ObjectIdValidator_validate libH childrenGroupId None = None ->
    Async.result runH = Fulfilled true)).
Proof.
  intros HE HH runE runH libE libH. split; split.
  - unfold runE, EducatorService.deleteChildrenGroup. unfold_async.
    split_cases HE; reflexivity.
  - intros H1 H2. unfold runE, EducatorService.deleteChildrenGroup. unfold_async.
    fold libE. by rewrite H1, H2, HE.
  - unfold runH, HealthProfessionalService.deleteChildrenGroup. unfold_async.
    split_cases HH; reflexivity.
  - intros H1 H2. unfold runH, HealthProfessionalService.deleteChildrenGroup. unfold_async.
    fold libH. by rewrite H1, H2, HH.
Qed.

Lemma C9_delete_group_of_missing_user_witness :
  let educators := Fixture.educators Fixture.users (Fulfilled tt) in
  let professionals :=
    Fixture.healthProfessionals Fixture.users (Fulfilled true) (Fulfilled VNull) in
  Async.run (EducatorService.deleteChildrenGroup educators
               "5a62be07de34500146d9c000" "5a62be07de34500146d9c544")
    = (Fulfilled true, [FindById "5a62be07de34500146d9c000"]) /\
  Async.result (HealthProfessionalService.deleteChildrenGroup professionals
                  "5a62be07de34500146d9c111" "5a62be07de34500146d9c544")
    = Fulfilled true.
Proof.
  intros educators professionals.
  destruct (C9_delete_group_of_missing_user educators professionals
              "5a62be07de34500146d9c000" "5a62be07de34500146d9c111"
              "5a62be07de34500146d9c544" eq_refl eq_refl)
    as [[_ HE] [_ HH]].
  split.
  - reflexivity.
  - apply HH; reflexivity.
Defined.

(** ** The children of a family *)

Lemma indexOf_from_notin (x : option string) (arr : list (option string)) (i : Z) :
  x ∉ arr -> Family.indexOf_from x arr i = (-1)%Z.
Proof.
  revert i. induction arr as [|y rest IH]; intros i Hnotin; cbn; [done|].
  apply not_elem_of_cons in Hnotin as [Hne Hrest].
  destruct (decide (y = x)); [congruence | by apply IH].
Qed.

Lemma indexOf_from_in (x : option string) (arr : list (option string)) (i : Z) :
  x ∈ arr -> (i <= Family.indexOf_from x arr i < i + Z.of_nat (length arr))%Z.
Proof.
  revert i. induction arr as [|y rest IH]; intros i Hin; cbn.
  - by apply elem_of_nil in Hin.
  - destruct (decide (y = x)) as [->|Hne]; [lia|].
    apply elem_of_cons in Hin as [->|Hin]; [done|].
    specialize (IH (i + 1)%Z Hin). lia.
Qed.

Lemma indexOf_from_app (x : option string) (p r : list (option string)) (i : Z) :
  Family.indexOf_from x (p ++ r) i
  = if decide (x ∈ p) then Family.indexOf_from x p i
    else Family.indexOf_from x r (i + Z.of_nat (length p)).
Proof.
  revert i. induction p as [|y p IH]; intros i.
  - cbn. rewrite decide_False by apply not_elem_of_nil. f_equal. lia.
  - cbn [app Family.indexOf_from]. destruct (decide (y = x)) as [->|Hne].
    + rewrite decide_True by apply list_elem_of_here. done.
    + rewrite IH. destruct (decide (x ∈ p)).
      * rewrite decide_True by by apply list_elem_of_further. done.
      * rewrite decide_False by (rewrite elem_of_cons; intros [->|]; done).
        f_equal. cbn [length]. lia.
Qed.

(** The callback of `removesRepeatedChildren` keeps the child at the end
    of [prefix] exactly when its id does not occur in [prefix]. *)
Lemma first_position_iff (prefix rest : list Child.t) (c : Child.t) :
  Z.eqb (Family.indexOf (Child.id c) (map Child.id (prefix ++ c :: rest)))
        (Z.of_nat (length prefix))
  = bool_decide (Child.id c ∉ map Child.id prefix).
Proof.
  unfold Family.indexOf. rewrite map_app, indexOf_from_app, length_map.
  destruct (decide (Child.id c ∈ map Child.id prefix)) as [Hin|Hnotin].
  - rewrite bool_decide_eq_false_2 by tauto.
    apply Z.eqb_neq. pose proof (indexOf_from_in _ _ 0%Z Hin) as Hbound.
    rewrite length_map in Hbound. lia.
  - rewrite bool_decide_eq_true_2 by done.
    cbn. rewrite decide_True by done. apply Z.eqb_refl.
Qed.

Lemma first_occurrences_ext (seen1 seen2 : list (option string)) (l : list Child.t) :
  (forall x, x ∈ seen1 <-> x ∈ seen2) ->
  Family.first_occurrences seen1 l = Family.first_occurrences seen2 l.
Proof.
  revert seen1 seen2. induction l as [|c l IH]; intros seen1 seen2 Hsame; cbn; [done|].
  destruct (decide (Child.id c ∈ seen1)) as [H1|H1];
    destruct (decide (Child.id c ∈ seen2)) as [H2|H2].
  - by apply IH.
  - exfalso. by apply H2, Hsame.
  - exfalso. by apply H1, Hsame.
  - f_equal. apply IH. intros x. rewrite !elem_of_cons, Hsame. tauto.
Qed.

Lemma filter_from_first_occurrences (prefix rest : list Child.t) :
  Family.filter_from
    (fun obj pos =>
       Z.eqb (Family.indexOf (Child.id obj) (map Child.id (prefix ++ rest))) pos)
    rest (Z.of_nat (length prefix))
  = Family.first_occurrences (map Child.id prefix) rest.
Proof.
  revert prefix. induction rest as [|c rest IH]; intros prefix; [done|].
  cbn [Family.filter_from Family.first_occurrences].
  rewrite first_position_iff.
  specialize (IH (prefix ++ [c])).
  rewrite <- app_assoc, length_app in IH. cbn [app length] in IH.
  replace (Z.of_nat (length prefix) + 1)%Z with (Z.of_nat (length prefix + 1)) by lia.
  rewrite IH.
  assert (Hsame : forall x, x ∈ map Child.id (prefix ++ [c])
                            <-> x ∈ Child.id c :: map Child.id prefix).
  { intros x. rewrite map_app, elem_of_app, elem_of_cons. cbn.
    rewrite list_elem_of_singleton. tauto. }
  destruct (decide (Child.id c ∈ map Child.id prefix)) as [Hin|Hnotin].
  - rewrite bool_decide_eq_false_2 by tauto.
    apply first_occurrences_ext. intros x. rewrite Hsame, elem_of_cons.
    split; [intros [->|]; done | tauto].
  - rewrite bool_decide_eq_true_2 by done. f_equal.
    by apply first_occurrences_ext.
Qed.

(** `removesRepeatedChildren` keeps, of every id, the first child that
    has it. *)
Lemma removesRepeatedChildren_first_occurrences (children : list Child.t) :
  Family.removesRepeatedChildren children = Family.first_occurrences [] children.
Proof. apply (filter_from_first_occurrences [] children). Qed.

Lemma first_occurrences_fresh (seen : list (option string)) (l : list Child.t) :
  NoDup (map Child.id (Family.first_occurrences seen l)) /\
  forall x, x ∈ map Child.id (Family.first_occurrences seen l) -> x ∉ seen.
Proof.
  revert seen. induction l as [|c l IH]; intros seen; cbn.
  - split; [constructor | intros x Hx; by apply elem_of_nil in Hx].
  - destruct (decide (Child.id c ∈ seen)) as [Hin|Hnotin]; [apply IH|].
    destruct (IH (Child.id c :: seen)) as [Hnodup Hfresh]. cbn. split.
    + constructor; [|done]. intros Hc. apply Hfresh in Hc.
      apply Hc, list_elem_of_here.
    + intros x [->|Hx]%elem_of_cons; [done|].
      apply Hfresh in Hx. intros Hseen. apply Hx. by apply list_elem_of_further.
Qed.

Lemma first_occurrences_covers (seen : list (option string)) (l : list Child.t) (c : Child.t) :
  c ∈ l -> Child.id c ∈ seen ++ map Child.id (Family.first_occurrences seen l).
Proof.
  revert seen. induction l as [|d l IH]; intros seen Hin.
  - by apply elem_of_nil in Hin.
  - cbn. apply elem_of_cons in Hin as [->|Hin].
    + destruct (decide (Child.id d ∈ seen)); rewrite elem_of_app; [by left|].
      right. apply list_elem_of_here.
    + destruct (decide (Child.id d ∈ seen)); [by apply IH|].
      specialize (IH (Child.id d :: seen) Hin).
      rewrite elem_of_app, elem_of_cons in IH. rewrite elem_of_app. cbn.
      rewrite elem_of_cons. tauto.
Qed.

Lemma first_occurrences_id (seen : list (option string)) (l : list Child.t) :
  NoDup (map Child.id l) -> (forall x, x ∈ map Child.id l -> x ∉ seen) ->
  Family.first_occurrences seen l = l.
Proof.
  revert seen. induction l as [|c l IH]; intros seen Hnodup Hfresh; cbn; [done|].
  cbn in Hnodup. apply NoDup_cons in Hnodup as [Hc Hnodup].
  rewrite decide_False by (apply Hfresh; apply list_elem_of_here).
  f_equal. apply IH; [done|].
  intros x Hx [->|Hseen]%elem_of_cons; [done|].
  by apply (Hfresh x); [apply list_elem_of_further|].
Qed.

Lemma first_occurrences_idemp (l : list Child.t) :
  Family.first_occurrences [] (Family.first_occurrences [] l)
  = Family.first_occurrences [] l.
Proof.
  destruct (first_occurrences_fresh [] l) as [Hnodup Hfresh].
  by apply first_occurrences_id.
Qed.

(** C10: the children list of a family never contains two entries with
    the same id: for every array assigned through the `children` setter,
    and after every `addChild`, the ids of the resulting list are pairwise
    distinct; the list is the assigned one (respectively the previous one
    with the child pushed) with duplicates removed, keeping the first
    occurrence, so no id is lost. *)
Theorem C10_children_ids_pairwise_distinct (this : Family.t) (value : list Child.t)
    (child : Child.t) :
  (exists assigned,
     Family.children (Family.set_children (Some value) this) = Some assigned /\
     NoDup (map Child.id assigned) /\
     assigned = Family.first_occurrences [] value /\
     forall c, c ∈ value -> Child.id c ∈ map Child.id assigned) /\
  (exists added,
     Family.children (Family.addChild child this) = Some added /\
     NoDup (map Child.id added) /\
     added = Family.first_occurrences [] (default [] (Family.children this) ++ [child]) /\
     forall c, c ∈ default [] (Family.children this) ++ [child] ->
               Child.id c ∈ map Child.id added).
Proof.
  split.
  - exists (Family.first_occurrences [] value).
    unfold Family.children, Family.set_children. cbn.
    rewrite removesRepeatedChildren_first_occurrences.
    split; [done|]. split; [apply first_occurrences_fresh|]. split; [done|].
    intros c Hc. apply (first_occurrences_covers [] value c Hc).
  - exists (Family.first_occurrences [] (default [] (Family.children this) ++ [child])).
    assert (Hpushed :
      default [] (Family.children
                    match Family.children this with
                    | Some _ => this
                    | None => Family.set_children (Some []) this
                    end)
      = default [] (Family.children this)).
    { by destruct this as [? ? ? [l|]]. }
    unfold Family.addChild. rewrite Hpushed.
    unfold Family.children at 1, Family.set_children. cbn [Family._children].
    rewrite !removesRepeatedChildren_first_occurrences, first_occurrences_idemp.
    split; [done|]. split; [apply first_occurrences_fresh|]. split; [done|].
    intros c Hc. apply (first_occurrences_covers [] _ c Hc).
Qed.

Example removesRepeatedChildren_example :
  map Child.id
    (Family.removesRepeatedChildren
       [ Child.mk (Some "a") (Some "first") None None;
         Child.mk (Some "b") None None None;
         Child.mk (Some "a") (Some "second") None None;
         Child.mk None (Some "no id") None None;
         Child.mk None (Some "no id either") None None ])
  = [Some "a"; Some "b"; None].
Proof. reflexivity. Qed.

(** ** More on the children of a family *)

Lemma first_occurrences_sublist (seen : list (option string)) (l : list Child.t) :
  sublist (Family.first_occurrences seen l) l.
Proof.
  revert seen. induction l as [|a l IH]; intros seen; cbn; [constructor|].
  destruct (decide (Child.id a ∈ seen)).
  - by apply sublist_cons.
  - by apply sublist_skip.
Qed.

Lemma first_occurrences_elem (seen : list (option string)) (l : list Child.t) (c : Child.t) :
  c ∈ Family.first_occurrences seen l <->
  exists i, l !! i = Some c /\ (Child.id c ∉ seen) /\
            forall j d, j < i -> l !! j = Some d -> Child.id d <> Child.id c.
Proof.
  revert seen. induction l as [|a l IH]; intros seen; cbn.
  - rewrite elem_of_nil. split; [done|]. by intros (i & Hi & _).
  - destruct (decide (Child.id a ∈ seen)) as [Hseen|Hfresh].
    + rewrite IH. split.
      * intros (i & Hi & Hc & Hfirst). exists (S i). split; [done|]. split; [done|].
        intros [|j] d Hj Hd; cbn in Hd.
        -- injection Hd as <-. congruence.
        -- apply (Hfirst j d); [lia | done].
      * intros ([|i] & Hi & Hc & Hfirst); cbn in Hi.
        -- injection Hi as <-. done.
        -- exists i. split; [done|]. split; [done|].
           intros j d Hj Hd. apply (Hfirst (S j) d); [lia | done].
    + rewrite elem_of_cons, IH. split.
      * intros [->|(i & Hi & Hc & Hfirst)].
        -- exists 0. split; [done|]. split; [done|]. intros j d Hj. lia.
        -- apply not_elem_of_cons in Hc as [Hne Hc].
           exists (S i). split; [done|]. split; [done|].
           intros [|j] d Hj Hd; cbn in Hd.
           ++ injection Hd as <-. congruence.
           ++ apply (Hfirst j d); [lia | done].
      * intros ([|i] & Hi & Hc & Hfirst); cbn in Hi.
        -- injection Hi as <-. by left.
        -- right. exists i. split; [done|]. split.
           ++ apply not_elem_of_cons. split; [|done].
              intros Heq. by apply (Hfirst 0 a); [lia | | ].
           ++ intros j d Hj Hd. apply (Hfirst (S j) d); [lia | done].
Qed.

(** X1: `removesRepeatedChildren` returns a subsequence of its input, in
    the input's order, made of exactly the children before which no
    child of the input has the same id. *)
Theorem X1_removesRepeatedChildren_keeps_first (children : list Child.t) :
  sublist (Family.removesRepeatedChildren children) children /\
  forall c, c ∈ Family.removesRepeatedChildren children <->
    exists i, children !! i = Some c /\
              forall j d, j < i -> children !! j = Some d -> Child.id d <> Child.id c.
Proof.
  rewrite removesRepeatedChildren_first_occurrences. split.
  - apply first_occurrences_sublist.
  - intros c. rewrite first_occurrences_elem. split.
    + intros (i & Hi & _ & Hfirst). by exists i.
    + intros (i & Hi & Hfirst). exists i. split; [done|]. split; [apply not_elem_of_nil | done].
Qed.

Lemma first_occurrences_app (seen : list (option string)) (l1 l2 : list Child.t) :
  Family.first_occurrences seen (l1 ++ l2)
  = Family.first_occurrences seen l1
    ++ Family.first_occurrences (map Child.id l1 ++ seen) l2.
Proof.
  revert seen. induction l1 as [|a l1 IH]; intros seen; cbn; [done|].
  destruct (decide (Child.id a ∈ seen)) as [Hseen|Hfresh].
  - rewrite IH. f_equal. apply first_occurrences_ext.
    intros x. rewrite elem_of_cons, !elem_of_app. split; [tauto|].
    intros [->|H]; [by right | done].
  - cbn. f_equal. rewrite IH. f_equal. apply first_occurrences_ext.
    intros x. rewrite !elem_of_cons, !elem_of_app, !elem_of_cons. tauto.
Qed.

(** X2: on a family whose children have pairwise distinct ids, `addChild`
    appends the child at the end when its id is new and changes nothing
    when a child with that id is already there (the child that was given
    is dropped). *)
Theorem X2_addChild_appends_or_ignores (this : Family.t) (child : Child.t) :
  let before := default [] (Family.children this) in
  NoDup (map Child.id before) ->
  Family.children (Family.addChild child this)
  = Some (if decide (Child.id child ∈ map Child.id before) then before
          else before ++ [child]).
Proof.
  intros before Hnodup.
  assert (Hpushed :
    default [] (Family.children
                  match Family.children this with
                  | Some _ => this
                  | None => Family.set_children (Some []) this
                  end) = before).
  { unfold before. by destruct this as [? ? ? [l|]]. }
  unfold Family.addChild. rewrite Hpushed.
  unfold Family.children at 1, Family.set_children. cbn [Family._children].
  rewrite !removesRepeatedChildren_first_occurrences, first_occurrences_idemp,
    first_occurrences_app, app_nil_r.
  rewrite (first_occurrences_id [] before Hnodup)
    by (intros x _; apply not_elem_of_nil).
  f_equal. cbn. destruct (decide (Child.id child ∈ map Child.id before)).
  - by rewrite app_nil_r.
  - done.
Qed.

Lemma X2_addChild_appends_or_ignores_witness :
  let first := Child.mk (Some "a") (Some "first") None None in
  let other := Child.mk (Some "b") None None None in
  let again := Child.mk (Some "a") (Some "second") None None in
  let family := Family.mk (Some "f") None None (Some [first]) in
  Family.children (Family.addChild other family) = Some [first; other] /\
  Family.children (Family.addChild again family) = Some [first].
Proof.
  intros first other again family. split.
  - apply (X2_addChild_appends_or_ignores family other). apply NoDup_singleton.
  - apply (X2_addChild_appends_or_ignores family again). apply NoDup_singleton.
Defined.

(** X3: assigning to `children` what the getter returns changes nothing:
    the stored list is a fixed point of the setter, whatever was assigned
    first. *)
Theorem X3_children_setter_getter_round_trip (this : Family.t)
    (value : option (list Child.t)) :
  let assigned := Family.set_children value this in
  Family.set_children (Family.children assigned) assigned = assigned.
Proof.
  destruct value as [l|]; cbn; [|done].
  unfold Family.set_children, Family.children. cbn. do 2 f_equal.
  by rewrite !removesRepeatedChildren_first_occurrences, first_occurrences_idemp.
Qed.

(** ** Selecting a children group of a user *)

(** A filter whose callback only looks at the position keeps the
    element at that position, if there is one. *)
Lemma filter_from_position {A} (k : Z) (l : list A) (p : Z) :
  length (Family.filter_from (fun _ pos => Z.eqb k pos) l p)
  = if decide (p <= k < p + Z.of_nat (length l))%Z then 1 else 0.
Proof.
  revert p. induction l as [|a l IH]; intros p; cbn [Family.filter_from length].
  - rewrite decide_False by lia. done.
  - destruct (Z.eqb_spec k p) as [->|Hne]; cbn [length]; rewrite IH.
    + rewrite decide_False by lia. rewrite decide_True by lia. done.
    + destruct (decide (p + 1 <= k < p + 1 + Z.of_nat (length l))%Z).
      * rewrite decide_True by lia. done.
      * rewrite decide_False by lia. done.
Qed.

(** The check of `getChildrenGroupById` finds exactly one group when the
    id is among the ids of the user's groups, and none otherwise. *)
Lemma checkGroups_length (childrenGroupId : string) (groups : list ChildrenGroup.t) :
  length (checkGroups childrenGroupId groups)
  = if decide (Some childrenGroupId ∈ map ChildrenGroup.id groups) then 1 else 0.
Proof.
  unfold checkGroups. rewrite filter_from_position.
  destruct (decide (Some childrenGroupId ∈ map ChildrenGroup.id groups)) as [Hin|Hnotin].
  - pose proof (indexOf_from_in _ _ 0%Z Hin) as Hbound.
    rewrite length_map in Hbound. rewrite decide_True; [done|].
    unfold Family.indexOf. lia.
  - unfold Family.indexOf. rewrite (indexOf_from_notin _ _ 0%Z Hnotin).
    by rewrite decide_False by lia.
Qed.

Ltac unfold_calls :=
  unfold Async.effects, Async.result, Async.run, lift_base, Async.call;
  unfold Async.try_catch, Async.bind, Async.perform, Async.await,
    Async.check, Async.ret, Async.throw, Async.then_catch.

(** Case analysis on the innermost call or test the goal branches on. *)
Ltac case_innermost :=
  match goal with
  | |- context [match ?x with _ => _ end] =>
      lazymatch x with
      | context [match _ with _ => _ end] => fail
      | _ => destruct x eqn:?
      end
  end.

(** X4: `getChildrenGroupById` of both services, for an existing user
    with a list of groups and well-formed ids: the group service is asked
    for the group exactly when its id is among the ids of the user's
    groups, and its answer is returned; otherwise the method resolves
    `undefined` without asking. *)
Theorem X4_getChildrenGroupById_selects_own_groups
    (educators : EducatorOps.t) (professionals : HealthProfessionalOps.t)
    (educatorId healthProfessionalId childrenGroupId : string) (query : value)
    (educator healthProfessional : User.t) (groupsE groupsH : list ChildrenGroup.t) :
  EducatorOps.validate_educator_id educators educatorId = None ->
  EducatorOps.validate_group_id educators childrenGroupId = None ->
  ObjectIdValidator_validate (HealthProfessionalOps.lib professionals)
    healthProfessionalId None = None ->
  ObjectIdValidator_validate (HealthProfessionalOps.lib professionals)
    childrenGroupId None = None ->
  repo_findById (EducatorOps.repository educators) educatorId = Fulfilled (Some educator) ->
  User.children_groups educator = Some groupsE ->
  repo_findById (HealthProfessionalOps.repository professionals) healthProfessionalId
    = Fulfilled (Some healthProfessional) ->
  User.children_groups healthProfessional = Some groupsH ->
  Async.run (EducatorOps.getChildrenGroupById educators educatorId childrenGroupId query)
  = (if decide (Some childrenGroupId ∈ map ChildrenGroup.id groupsE)
     then (cg_getById (EducatorOps.groups educators) childrenGroupId query,
           [Base (FindById educatorId); GroupGetById childrenGroupId query])
     else (Fulfilled None, [Base (FindById educatorId)])) /\
  Async.run (HealthProfessionalOps.getChildrenGroupById professionals healthProfessionalId
               childrenGroupId query)
  = (if decide (Some childrenGroupId ∈ map ChildrenGroup.id groupsH)
     then (cg_getById (HealthProfessionalOps.groups professionals) childrenGroupId query,
           [Base (FindById healthProfessionalId); GroupGetById childrenGroupId query])
     else (Fulfilled None, [Base (FindById healthProfessionalId)])).
Proof.
  intros HvE HvG HvH HvG' HfindE HgroupsE HfindH HgroupsH. split.
  - unfold EducatorOps.getChildrenGroupById. unfold_calls.
    rewrite HvE, HvG, HfindE, HgroupsE, checkGroups_length. cbn [app].
    destruct (decide (Some childrenGroupId ∈ map ChildrenGroup.id groupsE)).
    + rewrite bool_decide_eq_true_2 by done. by destruct (cg_getById _ _ _).
    + by rewrite bool_decide_eq_false_2 by done.
  - unfold HealthProfessionalOps.getChildrenGroupById. unfold_calls.
    rewrite HvH, HvG', HfindH, HgroupsH, checkGroups_length. cbn [app].
    destruct (decide (Some childrenGroupId ∈ map ChildrenGroup.id groupsH)).
    + rewrite bool_decide_eq_true_2 by done. by destruct (cg_getById _ _ _).
    + by rewrite bool_decide_eq_false_2 by done.
Qed.

Lemma X4_getChildrenGroupById_selects_own_groups_witness :
  Async.run (EducatorOps.getChildrenGroupById Sample.educators Sample.known_id
               Sample.group_id VNull)
  = (Fulfilled (Some Sample.group),
     [Base (FindById Sample.known_id); GroupGetById Sample.group_id VNull]) /\
  Async.run (HealthProfessionalOps.getChildrenGroupById Sample.professionals
               Sample.known_id Sample.group_id VNull)
  = (Fulfilled (Some Sample.group),
     [Base (FindById Sample.known_id); GroupGetById Sample.group_id VNull]).
Proof.
  exact (X4_getChildrenGroupById_selects_own_groups Sample.educators Sample.professionals
           Sample.known_id Sample.known_id Sample.group_id VNull
           Sample.member Sample.member [Sample.group] [Sample.group]
           eq_refl eq_refl eq_refl eq_refl eq_refl eq_refl eq_refl eq_refl).
Defined.

(** ** Adding and removing users *)

(** The institution step only calls the institution repository, and
    lets the method go on only when the institution is in order. *)
Lemma check_institution_run (lib : Imports) (repo : IInstitutionRepository)
    (user : User.t) :
  (forall e, e ∈ (check_institution lib repo user []).2 ->
             exists i, e = InstitutionCheckExist i) /\
  (forall a, (check_institution lib repo user []).1 = Fulfilled a ->
             institution_ok repo user).
Proof.
  unfold check_institution, institution_ok.
  unfold Async.call, Async.bind, Async.perform, Async.await, Async.ret, Async.throw.
  destruct (User.institution user) as [i|]; [destruct (Institution.id i)|]; cbn.
  - split.
    + intros e He. exists i.
      destruct (inst_checkExist repo i) as [[]| |]; cbn in He;
        by apply list_elem_of_singleton in He.
    + intros a. by destruct (inst_checkExist repo i) as [[]| |].
  - split; [intros e He; by apply elem_of_nil in He | done].
  - split; [intros e He; by apply elem_of_nil in He | done].
Qed.

(** Membership in a trace that is put together from known calls and the
    calls of a lifted step. *)
Ltac inv_calls H :=
  repeat first
    [ rewrite elem_of_app in H
    | rewrite elem_of_cons in H
    | rewrite elem_of_nil in H
    | rewrite list_elem_of_fmap in H
    | match type of H with _ \/ _ => destruct H as [H|H] end
    | match type of H with ex _ => destruct H as (? & ? & H) end ];
  try done; try congruence.

Lemma ignore_last_login_none (user : User.t) :
  User.last_login (ignore_last_login user) = None.
Proof. by destruct user as [? ? ? ? ? []]. Qed.

(** X5: `add` of both services hands to the repository's `create` only
    the given user with `last_login` cleared, and only after the
    validator accepted it, the repository knew no such user and the
    institution, if one is given by id, was found; the result is then what
    `create` returns. *)
Theorem X5_add_creates_only_after_checks
    (educators : EducatorOps.t) (professionals : HealthProfessionalOps.t)
    (educator healthProfessional : User.t) :
  (forall u, Create u ∈ Async.effects (EducatorOps.add educators educator) ->
     u = ignore_last_login educator /\ User.last_login u = None /\
     CreateEducatorValidator_validate (EducatorOps.statics educators) educator = None /\
     repo_checkExist (EducatorOps.repository educators) u = Fulfilled false /\
     institution_ok (EducatorService._institutionRepository (EducatorOps.service educators)) u /\
     Async.result (EducatorOps.add educators educator)
     = repo_create (EducatorOps.writes educators) u) /\
  (forall u, Create u ∈ Async.effects (HealthProfessionalOps.add professionals
                                         healthProfessional) ->
     u = ignore_last_login healthProfessional /\ User.last_login u = None /\
     CreateHealthProfessionalValidator_validate (HealthProfessionalOps.statics professionals)
       healthProfessional = None /\
     repo_checkExist (HealthProfessionalOps.repository professionals) u = Fulfilled false /\
     institution_ok (HealthProfessionalService._institutionRepository
                       (HealthProfessionalOps.service professionals)) u /\
     Async.result (HealthProfessionalOps.add professionals healthProfessional)
     = repo_create (HealthProfessionalOps.writes professionals) u).
Proof.
  split; intros u.
  - unfold EducatorOps.add. unfold_calls.
    pose proof (check_institution_run (EducatorOps.lib educators)
      (EducatorService._institutionRepository (EducatorOps.service educators))
      (ignore_last_login educator)) as [Hcalls Hok].
    repeat case_innermost; cbn [fst snd app]; intros Hin.
    all: inv_calls Hin.
    injection Hin as ->. rewrite ignore_last_login_none.
    destruct a0. repeat split; try done. by apply (Hok tt).
  - unfold HealthProfessionalOps.add. unfold_calls.
    pose proof (check_institution_run (HealthProfessionalOps.lib professionals)
      (HealthProfessionalService._institutionRepository
         (HealthProfessionalOps.service professionals))
      (ignore_last_login healthProfessional)) as [Hcalls Hok].
    repeat case_innermost; cbn [fst snd app]; intros Hin; inv_calls Hin.
    injection Hin as ->. rewrite ignore_last_login_none.
    destruct a0. repeat split; try done. by apply (Hok tt).
Qed.

Example add_example :
  Async.run (EducatorOps.add Sample.educators Sample.newcomer)
  = (Fulfilled (ignore_last_login Sample.newcomer),
     [Base (CheckExist (ignore_last_login Sample.newcomer));
      Create (ignore_last_login Sample.newcomer)]).
Proof. reflexivity. Qed.

(** X6: `remove` of both services deletes the children groups of a user
    exactly when the id is well formed and the repository reports the
    user as deleted; a resolved result is the repository's answer, and
    with a malformed id nothing is called. *)
Theorem X6_remove_cascades_exactly_after_deletion
    (educators : EducatorOps.t) (professionals : HealthProfessionalOps.t) (id : string) :
  let runE := EducatorOps.remove educators id in
  let runH := HealthProfessionalOps.remove professionals id in
  ((DeleteAllChildrenGroupsFromUser id ∈ Async.effects runE <->
    EducatorOps.validate_educator_id educators id = None /\
    repo_delete (EducatorOps.writes educators) id = Fulfilled true) /\
   (forall b, Async.result runE = Fulfilled b ->
              repo_delete (EducatorOps.writes educators) id = Fulfilled b) /\
   (forall e, EducatorOps.validate_educator_id educators id = Some e ->
              Async.run runE = (Rejected e, []))) /\
  ((DeleteAllChildrenGroupsFromUser id ∈ Async.effects runH <->
    ObjectIdValidator_validate (HealthProfessionalOps.lib professionals) id None = None /\
    repo_delete (HealthProfessionalOps.writes professionals) id = Fulfilled true) /\
   (forall b, Async.result runH = Fulfilled b ->
              repo_delete (HealthProfessionalOps.writes professionals) id = Fulfilled b) /\
   (forall e, ObjectIdValidator_validate (HealthProfessionalOps.lib professionals) id None
              = Some e ->
              Async.run runH = (Rejected e, []))).
Proof.
  intros runE runH. split.
  - unfold runE, EducatorOps.remove. unfold_calls.
    split; [|split].
    + repeat case_innermost; cbn [fst snd app]; split.
      all: try (intros [? ?]; try congruence; rewrite !elem_of_cons; by auto).
      all: intros Hin; inv_calls Hin; split; congruence.
    + intros b. repeat case_innermost; cbn [fst snd app]; congruence.
    + intros e He. by rewrite He.
  - unfold runH, HealthProfessionalOps.remove. unfold_calls.
    split; [|split].
    + repeat case_innermost; cbn [fst snd app]; split.
      all: try (intros [? ?]; try congruence; rewrite !elem_of_cons; by auto).
      all: intros Hin; inv_calls Hin; split; congruence.
    + intros b. repeat case_innermost; cbn [fst snd app]; congruence.
    + intros e He. by rewrite He.
Qed.

Example remove_example :
  Async.run (HealthProfessionalOps.remove Sample.professionals Sample.known_id)
  = (Fulfilled true,
     [Delete Sample.known_id; DeleteAllChildrenGroupsFromUser Sample.known_id]) /\
  Async.run (HealthProfessionalOps.remove Sample.professionals Sample.unknown_id)
  = (Fulfilled false, [Delete Sample.unknown_id]).
Proof. split; reflexivity. Qed.

(** ** The children groups of a user *)

(** X7: `saveChildrenGroup` of both services creates a group only for a
    user that exists and has a list of groups; when it resolves, it
    returns the group the group service created, and the user, with that
    group added, has been handed to the repository's `update`. *)
Theorem X7_saveChildrenGroup_only_for_existing_user
    (educators : EducatorOps.t) (professionals : HealthProfessionalOps.t)
    (educatorId healthProfessionalId : string) (childrenGroup : ChildrenGroup.t) :
  let runE := EducatorOps.saveChildrenGroup educators educatorId childrenGroup in
  let runH := HealthProfessionalOps.saveChildrenGroup professionals healthProfessionalId
                childrenGroup in
  ((forall g, GroupAdd g ∈ Async.effects runE ->
      g = childrenGroup /\
      exists user groups,
        repo_findById (EducatorOps.repository educators) educatorId
          = Fulfilled (Some user) /\
        User.children_groups user = Some groups) /\
   (forall created, Async.result runE = Fulfilled created ->
      cg_add (EducatorOps.groups educators) childrenGroup = Fulfilled created /\
      exists user,
        repo_findById (EducatorOps.repository educators) educatorId
          = Fulfilled (Some user) /\
        Base (Update (addChildrenGroup (EducatorOps.statics educators) user created))
          ∈ Async.effects runE)) /\
  ((forall g, GroupAdd g ∈ Async.effects runH ->
      g = childrenGroup /\
      exists user groups,
        repo_findById (HealthProfessionalOps.repository professionals) healthProfessionalId
          = Fulfilled (Some user) /\
        User.children_groups user = Some groups) /\
   (forall created, Async.result runH = Fulfilled created ->
      cg_add (HealthProfessionalOps.groups professionals) childrenGroup
        = Fulfilled created /\
      exists user,
        repo_findById (HealthProfessionalOps.repository professionals) healthProfessionalId
          = Fulfilled (Some user) /\
        Base (Update (addChildrenGroup (HealthProfessionalOps.statics professionals)
                        user created))
          ∈ Async.effects runH)).
Proof.
  intros runE runH. split; split.
  - intros g. unfold runE, EducatorOps.saveChildrenGroup. unfold_calls.
    repeat case_innermost; cbn [fst snd app]; intros Hin; inv_calls Hin.
    all: injection Hin as ->; split; [done|]; eauto.
  - intros created. unfold runE, EducatorOps.saveChildrenGroup. unfold_calls.
    repeat case_innermost; cbn [fst snd app]; intros Hres; try discriminate.
    injection Hres as ->. split; [done|]. eexists. split; [done|].
    rewrite !elem_of_cons. auto.
  - intros g. unfold runH, HealthProfessionalOps.saveChildrenGroup. unfold_calls.
    repeat case_innermost; cbn [fst snd app]; intros Hin; inv_calls Hin.
    all: injection Hin as ->; split; [done|]; eauto.
  - intros created. unfold runH, HealthProfessionalOps.saveChildrenGroup. unfold_calls.
    repeat case_innermost; cbn [fst snd app]; intros Hres; try discriminate.
    injection Hres as ->. split; [done|]. eexists. split; [done|].
    rewrite !elem_of_cons. auto.
Qed.

Example saveChildrenGroup_example :
  let created := ChildrenGroup.mk (Some Sample.other_group_id) (Some "class 5B") in
  Async.run (EducatorOps.saveChildrenGroup Sample.educators Sample.known_id created)
  = (Fulfilled created,
     [Base (FindById Sample.known_id); GroupAdd created;
      Base (Update (addChildrenGroup Sample.statics Sample.member created))]) /\
  Async.run (EducatorOps.saveChildrenGroup Sample.educators Sample.unknown_id created)
  = (Rejected (EducatorOps.not_found Sample.educators),
     [Base (FindById Sample.unknown_id)]).
Proof. split; reflexivity. Qed.

(** X8: `updateChildrenGroup` of both services hands the group to the
    group service exactly when the ids that are given are well formed and
    the user exists: whether the group is one of the user's groups plays no
    part.  For a user that does not exist the method rejects with the
    not-found validation error. *)
Theorem X8_updateChildrenGroup_whenever_user_exists
    (educators : EducatorOps.t) (professionals : HealthProfessionalOps.t)
    (educatorId healthProfessionalId : string) (childrenGroup : ChildrenGroup.t) :
  let runE := EducatorOps.updateChildrenGroup educators educatorId childrenGroup in
  let runH := HealthProfessionalOps.updateChildrenGroup professionals healthProfessionalId
                childrenGroup in
  let group_id := default "" (ChildrenGroup.id childrenGroup) in
  ((GroupUpdate childrenGroup ∈ Async.effects runE <->
    EducatorOps.validate_educator_id educators educatorId = None /\
    (truthy (ChildrenGroup.id childrenGroup) = true ->
     EducatorOps.validate_group_id educators group_id = None) /\
    exists user, repo_findById (EducatorOps.repository educators) educatorId
                 = Fulfilled (Some user)) /\
   (EducatorOps.validate_educator_id educators educatorId = None ->
    (truthy (ChildrenGroup.id childrenGroup) = true ->
     EducatorOps.validate_group_id educators group_id = None) ->
    repo_findById (EducatorOps.repository educators) educatorId = Fulfilled None ->
    Async.result runE = Rejected (EducatorOps.not_found educators))) /\
  ((GroupUpdate childrenGroup ∈ Async.effects runH <->
    ObjectIdValidator_validate (HealthProfessionalOps.lib professionals)
      healthProfessionalId None = None /\
    (truthy (ChildrenGroup.id childrenGroup) = true ->
     ObjectIdValidator_validate (HealthProfessionalOps.lib professionals) group_id None
     = None) /\
    exists user, repo_findById (HealthProfessionalOps.repository professionals)
                   healthProfessionalId = Fulfilled (Some user)) /\
   (ObjectIdValidator_validate (HealthProfessionalOps.lib professionals)
      healthProfessionalId None = None ->
    (truthy (ChildrenGroup.id childrenGroup) = true ->
     ObjectIdValidator_validate (HealthProfessionalOps.lib professionals) group_id None
     = None) ->
    repo_findById (HealthProfessionalOps.repository professionals) healthProfessionalId
      = Fulfilled None ->
    Async.result runH = Rejected (HealthProfessionalOps.not_found professionals))).
Proof.
  intros runE runH group_id. split; split.
  - unfold runE, group_id, EducatorOps.updateChildrenGroup. unfold_calls.
    repeat case_innermost; cbn [fst snd app]; split.
    all: try (intros (? & Hgroup & user & ?); try specialize (Hgroup eq_refl);
              try congruence; rewrite !elem_of_cons; by auto).
    all: intros Hin; inv_calls Hin.
    all: repeat split; try congruence; eauto.
  - unfold runE, group_id, EducatorOps.updateChildrenGroup. unfold_calls.
    intros -> Hgroup ->. destruct (truthy _); [rewrite Hgroup|]; done.
  - unfold runH, group_id, HealthProfessionalOps.updateChildrenGroup. unfold_calls.
    repeat case_innermost; cbn [fst snd app]; split.
    all: try (intros (? & Hgroup & user & ?); try specialize (Hgroup eq_refl);
              try congruence; rewrite !elem_of_cons; by auto).
    all: intros Hin; inv_calls Hin.
    all: repeat split; try congruence; eauto.
  - unfold runH, group_id, HealthProfessionalOps.updateChildrenGroup. unfold_calls.
    intros -> Hgroup ->. destruct (truthy _); [rewrite Hgroup|]; done.
Qed.

(** X9: `getAllChildrenGroups` of both services queries the group
    service only for a user that exists, carries the requested id and
    does not have an empty list of groups.  The health professional
    service then adds the filter `user_id` to the query, the educator
    service passes the query as it received it.  For a user that does not
    exist the health professional service resolves an empty list and the
    educator service rejects with its not-found validation error. *)
Theorem X9_getAllChildrenGroups_queries_for_existing_user
    (educators : EducatorOps.t) (professionals : HealthProfessionalOps.t)
    (educatorId healthProfessionalId : string) (query : value) :
  let runE := EducatorOps.getAllChildrenGroups educators educatorId query in
  let runH := HealthProfessionalOps.getAllChildrenGroups professionals
                healthProfessionalId query in
  ((forall q, GroupGetAll q ∈ Async.effects runE ->
      q = query /\
      exists user,
        repo_findById (EducatorOps.repository educators) educatorId
          = Fulfilled (Some user) /\
        User.id user = Some educatorId /\ User.children_groups user <> Some []) /\
   (EducatorOps.validate_educator_id educators educatorId = None ->
    repo_findById (EducatorOps.repository educators) educatorId = Fulfilled None ->
    Async.result runE = Rejected (EducatorOps.not_found educators))) /\
  ((forall q, GroupGetAll q ∈ Async.effects runH ->
      q = addFilter (HealthProfessionalOps.statics professionals)
            [("user_id", VStr healthProfessionalId)] query /\
      exists user,
        repo_findById (HealthProfessionalOps.repository professionals) healthProfessionalId
          = Fulfilled (Some user) /\
        User.id user = Some healthProfessionalId /\
        User.children_groups user <> Some []) /\
   (ObjectIdValidator_validate (HealthProfessionalOps.lib professionals)
      healthProfessionalId None = None ->
    repo_findById (HealthProfessionalOps.repository professionals) healthProfessionalId
      = Fulfilled None ->
    Async.result runH = Fulfilled [])).
Proof.
  intros runE runH. split; split.
  - intros q. unfold runE, EducatorOps.getAllChildrenGroups. unfold_calls.
    repeat case_innermost; cbn [fst snd app]; intros Hin; inv_calls Hin.
    all: injection Hin as ->; split; [done|]; eexists; split; [done|].
    all: split; [by apply dec_stable | congruence].
  - unfold runE, EducatorOps.getAllChildrenGroups. unfold_calls. by intros -> ->.
  - intros q. unfold runH, HealthProfessionalOps.getAllChildrenGroups. unfold_calls.
    repeat case_innermost; cbn [fst snd app]; intros Hin; inv_calls Hin.
    all: injection Hin as ->; split; [done|]; eexists; split; [done|].
    all: split; [by apply dec_stable | congruence].
  - unfold runH, HealthProfessionalOps.getAllChildrenGroups. unfold_calls. by intros -> ->.
Qed.

Example getAllChildrenGroups_example :
  Async.run (HealthProfessionalOps.getAllChildrenGroups Sample.professionals
               Sample.known_id (VObj []))
  = (Fulfilled [Sample.group],
     [Base (FindById Sample.known_id);
      GroupGetAll (VObj [("user_id", VStr Sample.known_id)])]) /\
  Async.run (EducatorOps.getAllChildrenGroups Sample.educators Sample.known_id (VObj []))
  = (Fulfilled [Sample.group],
     [Base (FindById Sample.known_id); GroupGetAll (VObj [])]).
Proof. split; reflexivity. Qed.

(** X10: `deleteChildrenGroup` of both services, with well-formed ids,
    asks the group service to remove the group for every user that
    exists, whether or not the group is one of the user's; the user is
    updated only after the group service answered true, with the group
    taken off the user; and a result of false always is the group
    service's answer. *)
Theorem X10_deleteChildrenGroup_of_existing_user
    (educators : EducatorService.t) (professionals : HealthProfessionalService.t)
    (educatorId healthProfessionalId childrenGroupId : string) :
  let runE := EducatorService.deleteChildrenGroup educators educatorId childrenGroupId in
  let runH := HealthProfessionalService.deleteChildrenGroup professionals
                healthProfessionalId childrenGroupId in
  let libE := EducatorService.lib educators in
  let libH := HealthProfessionalService.lib professionals in
  let group := ChildrenGroup.mk (Some childrenGroupId) None in
  ((ChildrenGroupRemove childrenGroupId ∈ Async.effects runE <->
    ObjectIdValidator_validate libE educatorId
      (Some (EDUCATOR_PARAM_ID_NOT_VALID_FORMAT libE)) = None /\
    ObjectIdValidator_validate libE childrenGroupId
      (Some (CHILDREN_GROUP_PARAM_ID_NOT_VALID_FORMAT libE)) = None /\
    exists user, repo_findById (EducatorService._educatorRepository educators) educatorId
                 = Fulfilled (Some user)) /\
   (forall u, Update u ∈ Async.effects runE ->
      cg_remove (EducatorService._childrenGroupService educators) childrenGroupId
        = Fulfilled true /\
      exists user, repo_findById (EducatorService._educatorRepository educators) educatorId
                   = Fulfilled (Some user) /\
                   u = removeChildrenGroup libE user group) /\
   (Async.result runE = Fulfilled false ->
    cg_remove (EducatorService._childrenGroupService educators) childrenGroupId
      = Fulfilled false)) /\
  ((ChildrenGroupRemove childrenGroupId ∈ Async.effects runH <->
    ObjectIdValidator_validate libH healthProfessionalId None = None /\
    ObjectIdValidator_validate libH childrenGroupId None = None /\
    exists user,
      repo_findById (HealthProfessionalService._healthProfessionalRepository professionals)
        healthProfessionalId = Fulfilled (Some user)) /\
   (forall u, Update u ∈ Async.effects runH ->
      cg_remove (HealthProfessionalService._childrenGroupService professionals)
        childrenGroupId = Fulfilled true /\
      exists user,
        repo_findById (HealthProfessionalService._healthProfessionalRepository professionals)
          healthProfessionalId = Fulfilled (Some user) /\
        u = removeChildrenGroup libH user group) /\
   (Async.result runH = Fulfilled false ->
    cg_remove (HealthProfessionalService._childrenGroupService professionals)
      childrenGroupId = Fulfilled false)).
Proof.
  intros runE runH libE libH group. split; (split; [|split]).
  - unfold runE, libE, EducatorService.deleteChildrenGroup. unfold_calls.
    repeat case_innermost; cbn [fst snd app]; split.
    all: try (intros (? & ? & user & ?); try congruence; rewrite !elem_of_cons; by auto).
    all: intros Hin; inv_calls Hin.
    all: repeat split; try congruence; eauto.
  - intros u. unfold runE, libE, group, EducatorService.deleteChildrenGroup. unfold_calls.
    repeat case_innermost; cbn [fst snd app]; intros Hin; inv_calls Hin.
    all: injection Hin as ->; split; [congruence|]; eauto.
  - unfold runE, EducatorService.deleteChildrenGroup. unfold_calls.
    repeat case_innermost; cbn [fst snd app]; congruence.
  - unfold runH, libH, HealthProfessionalService.deleteChildrenGroup. unfold_calls.
    repeat case_innermost; cbn [fst snd app]; split.
    all: try (intros (? & ? & user & ?); try congruence; rewrite !elem_of_cons; by auto).
    all: intros Hin; inv_calls Hin.
    all: repeat split; try congruence; eauto.
  - intros u. unfold runH, libH, group, HealthProfessionalService.deleteChildrenGroup.
    unfold_calls.
    repeat case_innermost; cbn [fst snd app]; intros Hin; inv_calls Hin.
    all: injection Hin as ->; split; [congruence|]; eauto.
  - unfold runH, HealthProfessionalService.deleteChildrenGroup. unfold_calls.
    repeat case_innermost; cbn [fst snd app]; congruence.
Qed.

(** ** Families and their children *)

Ltac unfold_family :=
  unfold FamilyService.check_children, FamilyService.check_institution;
  unfold_calls.



Example associateChild_example :
  let carl := FamilyService.child_of_id "5a62be07d6f33400146c9b63" in
  Async.result (FamilyService.associateChild FamilySample.service
                  "5a62be07de34500146d9c544" "5a62be07d6f33400146c9b63")
  = Fulfilled (Some (FamilyService.push_child carl FamilySample.household)) /\
  Async.result (FamilyService.associateChild FamilySample.service
                  "5a62be07de34500146d9c544" "5a62be07d6f33400146c9b62")
  = Fulfilled (Some FamilySample.household).
Proof. split; reflexivity. Qed.

Lemma removesRepeatedChildren_subset (children : list Child.t) (c : Child.t) :
  c ∈ Family.removesRepeatedChildren children -> c ∈ children.
Proof.
  rewrite removesRepeatedChildren_first_occurrences. intros Hc.
  eapply elem_of_sublist; [exact Hc | apply first_occurrences_sublist].
Qed.

(** X12: `disassociateChild` hands a family to the repository's `update`
    only when the family exists and has a list of children; the family it
    hands over has the children it had, in their order, without any child
    of the given id.  What it resolves then tells whether `update` returned
    an entity; for a family without a list of children it resolves true
    with no update, and for a family that does not exist `undefined`. *)
Theorem X12_disassociateChild_removes_the_child (this : FamilyService.t)
    (familyId childId : string) :
  let query := FamilyService.Query_set_filters (FamilyService.imports this)
                 (FamilyService.family_filter this familyId)
                 (FamilyService.Query_new (FamilyService.imports this)) in
  let run := FamilyService.disassociateChild this familyId childId in
  (forall updated, FamilyService.Update updated ∈ Async.effects run ->
     exists family before after,
       FamilyService.family_findOne (FamilyService._familyRepository this) query
         = Fulfilled (Some family) /\
       Family.children family = Some before /\
       Family.children updated = Some after /\
       sublist after before /\
       (Some childId ∉ map Child.id after) /\
       (forall c, c ∈ before -> Child.id c <> Some childId ->
                  Child.id c ∈ map Child.id after) /\
       (forall b, Async.result run = Fulfilled (Some b) ->
                  exists returned,
                    FamilyService.family_update (FamilyService._familyRepository this)
                      updated = Fulfilled returned /\
                    b = bool_decide (is_Some returned))) /\
  (forall family,
     FamilyService.family_findOne (FamilyService._familyRepository this) query
       = Fulfilled (Some family) ->
     Family.children family = None ->
     Async.run run = (Fulfilled (Some true), [FamilyService.FindOne query])) /\
  (FamilyService.family_findOne (FamilyService._familyRepository this) query
     = Fulfilled None ->
   Async.run run = (Fulfilled None, [FamilyService.FindOne query])).
Proof.
  intros query run. split; [|split].
  - intros updated. unfold run, FamilyService.disassociateChild. fold query. unfold_calls.
    repeat case_innermost; cbn [fst snd app]; intros Hin; inv_calls Hin.
    all: injection Hin as ->.
    all: match goal with
         | H : Family.children ?f = Some ?l |- _ =>
             exists f, l,
               (Family.removesRepeatedChildren
                  (filter (fun child => Child.id child <> Some childId) l))
         end.
    all: split; [done|]; split; [done|]; split; [done|].
    all: split;
      [ etrans; [rewrite removesRepeatedChildren_first_occurrences;
                 apply first_occurrences_sublist | apply sublist_filter] |].
    all: split;
      [ intros (c & Hid & Hc)%list_elem_of_In%in_map_iff;
        apply list_elem_of_In, removesRepeatedChildren_subset in Hc;
        apply list_elem_of_filter in Hc as [Hne _]; congruence |].
    all: split;
      [ intros c Hc Hne;
        rewrite removesRepeatedChildren_first_occurrences;
        apply (first_occurrences_covers [] _ c);
        by apply list_elem_of_filter |].
    all: intros b Hb; try discriminate; injection Hb as <-; eauto.
  - intros family Hfind Hnone. unfold run, FamilyService.disassociateChild.
    fold query. unfold_calls. by rewrite Hfind, Hnone.
  - intros Hfind. unfold run, FamilyService.disassociateChild.
    fold query. unfold_calls. by rewrite Hfind.
Qed.

Example disassociateChild_example :
  Async.run (FamilyService.disassociateChild FamilySample.service
               "5a62be07de34500146d9c544" "5a62be07d6f33400146c9b61")
  = (Fulfilled (Some true),
     [FamilyService.FindOne
        (VObj [("filters", VObj [("_id", VStr "5a62be07de34500146d9c544");
                                 ("type", VStr "family")])]);
      FamilyService.Update
        (Family.mk (Some "5a62be07de34500146d9c544") (Some "household") None
           (Some [FamilySample.bob]))]).
Proof. reflexivity. Qed.

(** X13: FamilyService hands a family to the repository's `create`, and
    to its `update`, only as it was given and only after the child
    repository did not report children without a record (a boolean
    answer, true or false, lets the method go on) and the institution, if
    one is given by id, was found; `create` in addition only after the
    validator accepted the family and the repository knew no such
    family. *)
Theorem X13_family_saved_only_after_checks (this : FamilyService.t) (family : Family.t) :
  (forall f, FamilyService.Create f ∈ Async.effects (FamilyService.add this family) ->
     f = family /\
     FamilyService.FamilyValidator_validate (FamilyService.imports this) family = None /\
     FamilyService.family_checkExist (FamilyService._familyRepository this) family
       = Fulfilled false /\
     family_children_ok this family /\ family_institution_ok this family) /\
  (forall f, FamilyService.Update f ∈ Async.effects (FamilyService.update this family) ->
     f = family /\ family_children_ok this family /\ family_institution_ok this family).
Proof.
  split; intros f.
  - unfold FamilyService.add, family_children_ok, family_institution_ok. unfold_family.
    repeat case_innermost; cbn [fst snd app]; intros Hin; inv_calls Hin.
    all: injection Hin as ->; repeat split; try done; try congruence; eauto.
    all: match goal with H : negb ?b = false |- _ => by destruct b end.
  - unfold FamilyService.update, family_children_ok, family_institution_ok. unfold_family.
    repeat case_innermost; cbn [fst snd app]; intros Hin; inv_calls Hin.
    all: injection Hin as ->; repeat split; try done; try congruence; eauto.
    all: match goal with H : negb ?b = false |- _ => by destruct b end.
Qed.

Example family_add_example :
  Async.run (FamilyService.add FamilySample.service FamilySample.household)
  = (Fulfilled FamilySample.household,
     [FamilyService.CheckExist FamilySample.household;
      FamilyService.ChildCheckExist (inr [FamilySample.ann; FamilySample.bob]);
      FamilyService.Create FamilySample.household]).
Proof. reflexivity. Qed.

(** ** The JWT key task *)

Ltac unfold_keys :=
  unfold GenerateJwtKeysTask.run, GenerateJwtKeysTask.generateKeys,
    GenerateJwtKeysTask.generate, GenerateJwtKeysTask.write,
    GenerateJwtKeysTask.generateJWTPrivateKey, GenerateJwtKeysTask.getJWTPublicKey,
    GenerateJwtKeysTask.from_callback;
  unfold_calls.

(** X14 (GenerateJwtKeysTask.run, generateKeys): the task never rejects.
    It stays pending only while `pem` has not answered, and it logs
    `Failure generating JWT keys: <message>` exactly for the message of
    the step that failed: the creation of the private key, the
    derivation of the public key, or one of the two writes. *)
Theorem X14_generateKeys_never_rejects (this : GenerateJwtKeysTask.t) :
  let private := GenerateJwtKeysTask.jwt_private_key_path this in
  let public := GenerateJwtKeysTask.jwt_public_key_path this in
  let made := GenerateJwtKeysTask.createPrivateKey this in
  let derived := GenerateJwtKeysTask.getPublicKey this in
  let failed (write : option exn) (err : exn) := write = Some err in
  (forall e, Async.result (GenerateJwtKeysTask.run this) <> Rejected e) /\
  (Async.result (GenerateJwtKeysTask.run this) = Pending ->
     made = Pending \/ exists k, made = Fulfilled k /\ derived k = Pending) /\
  (forall m,
     GenerateJwtKeysTask.LogError m ∈ Async.effects (GenerateJwtKeysTask.run this) ->
     exists err,
       m = "Failure generating JWT keys: " +:+ message err /\
       (made = Rejected err \/
        exists k, made = Fulfilled k /\
          (derived k = Rejected err \/
           exists p, derived k = Fulfilled p /\
             (failed (GenerateJwtKeysTask.writeFileSync this private k) err \/
              GenerateJwtKeysTask.writeFileSync this private k = None /\
              failed (GenerateJwtKeysTask.writeFileSync this public p) err)))).
Proof.
  intros private public made derived failed.
  subst private public made derived failed. cbv beta.
  unfold_keys.
  destruct (GenerateJwtKeysTask.existsSync this (GenerateJwtKeysTask.jwt_private_key_path this));
    [destruct (GenerateJwtKeysTask.existsSync this (GenerateJwtKeysTask.jwt_public_key_path this))|];
    cbn [negb app fst snd];
    try (split; [done|split; [done|]]; intros m Hin; inv_calls Hin; fail).
  all: destruct (GenerateJwtKeysTask.createPrivateKey this) as [k|e1|] eqn:Hk;
    cbn [app fst snd message].
  all: try destruct (GenerateJwtKeysTask.getPublicKey this k) as [p|e2|] eqn:Hp;
    cbn [app fst snd message].
  all: try destruct (GenerateJwtKeysTask.writeFileSync this
                       (GenerateJwtKeysTask.jwt_private_key_path this) k) as [e3|] eqn:Hw1;
    cbn [app fst snd message].
  all: try destruct (GenerateJwtKeysTask.writeFileSync this
                       (GenerateJwtKeysTask.jwt_public_key_path this) p) as [e4|] eqn:Hw2;
    cbn [app fst snd message].
  all: split; [done|split; [intros; try done; eauto|]].
  all: intros m Hin; inv_calls Hin.
  all: match goal with
       | H : GenerateJwtKeysTask.LogError _ = GenerateJwtKeysTask.LogError _ |- _ =>
           injection H as ->
       end.
  all: eexists; split; [reflexivity|]; eauto 10.
Qed.

(** X15 (GenerateJwtKeysTask.generateKeys): with both key files in place
    the task only looks at them.  Otherwise `fs.writeFileSync` is not
    called before `pem` has produced both keys, the private key goes
    first, the public key follows if that write did not throw, and what
    is passed is that pair; so a machine that only lacks the public key
    file gets its private key file replaced as well. *)
Theorem X15_generateKeys_writes_the_generated_pair (this : GenerateJwtKeysTask.t) :
  let private := GenerateJwtKeysTask.jwt_private_key_path this in
  let public := GenerateJwtKeysTask.jwt_public_key_path this in
  let made := GenerateJwtKeysTask.createPrivateKey this in
  let derived := GenerateJwtKeysTask.getPublicKey this in
  let written :=
    GenerateJwtKeysTask.written (Async.effects (GenerateJwtKeysTask.run this)) in
  (GenerateJwtKeysTask.existsSync this private = true ->
   GenerateJwtKeysTask.existsSync this public = true ->
   Async.effects (GenerateJwtKeysTask.run this) =
     [GenerateJwtKeysTask.ExistsSync private; GenerateJwtKeysTask.ExistsSync public]) /\
  (written = [] \/
   exists k p, made = Fulfilled k /\ derived k = Fulfilled p /\
     (written = [(private, k)] /\
      GenerateJwtKeysTask.writeFileSync this private k <> None \/
      written = [(private, k); (public, p)] /\
      GenerateJwtKeysTask.writeFileSync this private k = None)) /\
  (forall k p,
     GenerateJwtKeysTask.existsSync this private = false \/
     GenerateJwtKeysTask.existsSync this public = false ->
     made = Fulfilled k -> derived k = Fulfilled p ->
     head written = Some (private, k)).
Proof.
  intros private public made derived written.
  subst private public made derived written. cbv beta.
  unfold_keys.
  destruct (GenerateJwtKeysTask.existsSync this (GenerateJwtKeysTask.jwt_private_key_path this));
    [destruct (GenerateJwtKeysTask.existsSync this (GenerateJwtKeysTask.jwt_public_key_path this))|];
    cbn [negb app fst snd].
  { split; [done|]. split; [by left|]. intros k p [?|?]; done. }
  all: split; [done|].
  all: destruct (GenerateJwtKeysTask.createPrivateKey this) as [k|e1|] eqn:Hk;
    cbn [app fst snd message];
    try (split; [by left|]; intros; done).
  all: destruct (GenerateJwtKeysTask.getPublicKey this k) as [p|e2|] eqn:Hp;
    cbn [app fst snd message];
    try (split; [by left|]; intros ? ? _ [= <-]; rewrite Hp; done).
  all: destruct (GenerateJwtKeysTask.writeFileSync this
                   (GenerateJwtKeysTask.jwt_private_key_path this) k) as [e3|] eqn:Hw1;
    cbn [app fst snd message].
  all: try destruct (GenerateJwtKeysTask.writeFileSync this
                       (GenerateJwtKeysTask.jwt_public_key_path this) p) as [e4|] eqn:Hw2;
    cbn [app fst snd message].
  all: split;
    [ right; exists k, p; split; [done|]; split; [done|];
      first [ left; split; [reflexivity|congruence]
            | right; split; [reflexivity|congruence] ]
    | intros ? ? _ [= <-] _; reflexivity ].
Qed.

(** A machine that lacks the public key file only: both files are
    written, the private key file with a new key. *)
Example generateKeys_example :
  Async.run (GenerateJwtKeysTask.run JwtSample.task) =
    (Fulfilled tt,
     [GenerateJwtKeysTask.ExistsSync ".certs/jwt.key";
      GenerateJwtKeysTask.ExistsSync ".certs/jwt.key.pub";
      GenerateJwtKeysTask.CreatePrivateKey;
      GenerateJwtKeysTask.GetPublicKey "PRIVATE";
      GenerateJwtKeysTask.WriteFileSync ".certs/jwt.key" "PRIVATE";
      GenerateJwtKeysTask.WriteFileSync ".certs/jwt.key.pub" "PUBLIC OF PRIVATE"]) /\
  Async.run (GenerateJwtKeysTask.run JwtSample.read_only) =
    (Fulfilled tt,
     [GenerateJwtKeysTask.ExistsSync ".certs/jwt.key";
      GenerateJwtKeysTask.ExistsSync ".certs/jwt.key.pub";
      GenerateJwtKeysTask.CreatePrivateKey;
      GenerateJwtKeysTask.GetPublicKey "PRIVATE";
      GenerateJwtKeysTask.WriteFileSync ".certs/jwt.key" "PRIVATE";
      GenerateJwtKeysTask.WriteFileSync ".certs/jwt.key.pub" "PUBLIC OF PRIVATE";
      GenerateJwtKeysTask.LogError
        "Failure generating JWT keys: EACCES: permission denied"]).
Proof. split; reflexivity. Qed.

(** ** The background service *)

Ltac unfold_background :=
  unfold BackgroundService.startServices, BackgroundService.stopServices,
    BackgroundService.start;
  unfold_calls.

(** X16 (BackgroundService constructor and startServices): in a service
    built by its constructor both task fields hold what the container
    binds to `EVENT_BUS_TASK`, so `startServices` runs the event bus
    task before the connection to the database is tried (with no
    retries and an interval of 1000), whatever becomes of that
    connection, and runs it a second time exactly when the connection is
    established; no other task is run.  A failed connection rejects with
    `Error initializing services in background! <message>`. *)
Theorem X16_startServices_runs_the_event_bus_task_twice
    (container : BackgroundService.Container) :
  let this := BackgroundService.new container in
  let task := BackgroundService.EVENT_BUS_TASK container in
  let connected :=
    BackgroundService.tryConnect (BackgroundService.MONGODB_CONNECTION container) 0 1000 in
  let before := [BackgroundService.Run task; BackgroundService.TryConnect 0 1000] in
  Async.run (BackgroundService.startServices this) =
    match connected with
    | Fulfilled _ => (Fulfilled tt, before ++ [BackgroundService.Run task])
    | Rejected err =>
        (Rejected (Error ("Error initializing services in background! " +:+ message err)),
         before)
    | Pending => (Pending, before)
    end /\
  (forall other, BackgroundService.Run other
                   ∈ Async.effects (BackgroundService.startServices this) ->
                 other = task).
Proof.
  intros this task connected before. subst this task connected before.
  unfold BackgroundService.startServices, BackgroundService.start,
    BackgroundService.mongodb_tryConnect, BackgroundService.new.
  unfold_calls. cbn [BackgroundService._mongodb BackgroundService._eventBusTask
    BackgroundService._registerDefaultAdminTask].
  destruct (BackgroundService.tryConnect _ 0 1000) as [[]|e|]; cbn [app fst snd].
  all: split; [reflexivity|].
  all: intros other Hin; inv_calls Hin.
Qed.

(** X17 (BackgroundService.stopServices): the event bus task is stopped
    exactly when the database connection was disposed of; the method
    resolves when both did, and a failure of either one, also of the
    task's `stop`, rejects with `Error stopping MongoDB! <message>`. *)
Theorem X17_stopServices_disposes_then_stops (this : BackgroundService.t) :
  let disposed := BackgroundService.mongodb_dispose this in
  let stopped := BackgroundService.eventBusTask_stop this in
  let effs := Async.effects (BackgroundService.stopServices this) in
  (BackgroundService.EventBusTaskStop ∈ effs <-> disposed = Fulfilled tt) /\
  (Async.result (BackgroundService.stopServices this) = Fulfilled tt <->
     disposed = Fulfilled tt /\ stopped = Fulfilled tt) /\
  (forall err,
     disposed = Rejected err \/ disposed = Fulfilled tt /\ stopped = Rejected err ->
     Async.result (BackgroundService.stopServices this) =
       Rejected (Error ("Error stopping MongoDB! " +:+ message err))).
Proof.
  intros disposed stopped effs. subst disposed stopped effs.
  unfold_background.
  unfold BackgroundService.mongodb_dispose, BackgroundService.eventBusTask_stop.
  destruct (BackgroundService.dispose _) as [[]|e|];
    [destruct (BackgroundService.stop _) as [[]|e|]| |];
    cbn [app fst snd].
  all: split; [split; [intros Hin; inv_calls Hin|intros; try done; rewrite !elem_of_cons; auto]|].
  all: split; [split; [intros; try done|intros [? ?]; done]|].
  all: intros err [?|[? ?]]; try done; congruence.
Qed.

(** ** The routes of the health professional controller *)

(** A route whose `catch` answers never rejects. *)
Lemma route_never_rejects (this : HealthProfessionalController.t)
    (body : Async.t effect HealthProfessionalController.Response) (e : exn) :
  Async.result (Async.try_catch body (HealthProfessionalController.handle this)) <> Rejected e.
Proof.
  unfold Async.result, Async.run, Async.try_catch, HealthProfessionalController.handle,
    Async.ret.
  by destruct (body []) as [[?|?|] ?].
Qed.

(** X18 (HealthProfessionalController.disassociateChildFromHealthProfessional):
    the route never rejects.  With two well-formed ids it answers 204
    with no body also when the health professional does not exist, in
    which case no removal is asked for, and when the group service
    reports that it removed nothing; a malformed health professional id
    is answered by the error handler before any call. *)
Theorem X18_delete_route_answers_no_content
    (this : HealthProfessionalController.t) (healthprofessional_id group_id : string) :
  let service := HealthProfessionalController._healthProfessionalService this in
  let validate := ObjectIdValidator_validate (HealthProfessionalService.lib service) in
  let found :=
    repo_findById (HealthProfessionalService._healthProfessionalRepository service)
      healthprofessional_id in
  let route :=
    HealthProfessionalController.disassociateChildFromHealthProfessional this
      healthprofessional_id group_id in
  let no_content :=
    {| HealthProfessionalController.status := 204;
       HealthProfessionalController.body := VUndefined |} in
  let handled err :=
    {| HealthProfessionalController.status :=
         (HealthProfessionalController.ApiExceptionManager_build
            (HealthProfessionalController.imports this) err).1;
       HealthProfessionalController.body :=
         (HealthProfessionalController.ApiExceptionManager_build
            (HealthProfessionalController.imports this) err).2 |} in
  (forall e, Async.result route <> Rejected e) /\
  (forall err, validate healthprofessional_id None = Some err ->
     Async.run route = (Fulfilled (handled err), [])) /\
  (validate healthprofessional_id None = None -> validate group_id None = None ->
     (found = Fulfilled None ->
      Async.run route = (Fulfilled no_content, [FindById healthprofessional_id])) /\
     (forall user, found = Fulfilled (Some user) ->
        cg_remove (HealthProfessionalService._childrenGroupService service) group_id
          = Fulfilled false ->
        Async.run route =
          (Fulfilled no_content,
           [FindById healthprofessional_id; ChildrenGroupRemove group_id]))).
Proof.
  intros service validate found route no_content handled.
  split; [intros e; apply route_never_rejects|].
  subst service validate found route no_content handled. cbv beta.
  unfold HealthProfessionalController.disassociateChildFromHealthProfessional,
    HealthProfessionalController.handle, HealthProfessionalService.deleteChildrenGroup.
  unfold_calls.
  split.
  - intros err ->. reflexivity.
  - intros -> ->. cbn [app fst snd]. split.
    + intros ->. reflexivity.
    + intros user -> ->. reflexivity.
Qed.

(** X19 (HealthProfessionalController.updateHealthProfessionalById): the
    route never rejects.  The service is given the body's health
    professional with the id of the path and no `last_login`.  Once the
    repository has updated it the answer is 200 with the updated entity
    whatever boolean the publication returns, but the error handler's
    answer when the publication rejects, although the update is done;
    when the repository finds nothing to update the answer is 404 and
    nothing reaches the bus or the event store. *)
Theorem X19_update_route_answers
    (this : HealthProfessionalController.t) (healthprofessional_id : string)
    (req_body : value) :
  let service := HealthProfessionalController._healthProfessionalService this in
  let imports := HealthProfessionalController.imports this in
  let healthProfessional :=
    HealthProfessionalController.without_last_login
      (User.set_id (Some healthprofessional_id)
         (HealthProfessionalController.HealthProfessional_fromJSON imports req_body)) in
  let route :=
    HealthProfessionalController.updateHealthProfessionalById this
      healthprofessional_id req_body in
  let answer code content :=
    Fulfilled {| HealthProfessionalController.status := code;
                 HealthProfessionalController.body := content |} in
  (forall e, Async.result route <> Rejected e) /\
  (forall up, HealthProfessionalService.commits service healthProfessional up ->
     Update healthProfessional ∈ Async.effects route /\
     match bus_publish (HealthProfessionalService._eventBus service)
             (HealthProfessionalService.update_event service up)
             "healthprofessionals.update" with
     | Fulfilled _ =>
         Async.result route =
           answer 200%Z (HealthProfessionalController.toJSONView imports up)
     | Rejected err =>
         Async.result route =
           answer (HealthProfessionalController.ApiExceptionManager_build imports err).1
             (HealthProfessionalController.ApiExceptionManager_build imports err).2
     | Pending => Async.result route = Pending
     end) /\
  (UpdateUserValidator_validate (HealthProfessionalService.lib service) healthProfessional
     = None ->
   repo_checkExist (HealthProfessionalService._healthProfessionalRepository service)
     (User.set_id None healthProfessional) = Fulfilled false ->
   institution_ok (HealthProfessionalService._institutionRepository service)
     healthProfessional ->
   repo_update (HealthProfessionalService._healthProfessionalRepository service)
     healthProfessional = Fulfilled None ->
   Async.result route =
     answer 404%Z (HealthProfessionalController.getMessageHealthProfessionalNotFound imports) /\
   bus_calls (Async.effects route) = [] /\
   store_creates (Async.effects route) = []).
Proof.
  intros service imports healthProfessional route answer.
  split; [intros e; apply route_never_rejects|].
  subst route answer. cbv beta.
  unfold HealthProfessionalController.updateHealthProfessionalById,
    HealthProfessionalController.handle.
  fold service. fold imports. cbv zeta. fold healthProfessional.
  unfold HealthProfessionalService.update.
  unfold_calls.
  split.
  - intros up (Hvalid & Hexist & Hinst & Hup).
    destruct (check_institution_ok (HealthProfessionalService.lib service) _ _
                [CheckExist (User.set_id None healthProfessional)] Hinst)
      as (mid & _ & Hcheck).
    rewrite Hvalid. cbn [app]. rewrite Hexist, set_id_restore, Hcheck, Hup.
    destruct (bus_publish _ _ _) as [[]| |]; cbn [negb app fst snd];
      rewrite ?saveEvent_run; cbn [fst snd].
    all: split; [|reflexivity].
    all: repeat first [rewrite elem_of_app | rewrite elem_of_cons]; auto 10.
  - intros Hvalid Hexist Hinst Hup.
    destruct (check_institution_ok (HealthProfessionalService.lib service) _ _
                [CheckExist (User.set_id None healthProfessional)] Hinst)
      as (mid & Hmid & Hcheck).
    rewrite Hvalid. cbn [app]. rewrite Hexist, set_id_restore, Hcheck, Hup.
    cbn [fst snd]. split; [reflexivity|].
    assert (Hsilent : silent (([CheckExist (User.set_id None healthProfessional)] ++ mid)
                              ++ [Update healthProfessional])).
    { apply silent_app; [apply silent_app; [by repeat constructor|done]
                        | by repeat constructor]. }
    split; [by apply silent_bus_calls | by apply silent_store_creates].
Qed.

(** A PATCH whose publication is refused: the repository is updated and
    the client is told of a server error.  A DELETE for a health
    professional nobody knows: 204. *)
Example routes_example :
  let doctor :=
    User.mk (Some "5a62be07de34500146d9c544") (Some "doctor") None None None None in
  let refused :=
    ControllerSample.controller
      (Fixture.healthProfessionals Fixture.users (Rejected Fixture.unreachable) Pending) in
  Async.run (HealthProfessionalController.updateHealthProfessionalById refused
               "5a62be07de34500146d9c544" (VObj [("username", VStr "doctor")])) =
    (Fulfilled {| HealthProfessionalController.status := 500;
                  HealthProfessionalController.body :=
                    VObj [("message", VStr "bus unreachable")] |},
     [CheckExist (User.set_id None doctor);
      Update doctor;
      Publish (UserUpdateEvent.new "HealthProfessionalUpdateEvent"
                 (Some (Date_now Fixture.lib)) doctor)
        "healthprofessionals.update"]) /\
  Async.run (HealthProfessionalController.disassociateChildFromHealthProfessional refused
               "5a62be07de34500146d9c544" "5a62be07de34500146d9c545") =
    (Fulfilled {| HealthProfessionalController.status := 204;
                  HealthProfessionalController.body := VUndefined |},
     [FindById "5a62be07de34500146d9c544"]).
Proof. split; reflexivity. Qed.
